(** * The data service and cache-aside layer of the analytics API

    A shallow embedding of [api/services/data_service.py] and of the routes
    in [api/routes/] that call it, with the properties its specification
    states about them.

    Conventions of the embedding.
    - Python [int] is [Z]; Python [float] is an exact rational [Qc]
      (rounding, infinities and NaN are not represented).
    - A raised exception is the [Raise] outcome of [except].
    - The Redis server is explicit state, threaded through every [async]
      method of the service ([cached]).
    - What the SQL engine computes from a [text(...)] statement is an
      input: the rows an [execute] call returns are a field of the session.
    - The repository is written against SQLAlchemy 2 (its loaders call
      [conn.commit()]), whose session refuses a statement handed over as a
      plain [str]; three routes hand theirs over so.
    - The texts of the errors of pydantic and of the session depend on
      the library and are inputs as well. *)

From Stdlib Require Import ZArith QArith Qcanon Lia Ascii.
From stdpp Require Import base strings list gmap pretty.
From stdpp Require Import sorting.

Set Warnings "-register-all".

(** ** Python: exceptions, values, builtins *)

Module Py.

(** The exceptions the code raises or may receive from its libraries. *)
Inductive exn : Type :=
| HTTPException (status_code : Z) (detail : string)
| Error (kind : string) (msg : string).

(** [str(e)]: Starlette prints an [HTTPException] as "<status>: <detail>",
    every other exception as its message. *)
Definition exn_str (e : exn) : string :=
  match e with
  | HTTPException status_code detail => pretty status_code +:+ ": " +:+ detail
  | Error _ msg => msg
  end.

Inductive except (A : Type) : Type :=
| Return (a : A)
| Raise (e : exn).
Arguments Return {A} a.
Arguments Raise {A} e.

Definition bind {A B} (m : except A) (k : A -> except B) : except B :=
  match m with
  | Return a => k a
  | Raise e => Raise e
  end.

(** [try: body / except Exception as e: handler(e)]. *)
Definition try_except {A} (body : except A) (handler : exn -> except A)
  : except A :=
  match body with
  | Return a => Return a
  | Raise e => handler e
  end.

(** [try: body / except HTTPException: raise / except Exception as e:
    handler(e)]. *)
Definition try_except_http {A} (body : except A) (handler : exn -> except A)
  : except A :=
  match body with
  | Return a => Return a
  | Raise (HTTPException s d) => Raise (HTTPException s d)
  | Raise e => handler e
  end.

(** [max(a, b)] returns its first argument unless the second is greater. *)
Definition max_int (a b : Z) : Z := if (a <? b)%Z then b else a.
Definition max_float (a b : Qc) : Qc :=
  if decide (a < b)%Qc then b else a.

(** [a / b] on numbers: [ZeroDivisionError] when [b] is zero. *)
Definition truediv (a b : Qc) : except Qc :=
  if decide (b = 0%Qc) then Raise (Error "ZeroDivisionError" "division by zero")
  else Return (a / b)%Qc.

Definition float_of_int (z : Z) : Qc := Q2Qc (inject_Z z).

(** [a // b] on integers. *)
Definition floordiv (a b : Z) : except Z :=
  if (b =? 0)%Z
  then Raise (Error "ZeroDivisionError" "integer division or modulo by zero")
  else Return (a `div` b)%Z.

(** [x or 0] on a nullable integer column: [None] and [0] both give [0]. *)
Definition or_zero (x : option Z) : Z :=
  match x with
  | Some z => if (z =? 0)%Z then 0%Z else z
  | None => 0%Z
  end.

Definition or_zero_float (x : option Qc) : Qc :=
  match x with
  | Some q => if decide (q = 0%Qc) then 0%Qc else q
  | None => 0%Qc
  end.

(** [l[:n]]: a negative bound counts from the end. *)
Definition slice_to {A} (n : Z) (l : list A) : list A :=
  if (0 <=? n)%Z then take (Z.to_nat n) l
  else take (length l - Z.to_nat (- n)) l.

(** [sum(l)] of integers. *)
Definition sum (l : list Z) : Z := foldr Z.add 0%Z l.

(** [len(l)]. *)
Definition len {A} (l : list A) : Z := Z.of_nat (length l).

(** [s[:n] + "..." if len(s) > n else s]. *)
Definition truncate (n : nat) (s : string) : string :=
  if (Z.of_nat n <? Z.of_nat (String.length s))%Z
  then String.substring 0 n s +:+ "..."
  else s.

(** [needle in hay] on strings. *)
Fixpoint contains (needle hay : string) : bool :=
  String.prefix needle hay
  || match hay with
     | EmptyString => false
     | String _ rest => contains needle rest
     end.

(** [s.lower()], on the ASCII letters. *)
Definition lower_ascii (c : ascii) : ascii :=
  let n := nat_of_ascii c in
  if (65 <=? n)%nat && (n <=? 90)%nat then ascii_of_nat (n + 32) else c.

Fixpoint lower (s : string) : string :=
  match s with
  | EmptyString => EmptyString
  | String c rest => String (lower_ascii c) (lower rest)
  end.

(** [sorted(l, key=key, reverse=True)]: the stable sort by descending
    key.  Elements with equal keys keep their order in [l]. *)
Fixpoint insert_desc {A} (key : A -> Z) (x : A) (l : list A) : list A :=
  match l with
  | [] => [x]
  | y :: l' => if (key x <? key y)%Z then y :: insert_desc key x l'
               else x :: l
  end.

Definition sorted_desc {A} (key : A -> Z) (l : list A) : list A :=
  foldr (insert_desc key) [] l.

(** [s.split(sep)] for a separator of one character: the pieces between
    the separators, empty pieces included. *)
Fixpoint split (sep : ascii) (s : string) : list string :=
  match s with
  | EmptyString => [EmptyString]
  | String c rest =>
      if Ascii.eqb c sep then EmptyString :: split sep rest
      else match split sep rest with
           | [] => [String c EmptyString]
           | piece :: pieces => String c piece :: pieces
           end
  end.

(** [sep.join(l)]. *)
Fixpoint join (sep : string) (l : list string) : string :=
  match l with
  | [] => EmptyString
  | [x] => x
  | x :: l' => x +:+ sep +:+ join sep l'
  end.

(** [if s:] on an optional string: [None] and the empty string are false. *)
Definition given (s : option string) : bool :=
  match s with
  | Some s => negb (String.eqb s EmptyString)
  | None => false
  end.

End Py.

Import Py.

Notation "x <- m ;; k" := (Py.bind m (fun x => k))
  (at level 100, m at next level, right associativity, only parsing).

(** ** The response schemas of [api/schemas.py] *)

Definition datetime := Z.

(** A calendar date, compared field by field and printed in ISO form. *)
Module date.
Record t := { year : Z; month : Z; day : Z }.

Definition leb (a b : t) : bool :=
  (year a <? year b)%Z
  || ((year a =? year b)%Z
      && ((month a <? month b)%Z
          || ((month a =? month b)%Z && (day a <=? day b)%Z))).

Definition pad2 (z : Z) : string :=
  if (z <? 10)%Z then "0" +:+ pretty z else pretty z.

Definition str (d : t) : string :=
  pretty (year d) +:+ "-" +:+ pad2 (month d) +:+ "-" +:+ pad2 (day d).
End date.

Module ChannelResponse.
Record t := {
  channel_name : string;
  channel_type : string;
  total_posts : Z;
  avg_views : Qc;
  channel_key : string;
  first_post_date : option datetime;
  last_post_date : option datetime;
  image_percentage : Qc;
  activity_status : string
}.
End ChannelResponse.

Module ChannelActivity.
Record t := {
  date : date.t;
  message_count : Z;
  avg_views : Qc;
  avg_forwards : Qc
}.
End ChannelActivity.

Module MessageResponse.
Record t := {
  message_id : Z;
  message_text : string;
  message_date : datetime;
  channel_name : string;
  view_count : Z;
  forward_count : Z;
  has_image : bool;
  message_length : Z;
  engagement_score : Qc
}.
End MessageResponse.

Module TopProduct.
Record t := {
  product_name : string;
  mention_count : Z;
  channels : list string;
  avg_views : Qc
}.
End TopProduct.

Module VisualContentStats.
Record t := {
  total_images : Z;
  images_by_channel : list (string * Z);
  images_by_category : list (string * Z);
  avg_detections_per_image : Qc;
  top_detected_objects : list (option string * Z)
}.
End VisualContentStats.

Module EngagementMetrics.
Record t := {
  total_messages : Z;
  total_views : Z;
  total_forwards : Z;
  avg_views_per_message : Qc;
  avg_forwards_per_message : Qc;
  top_performing_messages : list MessageResponse.t
}.
End EngagementMetrics.

(** The pydantic objects the service builds. *)
Inductive model : Type :=
| MChannel (c : ChannelResponse.t)
| MActivity (a : ChannelActivity.t)
| MMessage (m : MessageResponse.t)
| MProduct (p : TopProduct.t)
| MVisual (s : VisualContentStats.t)
| MEngagement (e : EngagementMetrics.t).

(** A Python [str]: given by its characters, or as [str(m)] of a pydantic
    object [m] (its field-by-field rendering, whose characters are not
    needed here; it is never empty, every schema having fields). *)
Inductive pystr : Type :=
| Lit (s : string)
| StrOf (m : model).

(** A JSON document: what [json.dumps] writes and [json.loads] reads. *)
Inductive json : Type :=
| JNull
| JBool (b : bool)
| JInt (z : Z)
| JFloat (q : Qc)
| JStr (s : pystr)
| JArr (l : list json)
| JObj (d : list (string * json)).

(** The Python values the service's methods return: JSON-shaped data, as
    [json.loads] yields it, and pydantic objects. *)
Inductive value : Type :=
| VNone
| VBool (b : bool)
| VInt (z : Z)
| VFloat (q : Qc)
| VStr (s : pystr)
| VList (l : list value)
| VDict (d : list (string * value))
| VModel (m : model).

(** Truth value testing, [if v:]. *)
Definition truthy_str (s : pystr) : bool :=
  match s with
  | Lit s => negb (String.eqb s "")
  | StrOf _ => true
  end.

Definition truthy (v : value) : bool :=
  match v with
  | VNone => false
  | VBool b => b
  | VInt z => negb (z =? 0)%Z
  | VFloat q => if decide (q = 0%Qc) then false else true
  | VStr s => truthy_str s
  | VList l => match l with [] => false | _ => true end
  | VDict d => match d with [] => false | _ => true end
  | VModel _ => true
  end.

(** [type(v).__name__]. *)
Definition class_name (m : model) : string :=
  match m with
  | MChannel _ => "ChannelResponse"
  | MActivity _ => "ChannelActivity"
  | MMessage _ => "MessageResponse"
  | MProduct _ => "TopProduct"
  | MVisual _ => "VisualContentStats"
  | MEngagement _ => "EngagementMetrics"
  end.

Definition type_name (v : value) : string :=
  match v with
  | VNone => "NoneType"
  | VBool _ => "bool"
  | VInt _ => "int"
  | VFloat _ => "float"
  | VStr _ => "str"
  | VList _ => "list"
  | VDict _ => "dict"
  | VModel m => class_name m
  end.

(** [json.loads] on a well-formed document. *)
Fixpoint loads (j : json) : value :=
  match j with
  | JNull => VNone
  | JBool b => VBool b
  | JInt z => VInt z
  | JFloat q => VFloat q
  | JStr s => VStr s
  | JArr l => VList (map loads l)
  | JObj d => VDict (map (fun kv => (kv.1, loads kv.2)) d)
  end.

(** [json.dumps(v, default=str)]: what the encoder cannot serialise -- here
    the pydantic objects -- is replaced by its [str]. *)
Fixpoint dumps (v : value) : json :=
  match v with
  | VNone => JNull
  | VBool b => JBool b
  | VInt z => JInt z
  | VFloat q => JFloat q
  | VStr s => JStr s
  | VList l => JArr (map dumps l)
  | VDict d => JObj (map (fun kv => (kv.1, dumps kv.2)) d)
  | VModel m => JStr (StrOf m)
  end.

(** ** The Redis server behind [redis.asyncio.Redis]

    The client is created with [decode_responses=True], so [GET] yields a
    [str] or [None].  A stored string is either the text of a JSON document
    or a string [json.loads] rejects (the empty string is one of these). *)

Module Redis.

Inductive data : Type :=
| Text (j : json)
| Junk (nonempty : bool).

(** [if data:] on the string read back. *)
Definition truthy_data (d : data) : bool :=
  match d with
  | Text _ => true
  | Junk nonempty => nonempty
  end.

(** [json.loads(data)]: raises on anything but a JSON text. *)
Definition json_loads (d : data) : except value :=
  match d with
  | Text j => Return (loads j)
  | Junk _ => Raise (Error "JSONDecodeError" "Expecting value")
  end.

(** [json.dumps(v, default=str)] as the string handed to [SETEX]. *)
Definition json_dumps (v : value) : data := Text (dumps v).

Record entry := { expires_at : Z; content : data }.

(** The server: whether it answers, its clock in seconds, its keys. *)
Record t := {
  reachable : bool;
  clock : Z;
  entries : gmap string entry
}.

Definition unreachable : exn := Error "ConnectionError" "redis unavailable".

(** [GET key]: the live entry, if any.  The server drops an entry once
    its clock has passed the instant the entry expires at; at that instant
    itself the entry is still served. *)
Definition get (r : t) (key : string) : except (option data) :=
  if reachable r then
    Return (match entries r !! key with
            | Some e => if (clock r <=? expires_at e)%Z then Some (content e)
                        else None
            | None => None
            end)
  else Raise unreachable.

(** [SETEX key ttl value]. *)
Definition setex (r : t) (key : string) (ttl : Z) (v : data) : except t :=
  if reachable r then
    Return {| reachable := reachable r;
              clock := clock r;
              entries := <[key := {| expires_at := clock r + ttl;
                                     content := v |}]> (entries r) |}
  else Raise unreachable.

(** The client handle a service holds ([redis_client] of
    [api/dependencies.py]). *)
Inductive client : Type := Client.

End Redis.

(** ** The warehouse session

    The ORM classes of [api/models.py] with the columns the service reads.
    Every column but the primary key is nullable. *)

Module Channel.
Record t := {
  channel_key : string;
  channel_name : option string;
  channel_type : option string;
  first_post_date : option datetime;
  last_post_date : option datetime;
  total_posts : option Z;
  avg_views : option Qc;
  image_percentage : option Qc;
  activity_status : option string
}.
End Channel.

Module TelegramMessage.
Record t := {
  message_key : string;
  message_id : option Z;
  channel_key : option string;
  date_key : option string;
  message_text : option string;
  message_length : option Z;
  view_count : option Z;
  forward_count : option Z;
  has_image_flag : option bool;
  engagement_score : option Qc;
  loaded_at : option datetime
}.
End TelegramMessage.

Module DateDimension.
Record t := {
  date_key : string;
  full_date : option date.t
}.
End DateDimension.

(** Rows of the raw SQL statements, one tuple type per statement. *)
Definition product_row : Type := option string * option string * option Z.
Definition activity_row : Type :=
  option date.t * option Z * option Qc * option Qc.
Definition trend_row : Type := option date.t * option Z.
Definition count_row : Type := option string * Z.
Definition totals_row : Type :=
  Z * option Z * option Z * option Qc * option Qc.
Definition top_message_row : Type :=
  option Z * option string * option string * option Z * option Z
  * option bool * option Z * option Qc * option datetime.

Module Session.

(** A [sqlalchemy.orm.Session].  The three tables are queried through
    the ORM, whose filters the service composes; the rows the engine
    returns for a [text(...)] statement are given per statement and
    parameters.  [ilike text pattern] is the engine's [ILIKE].  A statement
    handed over as a plain [str] is refused by the session (SQLAlchemy 2:
    "Textual SQL expression ... should be explicitly declared as
    text(...)"); [refusal statement] is the text of that error. *)
Record t := {
  connected : bool;
  dim_channels : list Channel.t;
  fct_messages : list TelegramMessage.t;
  dim_dates : list DateDimension.t;
  ilike : string -> string -> bool;
  channel_activity_rows : string -> Z -> list activity_row;
  top_products_rows : Z -> list product_row;
  images_by_channel_rows : list count_row;
  images_by_category_rows : list count_row;
  top_objects_rows : list count_row;
  avg_detections_row : option Qc;
  engagement_totals_row : Z -> totals_row;
  engagement_top_rows : Z -> list top_message_row;
  refusal : string -> string
}.

Definition disconnected : exn :=
  Error "OperationalError" "database unavailable".

(** Running a statement: its rows, or the driver's error. *)
Definition execute {A} (db : t) (rows : list A) : except (list A) :=
  if connected db then Return rows else Raise disconnected.

(** [db.execute(statement, ...)] with the statement a plain [str]: the
    session refuses it with an [ArgumentError] before it turns to the
    engine, so no rows are ever returned. *)
Definition execute_str {A} (db : t) (statement : string)
  : except (list A) :=
  Raise (Error "ArgumentError" (refusal db statement)).

End Session.

(** SQL comparisons against a nullable column: [NULL] satisfies none. *)
Definition sql_eq {A} `{EqDecision A} (col : option A) (x : A) : bool :=
  match col with
  | Some y => bool_decide (y = x)
  | None => false
  end.

Definition sql_ge_int (col : option Z) (x : Z) : bool :=
  match col with
  | Some y => (x <=? y)%Z
  | None => false
  end.

Definition sql_ge_date (col : option date.t) (x : date.t) : bool :=
  match col with
  | Some y => date.leb x y
  | None => false
  end.

Definition sql_le_date (col : option date.t) (x : date.t) : bool :=
  match col with
  | Some y => date.leb y x
  | None => false
  end.

(** [ORDER BY col DESC]: PostgreSQL puts [NULL]s first; the rest is sorted
    by descending value, rows of equal value in table order. *)
Definition order_by_desc {A} (col : A -> option Z) (rows : list A) : list A :=
  filter (fun r => col r = None) rows
  ++ sorted_desc (fun r => default 0%Z (col r))
       (filter (fun r => col r <> None) rows).

(** [LIMIT n]: a negative bound is rejected by the engine. *)
Definition sql_limit {A} (n : Z) (rows : list A) : except (list A) :=
  if (n <? 0)%Z then Raise (Error "DataError" "LIMIT must not be negative")
  else Return (take (Z.to_nat n) rows).

(** Validation of a required pydantic field: [None] is refused. *)
Definition required {A} (field : string) (x : option A) : except A :=
  match x with
  | Some a => Return a
  | None => Raise (Error "ValidationError" field)
  end.

Fixpoint mapM {A B} (f : A -> except B) (l : list A) : except (list B) :=
  match l with
  | [] => Return []
  | a :: l' => b <- f a ;; bs <- mapM f l' ;; Return (b :: bs)
  end.

(** ** Python dictionaries

    A [dict] keeps its keys in insertion order, and the order is observed
    (by [sorted], which is stable): an association list with one entry per
    key, a new key going to the end. *)

Module dict.

Definition t (V : Type) : Type := list (string * V).

(** [d.get(k, default)]. *)
Fixpoint get {V} (d : t V) (k : string) (default : V) : V :=
  match d with
  | [] => default
  | (k', v) :: d' => if String.eqb k' k then v else get d' k default
  end.

(** [k in d]. *)
Fixpoint mem {V} (d : t V) (k : string) : bool :=
  match d with
  | [] => false
  | (k', _) :: d' => String.eqb k' k || mem d' k
  end.

(** [d[k]], when [k] is a key. *)
Fixpoint find {V} (d : t V) (k : string) : option V :=
  match d with
  | [] => None
  | (k', v) :: d' => if String.eqb k' k then Some v else find d' k
  end.

(** [d[k] = v]. *)
Fixpoint set {V} (d : t V) (k : string) (v : V) : t V :=
  match d with
  | [] => [(k, v)]
  | (k', v') :: d' =>
      if String.eqb k' k then (k', v) :: d' else (k', v') :: set d' k v
  end.

End dict.

(** [f"{x}"] for the optional filter values of a cache key. *)
Definition fmt_opt {A} (fmt : A -> string) (x : option A) : string :=
  match x with
  | Some a => fmt a
  | None => "None"
  end.

Definition fmt_bool (b : bool) : string := if b then "True" else "False".

(** ** [api/services/data_service.py] *)

(** An [async] method of the service: it reads and writes the Redis server
    and returns or raises. *)
Definition cached (A : Type) : Type := Redis.t -> except A * Redis.t.

Definition ret {A} (a : A) : cached A := fun r => (Return a, r).
Definition raise {A} (e : exn) : cached A := fun r => (Raise e, r).
Definition lift {A} (m : except A) : cached A := fun r => (m, r).

Definition await {A B} (m : cached A) (k : A -> cached B) : cached B :=
  fun r => match m r with
           | (Return a, r') => k a r'
           | (Raise e, r') => (Raise e, r')
           end.

Notation "x <~ m ;; k" := (await m (fun x => k))
  (at level 100, m at next level, right associativity, only parsing).

Module DataService.

Record t := {
  db : Session.t;
  redis : option Redis.client;
  cache_ttl : Z
}.

(** [DataService(db, redis_client)]. *)
Definition new (db : Session.t) (redis_client : option Redis.client) : t :=
  {| db := db; redis := redis_client; cache_ttl := 300 |}.

(** [get_cached]: every failure is logged and answered with [None]. *)
Definition get_cached (self : t) (key : string) : cached value :=
  fun r =>
    match redis self with
    | None => (Return VNone, r)
    | Some _ =>
        match Redis.get r key with
        | Return (Some data) =>
            if Redis.truthy_data data then
              match Redis.json_loads data with
              | Return v => (Return v, r)
              | Raise _ => (Return VNone, r)
              end
            else (Return VNone, r)
        | Return None => (Return VNone, r)
        | Raise _ => (Return VNone, r)
        end
    end.

(** [set_cached]: [True] when the entry was written. *)
Definition set_cached (self : t) (key : string) (data : value) : cached bool :=
  fun r =>
    match redis self with
    | None => (Return false, r)
    | Some _ =>
        match Redis.setex r key (cache_ttl self) (Redis.json_dumps data) with
        | Return r' => (Return true, r')
        | Raise _ => (Return false, r)
        end
    end.

(** [ChannelResponse(channel_key=channel.channel_key, ...)]. *)
Definition channel_response (channel : Channel.t) : except ChannelResponse.t :=
  channel_name <- required "channel_name" (Channel.channel_name channel) ;;
  channel_type <- required "channel_type" (Channel.channel_type channel) ;;
  total_posts <- required "total_posts" (Channel.total_posts channel) ;;
  avg_views <- required "avg_views" (Channel.avg_views channel) ;;
  image_percentage <-
    required "image_percentage" (Channel.image_percentage channel) ;;
  activity_status <-
    required "activity_status" (Channel.activity_status channel) ;;
  Return {| ChannelResponse.channel_key := Channel.channel_key channel;
            ChannelResponse.channel_name := channel_name;
            ChannelResponse.channel_type := channel_type;
            ChannelResponse.first_post_date := Channel.first_post_date channel;
            ChannelResponse.last_post_date := Channel.last_post_date channel;
            ChannelResponse.total_posts := total_posts;
            ChannelResponse.avg_views := avg_views;
            ChannelResponse.image_percentage := image_percentage;
            ChannelResponse.activity_status := activity_status |}.

(** The body of [get_all_channels] after the cache lookup. *)
Definition all_channels (self : t) : except value :=
  channels <- Session.execute (db self)
                (order_by_desc Channel.total_posts
                   (Session.dim_channels (db self))) ;;
  result <- mapM channel_response channels ;;
  Return (VList (map (fun c => VModel (MChannel c)) result)).

Definition get_all_channels (self : t) : cached value :=
  let cache_key := "channels:all" in
  cached <~ get_cached self cache_key ;;
  if truthy cached then ret cached
  else
    result <~ lift (all_channels self) ;;
    _ <~ set_cached self cache_key result ;;
    ret result.

(** [self.db.query(Channel).filter(Channel.channel_name ==
    channel_name).first()]. *)
Definition first_channel_named (self : t) (channel_name : string)
  : except (option Channel.t) :=
  rows <- Session.execute (db self)
            (filter (fun c =>
                       sql_eq (Channel.channel_name c) channel_name = true)
               (Session.dim_channels (db self))) ;;
  Return (head rows).

(** The [try] block of [get_channel_by_name]: the lookup in the warehouse. *)
Definition lookup_channel (self : t) (channel_name cache_key : string)
  : cached value :=
  channel <~ lift (first_channel_named self channel_name) ;;
  match channel with
  | None => ret VNone
  | Some channel =>
      result <~ lift (channel_response channel) ;;
      let result := VModel (MChannel result) in
      _ <~ set_cached self cache_key result ;;
      ret result
  end.

Definition get_channel_by_name (self : t) (channel_name : string)
  : cached value :=
  let cache_key := "channel:" +:+ channel_name in
  cached <~ get_cached self cache_key ;;
  if truthy cached then ret cached
  else lookup_channel self channel_name cache_key.

(** [ChannelActivity(date=row[0], message_count=row[1] or 0, ...)]. *)
Definition channel_activity (row : activity_row) : except ChannelActivity.t :=
  let '(full_date, message_count, avg_views, avg_forwards) := row in
  date <- required "date" full_date ;;
  Return {| ChannelActivity.date := date;
            ChannelActivity.message_count := or_zero message_count;
            ChannelActivity.avg_views := or_zero_float avg_views;
            ChannelActivity.avg_forwards := or_zero_float avg_forwards |}.

(** The [try] block of [get_channel_activity]. *)
Definition activity_of_channel (self : t) (channel_name : string) (days : Z)
    (cache_key : string) : cached value :=
  channel <~ get_channel_by_name self channel_name ;;
  if negb (truthy channel) then ret (VList [])
  else
    result <~ lift (Session.execute (db self)
                      (Session.channel_activity_rows (db self)
                         channel_name days)) ;;
    activity <~ lift (mapM channel_activity result) ;;
    let activity := VList (map (fun a => VModel (MActivity a)) activity) in
    _ <~ set_cached self cache_key activity ;;
    ret activity.

Definition get_channel_activity (self : t) (channel_name : string) (days : Z)
  : cached value :=
  let cache_key :=
    "channel_activity:" +:+ channel_name +:+ ":" +:+ pretty days +:+ "d" in
  cached <~ get_cached self cache_key ;;
  if truthy cached then ret cached
  else activity_of_channel self channel_name days cache_key.

(** The filters of [search_messages], in the order the code adds them.
    Each optional filter is added under the guard the code tests. *)
Definition search_filter (self : t) (query : string)
    (channel_name : option string) (start_date end_date : option date.t)
    (has_images : option bool) (min_views : option Z)
    (row : TelegramMessage.t * Channel.t * DateDimension.t) : bool :=
  let '(msg, channel, dd) := row in
  match TelegramMessage.message_text msg with
  | Some text => Session.ilike (db self) text ("%" +:+ query +:+ "%")
  | None => false
  end
  && match channel_name with
     | Some name =>
         if negb (String.eqb name "")
         then sql_eq (Channel.channel_name channel) name else true
     | None => true
     end
  && match start_date with
     | Some d => sql_ge_date (DateDimension.full_date dd) d
     | None => true
     end
  && match end_date with
     | Some d => sql_le_date (DateDimension.full_date dd) d
     | None => true
     end
  && match has_images with
     | Some b => sql_eq (TelegramMessage.has_image_flag msg) b
     | None => true
     end
  && match min_views with
     | Some n =>
         if negb (n =? 0)%Z
         then sql_ge_int (TelegramMessage.view_count msg) n else true
     | None => true
     end.

(** [query(TelegramMessage).join(Channel, ...).join(DateDimension, ...)]. *)
Definition joined (self : t)
  : list (TelegramMessage.t * Channel.t * DateDimension.t) :=
  msg ← Session.fct_messages (db self);
  channel ← filter (fun c => TelegramMessage.channel_key msg
                               = Some (Channel.channel_key c))
              (Session.dim_channels (db self));
  dd ← filter (fun d => TelegramMessage.date_key msg
                          = Some (DateDimension.date_key d))
         (Session.dim_dates (db self));
  [(msg, channel, dd)].

(** [MessageResponse(...)] for one message found by the search. *)
Definition message_response (self : t) (msg : TelegramMessage.t)
  : except MessageResponse.t :=
  channel <- Session.execute (db self)
               (filter (fun c => TelegramMessage.channel_key msg
                                  = Some (Channel.channel_key c))
                  (Session.dim_channels (db self))) ;;
  message_id <- required "message_id" (TelegramMessage.message_id msg) ;;
  text <- required "message_text" (TelegramMessage.message_text msg) ;;
  message_date <- required "message_date" (TelegramMessage.loaded_at msg) ;;
  channel_name <-
    match head channel with
    | Some c => required "channel_name" (Channel.channel_name c)
    | None => Return "Unknown"
    end ;;
  view_count <- required "view_count" (TelegramMessage.view_count msg) ;;
  forward_count <-
    required "forward_count" (TelegramMessage.forward_count msg) ;;
  has_image <- required "has_image" (TelegramMessage.has_image_flag msg) ;;
  message_length <-
    required "message_length" (TelegramMessage.message_length msg) ;;
  engagement_score <-
    required "engagement_score" (TelegramMessage.engagement_score msg) ;;
  Return {| MessageResponse.message_id := message_id;
            MessageResponse.message_text := truncate 500 text;
            MessageResponse.message_date := message_date;
            MessageResponse.channel_name := channel_name;
            MessageResponse.view_count := view_count;
            MessageResponse.forward_count := forward_count;
            MessageResponse.has_image := has_image;
            MessageResponse.message_length := message_length;
            MessageResponse.engagement_score := engagement_score |}.

(** The body of [search_messages] after the cache lookup. *)
Definition search (self : t) (query : string)
    (channel_name : option string) (start_date end_date : option date.t)
    (has_images : option bool) (min_views : option Z) (limit : Z)
  : except value :=
  rows <- Session.execute (db self)
            (filter (fun row => search_filter self query channel_name
                                  start_date end_date has_images min_views row
                                = true)
               (joined self)) ;;
  rows <- sql_limit limit
            (order_by_desc (fun row => TelegramMessage.view_count row.1.1)
               rows) ;;
  result <- mapM (fun row => message_response self row.1.1) rows ;;
  Return (VList (map (fun m => VModel (MMessage m)) result)).

Definition search_messages (self : t) (query : string)
    (channel_name : option string) (start_date end_date : option date.t)
    (has_images : option bool) (min_views : option Z) (limit : Z)
  : cached value :=
  let cache_key :=
    "search:" +:+ query +:+ ":" +:+ fmt_opt id channel_name
    +:+ ":" +:+ fmt_opt date.str start_date
    +:+ ":" +:+ fmt_opt date.str end_date
    +:+ ":" +:+ fmt_opt fmt_bool has_images
    +:+ ":" +:+ fmt_opt pretty min_views
    +:+ ":" +:+ pretty limit in
  cached <~ get_cached self cache_key ;;
  if truthy cached then ret cached
  else
    result <~ lift (search self query channel_name start_date end_date
                      has_images min_views limit) ;;
    _ <~ set_cached self cache_key result ;;
    ret result.

(** The keyword table of [get_top_products], in its source order. *)
Definition product_keywords : dict.t (list string) :=
  [ ("Paracetamol", ["paracetamol"; "panadol"; "acetaminophen"]);
    ("Amoxicillin", ["amoxicillin"; "amoxil"; "amoxycillin"]);
    ("Vitamin C", ["vitamin c"; "ascorbic acid"]);
    ("Antibiotics",
     ["antibiotic"; "antibiotics"; "amoxicillin"; "azithromycin"]);
    ("Pain Relief", ["pain"; "relief"; "analgesic"]);
    ("Cough Syrup", ["cough"; "syrup"; "expectorant"]);
    ("Antiseptic", ["antiseptic"; "disinfectant"; "dettol"]);
    ("Skin Cream", ["cream"; "ointment"; "lotion"; "moisturizer"]);
    ("Supplements", ["supplement"; "vitamin"; "mineral"]);
    ("Medical Equipment", ["mask"; "gloves"; "thermometer"]) ].

(** The three dictionaries the scan fills. *)
Record tally := {
  product_counts : dict.t Z;
  product_channels : dict.t (gset (option string));
  product_views : dict.t (list Z)
}.

Definition no_mentions : tally :=
  {| product_counts := []; product_channels := []; product_views := [] |}.

(** The body of [if keyword in message_text:], up to the [break].  A
    product met for the first time starts from the count 0, the empty set
    and the empty list, and takes the next free place in each dictionary. *)
Definition mention (product : string) (channel_name : option string)
    (views : Z) (st : tally) : tally :=
  {| product_counts :=
       dict.set (product_counts st) product
         (dict.get (product_counts st) product 0 + 1)%Z;
     product_channels :=
       dict.set (product_channels st) product
         (dict.get (product_channels st) product ∅ ∪ {[channel_name]});
     product_views :=
       dict.set (product_views st) product
         (dict.get (product_views st) product [] ++ [views]) |}.

(** [for keyword in keywords: if keyword in message_text: ...; break]. *)
Fixpoint scan_keywords (keywords : list string) (message_text : string)
    (product : string) (channel_name : option string) (views : Z)
    (st : tally) : tally :=
  match keywords with
  | [] => st
  | keyword :: keywords' =>
      if contains keyword message_text
      then mention product channel_name views st
      else scan_keywords keywords' message_text product channel_name views st
  end.

(** [for product, keywords in product_keywords.items(): ...]. *)
Definition scan_products (table : dict.t (list string)) (message_text : string)
    (channel_name : option string) (views : Z) (st : tally) : tally :=
  foldl (fun st entry =>
           scan_keywords entry.2 message_text entry.1 channel_name views st)
    st table.

(** One turn of [for row in result:]; [row[0].lower()] fails on [NULL]. *)
Definition scan_row (st : tally) (row : product_row) : except tally :=
  let '(text, channel_name, view_count) := row in
  text <- match text with
          | Some text => Return text
          | None => Raise (Error "AttributeError"
                             "'NoneType' object has no attribute 'lower'")
          end ;;
  let message_text := lower text in
  let views := or_zero view_count in
  Return (scan_products product_keywords message_text channel_name views st).

Fixpoint scan_rows (st : tally) (rows : list product_row) : except tally :=
  match rows with
  | [] => Return st
  | row :: rows' => st' <- scan_row st row ;; scan_rows st' rows'
  end.

(** [TopProduct(...)] for one entry of the sorted counts. *)
Definition top_product (st : tally) (entry : string * Z)
  : except TopProduct.t :=
  let '(product, count) := entry in
  avg_views <-
    truediv (float_of_int (sum (dict.get (product_views st) product [0%Z])))
      (float_of_int
         (max_int (len (dict.get (product_views st) product [1%Z])) 1)) ;;
  channels <-
    mapM (required "channels")
      (slice_to 5 (elements (dict.get (product_channels st) product ∅))) ;;
  Return {| TopProduct.product_name := product;
            TopProduct.mention_count := count;
            TopProduct.channels := channels;
            TopProduct.avg_views := avg_views |}.

(** The body of [get_top_products] after the cache lookup. *)
Definition top_products (self : t) (limit days : Z) : except value :=
  result <- Session.execute (db self)
              (Session.top_products_rows (db self) days) ;;
  st <- scan_rows no_mentions result ;;
  top_products <-
    mapM (top_product st)
      (slice_to limit (sorted_desc snd (product_counts st))) ;;
  Return (VList (map (fun p => VModel (MProduct p)) top_products)).

Definition get_top_products (self : t) (limit days : Z) : cached value :=
  let cache_key :=
    "top_products:" +:+ pretty limit +:+ ":" +:+ pretty days +:+ "d" in
  cached <~ get_cached self cache_key ;;
  if truthy cached then ret cached
  else
    top_products <~ lift (top_products self limit days) ;;
    _ <~ set_cached self cache_key top_products ;;
    ret top_products.

(** [{row[0]: row[1] for row in rows}], with the keys validated as
    [Dict[str, int]] requires. *)
Definition count_dict (field : string) (rows : list count_row)
  : except (dict.t Z) :=
  rows <- mapM (fun row : count_row =>
                  k <- required field row.1 ;; Return (k, row.2)) rows ;;
  Return (foldl (fun d kv => dict.set d kv.1 kv.2) [] rows).

(** The body of [get_visual_content_stats] after the cache lookup. *)
Definition visual_content_stats (self : t) : except value :=
  channels_result <- Session.execute (db self)
                       (Session.images_by_channel_rows (db self)) ;;
  categories_result <- Session.execute (db self)
                         (Session.images_by_category_rows (db self)) ;;
  objects_result <- Session.execute (db self)
                      (Session.top_objects_rows (db self)) ;;
  avg_result <- Session.execute (db self)
                  [Session.avg_detections_row (db self)] ;;
  let avg_detections :=
    or_zero_float (mjoin (head avg_result)) in
  images_by_channel <- count_dict "images_by_channel" channels_result ;;
  images_by_category <- count_dict "images_by_category" categories_result ;;
  let total_images := sum (images_by_channel.*2) in
  Return (VModel (MVisual
    {| VisualContentStats.total_images := total_images;
       VisualContentStats.images_by_channel := images_by_channel;
       VisualContentStats.images_by_category := images_by_category;
       VisualContentStats.avg_detections_per_image := avg_detections;
       VisualContentStats.top_detected_objects := objects_result |})).

Definition get_visual_content_stats (self : t) : cached value :=
  let cache_key := "visual_content_stats" in
  cached <~ get_cached self cache_key ;;
  if truthy cached then ret cached
  else
    stats <~ lift (visual_content_stats self) ;;
    _ <~ set_cached self cache_key stats ;;
    ret stats.

(** [MessageResponse(...)] for one of the top performing messages. *)
Definition top_message (row : top_message_row) : except MessageResponse.t :=
  let '(message_id, message_text, channel_name, view_count, forward_count,
        has_image_flag, message_length, engagement_score, message_date) :=
    row in
  text <- match message_text with
          | Some text => Return text
          | None => Raise (Error "TypeError"
                             "object of type 'NoneType' has no len()")
          end ;;
  message_id <- required "message_id" message_id ;;
  message_date <- required "message_date" message_date ;;
  channel_name <- required "channel_name" channel_name ;;
  view_count <- required "view_count" view_count ;;
  forward_count <- required "forward_count" forward_count ;;
  has_image <- required "has_image" has_image_flag ;;
  message_length <- required "message_length" message_length ;;
  engagement_score <- required "engagement_score" engagement_score ;;
  Return {| MessageResponse.message_id := message_id;
            MessageResponse.message_text := truncate 200 text;
            MessageResponse.message_date := message_date;
            MessageResponse.channel_name := channel_name;
            MessageResponse.view_count := view_count;
            MessageResponse.forward_count := forward_count;
            MessageResponse.has_image := has_image;
            MessageResponse.message_length := message_length;
            MessageResponse.engagement_score := engagement_score |}.

(** The body of [get_engagement_metrics] after the cache lookup. *)
Definition engagement_metrics (self : t) (days : Z) : except value :=
  totals_result <- Session.execute (db self)
                     [Session.engagement_totals_row (db self) days] ;;
  top_result <- Session.execute (db self)
                  (Session.engagement_top_rows (db self) days) ;;
  top_messages <- mapM top_message top_result ;;
  totals <- match head totals_result with
            | Some row => Return row
            | None => Raise (Error "TypeError"
                               "'NoneType' object is not subscriptable")
            end ;;
  let '(total_messages, total_views, total_forwards, avg_views, avg_forwards) :=
    totals in
  Return (VModel (MEngagement
    {| EngagementMetrics.total_messages := or_zero (Some total_messages);
       EngagementMetrics.total_views := or_zero total_views;
       EngagementMetrics.total_forwards := or_zero total_forwards;
       EngagementMetrics.avg_views_per_message := or_zero_float avg_views;
       EngagementMetrics.avg_forwards_per_message := or_zero_float avg_forwards;
       EngagementMetrics.top_performing_messages := top_messages |})).

Definition get_engagement_metrics (self : t) (days : Z) : cached value :=
  let cache_key := "engagement_metrics:" +:+ pretty days +:+ "d" in
  cached <~ get_cached self cache_key ;;
  if truthy cached then ret cached
  else
    metrics <~ lift (engagement_metrics self days) ;;
    _ <~ set_cached self cache_key metrics ;;
    ret metrics.

(** [initialize_cache]: the warm-up of [api/main.py]'s lifespan.  Its one
    task stores [{"status": "ok"}] under [init:health_check] for an hour;
    a failure is logged and dropped. *)
Definition initialize_cache (redis_client : Redis.client) : cached unit :=
  fun r =>
    match Redis.setex r ("init:" +:+ "health_check") 3600
            (Redis.Text (JObj [("status", JStr (Lit "ok"))])) with
    | Return r' => (Return tt, r')
    | Raise _ => (Return tt, r)
    end.

End DataService.

(** ** The routes

    A route returns its payload or raises; [status] is what the exception
    handlers of [api/main.py] answer. *)

Definition status {A} (response : except A) : Z :=
  match response with
  | Return _ => 200
  | Raise (HTTPException status_code _) => status_code
  | Raise (Error _ _) => 500
  end.

(** [try: body / except Exception as e: raise HTTPException(500, str(e))]
    around an [async] body. *)
Definition guarded {A} (body : cached A) : cached A :=
  fun r => let '(out, r') := body r in
           (try_except out
              (fun e => Raise (HTTPException 500 (exn_str e))), r').

(** The same with [except HTTPException: raise] before it. *)
Definition guarded_http {A} (body : cached A) : cached A :=
  fun r => let '(out, r') := body r in
           (try_except_http out
              (fun e => Raise (HTTPException 500 (exn_str e))), r').

(** Attribute access [v.attribute] on a value that has no such
    attribute. *)
Definition no_attribute (type_name attribute : string) : exn :=
  Error "AttributeError"
    ("'" +:+ type_name +:+ "' object has no attribute '" +:+ attribute
     +:+ "'").

(** Reading [attribute], one of the fields of a channel, from [v]: only a
    channel object has it. *)
Definition as_channel (attribute : string) (v : value)
  : except ChannelResponse.t :=
  match v with
  | VModel (MChannel c) => Return c
  | _ => Raise (no_attribute (type_name v) attribute)
  end.

Fixpoint comprehension (attribute : string)
    (test : ChannelResponse.t -> bool) (l : list value)
  : except (list value) :=
  match l with
  | [] => Return []
  | v :: l' =>
      c <- as_channel attribute v ;;
      rest <- comprehension attribute test l' ;;
      Return (if test c then v :: rest else rest)
  end.

(** [[c for c in v if test(c.attribute)]].  A string yields its
    characters, a dictionary its keys and a pydantic object the pairs of
    its fields, none of which has the attribute; the other values cannot
    be iterated. *)
Definition select (attribute : string) (test : ChannelResponse.t -> bool)
    (v : value) : except value :=
  match v with
  | VList l => l <- comprehension attribute test l ;; Return (VList l)
  | VStr _ | VDict _ =>
      if truthy v then Raise (no_attribute "str" attribute)
      else Return (VList [])
  | VModel _ => Raise (no_attribute "tuple" attribute)
  | _ => Raise (Error "TypeError"
                  ("'" +:+ type_name v +:+ "' object is not iterable"))
  end.

(** [v[key]] on a dictionary. *)
Definition item (v : value) (key : string) : option value :=
  match v with
  | VDict d => dict.find d key
  | _ => None
  end.

Module channels.

(** [get_all_channels]: the list it returns, before serialisation. *)
Definition get_all_channels (channel_type : option string)
    (min_posts : option Z) (active_only : bool)
    (db : Session.t) (redis_client : option Redis.client) : cached value :=
  guarded (
    let data_service := DataService.new db redis_client in
    channels <~ DataService.get_all_channels data_service ;;
    let filtered_channels := channels in
    filtered_channels <~
      match channel_type with
      | Some ty =>
          if negb (String.eqb ty "") then
            lift (select "channel_type"
                    (fun c => String.eqb (ChannelResponse.channel_type c) ty)
                    filtered_channels)
          else ret filtered_channels
      | None => ret filtered_channels
      end ;;
    filtered_channels <~
      match min_posts with
      | Some n =>
          if negb (n =? 0)%Z then
            lift (select "total_posts"
                    (fun c => (n <=? ChannelResponse.total_posts c)%Z)
                    filtered_channels)
          else ret filtered_channels
      | None => ret filtered_channels
      end ;;
    if active_only then
      lift (select "activity_status"
              (fun c => String.eqb (ChannelResponse.activity_status c) "Active")
              filtered_channels)
    else ret filtered_channels).

(** The [metrics] dictionary of [compare_channel]. *)
Definition metrics (channel1 channel2 : ChannelResponse.t) : except value :=
  let posts1 := ChannelResponse.total_posts channel1 in
  let posts2 := ChannelResponse.total_posts channel2 in
  let views1 := ChannelResponse.avg_views channel1 in
  let views2 := ChannelResponse.avg_views channel2 in
  let images1 := ChannelResponse.image_percentage channel1 in
  let images2 := ChannelResponse.image_percentage channel2 in
  posts_ratio <- truediv (float_of_int (posts1 - posts2))
                   (float_of_int (max_int posts2 1)) ;;
  views_ratio <- truediv (views1 - views2)%Qc (max_float views2 1%Qc) ;;
  Return (VDict [
    ("total_posts", VDict [
       ("channel1", VInt posts1);
       ("channel2", VInt posts2);
       ("difference", VInt (posts1 - posts2));
       ("percentage_difference", VFloat (posts_ratio * Q2Qc 100)%Qc) ]);
    ("avg_views", VDict [
       ("channel1", VFloat views1);
       ("channel2", VFloat views2);
       ("difference", VFloat (views1 - views2)%Qc);
       ("percentage_difference", VFloat (views_ratio * Q2Qc 100)%Qc) ]);
    ("image_percentage", VDict [
       ("channel1", VFloat images1);
       ("channel2", VFloat images2);
       ("difference", VFloat (images1 - images2)%Qc) ]) ]).

Definition compare_channel (channel_name compare_with : string)
    (db : Session.t) (redis_client : option Redis.client) : cached value :=
  guarded_http (
    let data_service := DataService.new db redis_client in
    channel1 <~ DataService.get_channel_by_name data_service channel_name ;;
    channel2 <~ DataService.get_channel_by_name data_service compare_with ;;
    if negb (truthy channel1) then
      raise (HTTPException 404
               ("Channel '" +:+ channel_name +:+ "' not found"))
    else if negb (truthy channel2) then
      raise (HTTPException 404
               ("Channel '" +:+ compare_with +:+ "' not found"))
    else
      activity1 <~
        DataService.get_channel_activity data_service channel_name 30 ;;
      activity2 <~
        DataService.get_channel_activity data_service compare_with 30 ;;
      c1 <~ lift (as_channel "total_posts" channel1) ;;
      c2 <~ lift (as_channel "total_posts" channel2) ;;
      metrics <~ lift (metrics c1 c2) ;;
      ret (VDict [ ("channel1", VStr (Lit channel_name));
                   ("channel2", VStr (Lit compare_with));
                   ("metrics", metrics);
                   ("activity_period", VStr (Lit "Last 30 days")) ])).

Definition not_found (channel_name : string) : exn :=
  HTTPException 404 ("Channel '" +:+ channel_name +:+ "' not found").

Definition get_channel (channel_name : string)
    (db : Session.t) (redis_client : option Redis.client) : cached value :=
  guarded_http (
    let data_service := DataService.new db redis_client in
    channel <~ DataService.get_channel_by_name data_service channel_name ;;
    if negb (truthy channel) then raise (not_found channel_name)
    else ret channel).

Definition get_channel_activity (channel_name : string) (days : Z)
    (db : Session.t) (redis_client : option Redis.client) : cached value :=
  guarded_http (
    let data_service := DataService.new db redis_client in
    activity <~
      DataService.get_channel_activity data_service channel_name days ;;
    if negb (truthy activity) then
      channel <~ DataService.get_channel_by_name data_service channel_name ;;
      if negb (truthy channel) then raise (not_found channel_name)
      else ret activity
    else ret activity).

End channels.

Module SearchResponse.
Record t := {
  query : string;
  total_results : Z;
  messages : list MessageResponse.t;
  page : Z;
  total_pages : Z
}.
End SearchResponse.

Module messages.

(** Validation of one entry of [messages: List[MessageResponse]]: a
    message object passes; [error] is the text of the [ValidationError]
    raised otherwise.  (An object given as a dictionary of its fields
    would pass too; the service builds and caches none.) *)
Definition as_message (error : string) (v : value)
  : except MessageResponse.t :=
  match v with
  | VModel (MMessage m) => Return m
  | _ => Raise (Error "ValidationError" error)
  end.

(** [SearchResponse(query=query, total_results=len(messages),
    messages=messages, page=page, total_pages=max(1, (len(messages) +
    limit - 1) // limit))]: the lengths and the division are evaluated
    first, then pydantic validates the fields.  [validation_error v] is
    the text pydantic gives its [ValidationError] for [messages=v].  A
    string and a dictionary have a length and fail the validation; their
    length is not computed, the division failing at a limit of 0 whatever
    the dividend. *)
Definition search_response (validation_error : value -> string)
    (query : string) (page limit : Z) (messages : value)
  : except SearchResponse.t :=
  match messages with
  | VList l =>
      pages <- floordiv (len l + limit - 1) limit ;;
      validated <- mapM (as_message (validation_error messages)) l ;;
      Return {| SearchResponse.query := query;
                SearchResponse.total_results := len l;
                SearchResponse.messages := validated;
                SearchResponse.page := page;
                SearchResponse.total_pages := max_int 1 pages |}
  | VStr _ | VDict _ =>
      _ <- floordiv 0 limit ;;
      Raise (Error "ValidationError" (validation_error messages))
  | _ => Raise (Error "TypeError"
                  ("object of type '" +:+ type_name messages
                   +:+ "' has no len()"))
  end.

Definition search_messages (validation_error : value -> string)
    (query : string) (channel_name : option string)
    (start_date end_date : option date.t) (has_images : option bool)
    (min_views : option Z) (page limit : Z)
    (db : Session.t) (redis_client : option Redis.client)
  : cached SearchResponse.t :=
  guarded (
    let data_service := DataService.new db redis_client in
    let offset := ((page - 1) * limit)%Z in
    messages <~ DataService.search_messages data_service query channel_name
                  start_date end_date has_images min_views limit ;;
    lift (search_response validation_error query page limit messages)).

(** A row of the raw statements of [get_message] and
    [get_popular_messages]: message id, text, channel name, views,
    forwards, image flag, length, engagement score, date. *)
Definition message_row : Type :=
  option Z * option string * option string * option Z * option Z
  * option bool * option Z * option Qc * option date.t.

(** A row of the image statement: category, detected objects, average
    confidence. *)
Definition image_row : Type := option string * option (list string) * option Qc.

(** Column values as the route hands them on; a date as it is serialised. *)
Definition of_int (x : option Z) : value :=
  match x with Some z => VInt z | None => VNone end.
Definition of_str (x : option string) : value :=
  match x with Some s => VStr (Lit s) | None => VNone end.
Definition of_bool (x : option bool) : value :=
  match x with Some b => VBool b | None => VNone end.
Definition of_float (x : option Qc) : value :=
  match x with Some q => VFloat q | None => VNone end.
Definition of_date (x : option date.t) : value :=
  match x with Some d => VStr (Lit (date.str d)) | None => VNone end.

(** The statements of [get_message] and [get_popular_messages], plain
    [str]s. *)
Definition message_query : string :=
  "
            SELECT 
                fm.message_id,
                fm.message_text,
                dc.channel_name,
                fm.view_count,
                fm.forward_count,
                fm.has_image_flag,
                fm.message_length,
                fm.engagement_score,
                dd.full_date as message_date
            FROM marts.fct_messages fm
            JOIN marts.dim_channels dc ON fm.channel_key = dc.channel_key
            JOIN marts.dim_dates dd ON fm.date_key = dd.date_key
            WHERE fm.message_id = :message_id
        ".

Definition image_query : string :=
  "
            SELECT 
                image_category,
                detected_objects,
                avg_confidence
            FROM marts.fct_image_detections
            WHERE message_id = :message_id
                AND channel_name = :channel_name
        ".

Definition popular_query : string :=
  "
            SELECT 
                fm.message_id,
                fm.message_text,
                dc.channel_name,
                fm.view_count,
                fm.forward_count,
                fm.has_image_flag,
                fm.message_length,
                fm.engagement_score,
                dd.full_date as message_date
            FROM marts.fct_messages fm
            JOIN marts.dim_channels dc ON fm.channel_key = dc.channel_key
            JOIN marts.dim_dates dd ON fm.date_key = dd.date_key
            WHERE dd.full_date >= CURRENT_DATE - INTERVAL ':days days'
            ORDER BY fm.view_count DESC
            LIMIT :limit
        ".

(** [row[2]] of a message row. *)
Definition row_channel (row : message_row) : option string := row.1.1.1.1.1.1.2.

(** The nine fields both routes copy from a row; [text] is the text as
    the route has shaped it. *)
Definition message_fields (row : message_row) (text : value)
  : list (string * value) :=
  let '(message_id, _, channel_name, view_count, forward_count,
        has_image_flag, message_length, engagement_score, message_date) :=
    row in
  [ ("message_id", of_int message_id);
    ("message_text", text);
    ("channel_name", of_str channel_name);
    ("view_count", of_int view_count);
    ("forward_count", of_int forward_count);
    ("has_image", of_bool has_image_flag);
    ("message_length", of_int message_length);
    ("engagement_score", of_float engagement_score);
    ("message_date", of_date message_date) ].

(** [{"category": ..., "detected_objects": ..., "confidence": ...}]. *)
Definition image_analysis (image : image_row) : value :=
  let '(category, detected_objects, avg_confidence) := image in
  VDict [ ("category", of_str category);
          ("detected_objects",
           match detected_objects with
           | Some objects => VList ((fun o => VStr (Lit o)) <$> objects)
           | None => VNone
           end);
          ("confidence", of_float avg_confidence) ].

(** The items [", ".join(channels)] joins, the first of them at index
    [start]: the first [None] among them stops it. *)
Fixpoint join_items (start : Z) (channels : list (option string))
  : except (list string) :=
  match channels with
  | [] => Return []
  | Some name :: channels' =>
      names <- join_items (start + 1) channels' ;; Return (name :: names)
  | None :: _ =>
      Raise (Error "TypeError"
               ("sequence item " +:+ pretty start
                +:+ ": expected str instance, NoneType found"))
  end.

(** [get_message]. *)
Definition get_message (message_id : Z) (channel_name : option string)
    (db : Session.t) : except value :=
  try_except_http (
    let query :=
      if given channel_name
      then message_query +:+ " AND dc.channel_name = :channel_name"
      else message_query in
    result <- Session.execute_str db query ;;
    match result with
    | [] => Raise (HTTPException 404 "Message not found")
    | row :: _ =>
        if (1 <? len result)%Z && negb (given channel_name) then
          channels <- join_items 0 (row_channel <$> result) ;;
          Raise (HTTPException 400
                   ("Multiple messages found with ID " +:+ pretty message_id
                    +:+ ". " +:+ "Specify channel_name: "
                    +:+ join ", " channels))
        else
          image_result <- Session.execute_str db image_query ;;
          Return (VDict (message_fields row (of_str row.1.1.1.1.1.1.1.2)
                         ++ match head image_result with
                            | Some image =>
                                [("image_analysis", image_analysis image)]
                            | None => []
                            end))
    end)
    (fun e => Raise (HTTPException 500 (exn_str e))).

(** One entry of the popular messages; [len(row[1])] fails on [NULL]. *)
Definition popular_message (timeframe : string) (row : message_row)
  : except value :=
  match row.1.1.1.1.1.1.1.2 with
  | Some text =>
      Return (VDict (message_fields row (VStr (Lit (truncate 200 text)))
                     ++ [("timeframe", VStr (Lit timeframe))]))
  | None => Raise (Error "TypeError" "object of type 'NoneType' has no len()")
  end.

(** [get_popular_messages]. *)
Definition get_popular_messages (timeframe : string) (limit : Z)
    (db : Session.t) : except value :=
  try_except_http (
    days <- (if String.eqb timeframe "day" then Return 1%Z
             else if String.eqb timeframe "week" then Return 7%Z
             else if String.eqb timeframe "month" then Return 30%Z
             else Raise (HTTPException 400 "Invalid timeframe")) ;;
    result <- Session.execute_str db popular_query ;;
    messages <- mapM (popular_message timeframe) result ;;
    Return (VDict [ ("timeframe", VStr (Lit timeframe));
                    ("days", VInt days);
                    ("messages", VList messages) ]))
    (fun e => Raise (HTTPException 500 (exn_str e))).

End messages.

Module reports.

(** [{"date": str(row[0]), "value": row[1] or 0}]. *)
Definition trend_point (row : trend_row) : value :=
  VDict [ ("date", VStr (Lit (fmt_opt date.str row.1)));
          ("value", VInt (or_zero row.2)) ].

(** The metrics [get_daily_trends] has a statement for. *)
Definition known_metric (metric : string) : bool :=
  String.eqb metric "messages" || String.eqb metric "views"
  || String.eqb metric "forwards" || String.eqb metric "images".

(** The statement of a known metric, a plain [str]. *)
Definition trend_query (metric : string) : string :=
  if String.eqb metric "messages" then
    "
                SELECT 
                    dd.full_date,
                    COUNT(fm.message_key) as value
                FROM marts.fct_messages fm
                JOIN marts.dim_dates dd ON fm.date_key = dd.date_key
                WHERE dd.full_date >= CURRENT_DATE - INTERVAL ':days days'
                GROUP BY dd.full_date
                ORDER BY dd.full_date
            "
  else if String.eqb metric "views" then
    "
                SELECT 
                    dd.full_date,
                    SUM(fm.view_count) as value
                FROM marts.fct_messages fm
                JOIN marts.dim_dates dd ON fm.date_key = dd.date_key
                WHERE dd.full_date >= CURRENT_DATE - INTERVAL ':days days'
                GROUP BY dd.full_date
                ORDER BY dd.full_date
            "
  else if String.eqb metric "forwards" then
    "
                SELECT 
                    dd.full_date,
                    SUM(fm.forward_count) as value
                FROM marts.fct_messages fm
                JOIN marts.dim_dates dd ON fm.date_key = dd.date_key
                WHERE dd.full_date >= CURRENT_DATE - INTERVAL ':days days'
                GROUP BY dd.full_date
                ORDER BY dd.full_date
            "
  else
    "
                SELECT 
                    dd.full_date,
                    COUNT(fid.detection_key) as value
                FROM marts.fct_image_detections fid
                JOIN marts.dim_dates dd ON fid.date_key = dd.date_key
                WHERE dd.full_date >= CURRENT_DATE - INTERVAL ':days days'
                GROUP BY dd.full_date
                ORDER BY dd.full_date
            ".

Definition get_daily_trends (metric : string) (days : Z)
    (db : Session.t) (redis_client : option Redis.client) : cached value :=
  guarded (
    let data_service := DataService.new db redis_client in
    query <~ (if known_metric metric
              then ret (trend_query metric)
              else raise (HTTPException 400 "Invalid metric")) ;;
    result <~ lift (Session.execute_str db query) ;;
    ret (VDict [ ("metric", VStr (Lit metric));
                 ("days", VInt days);
                 ("data", VList (map trend_point result)) ])).

End reports.

(** ** [api/dependencies.py] *)

Module dependencies.

(** The two environment variables [validate_api_key] reads; [None] when a
    variable is not set. *)
Record environ := {
  ENVIRONMENT : option string;
  API_KEYS : option string
}.

(** [validate_api_key]: in production the header must be one of the
    comma-separated [API_KEYS]; elsewhere every request passes. *)
Definition validate_api_key (env : environ) (x_api_key : option string)
  : except bool :=
  if bool_decide (ENVIRONMENT env = Some "production") then
    let valid_keys := split "," (default EmptyString (API_KEYS env)) in
    if negb (given x_api_key)
       || negb (bool_decide (default EmptyString x_api_key ∈ valid_keys))
    then Raise (HTTPException 401 "Invalid or missing API key")
    else Return true
  else Return true.

End dependencies.

(** ** Vocabulary of the properties *)

(** The cache has nothing to serve under [key]: the lookup ends in a value
    that tests false. *)
Definition miss (self : DataService.t) (key : string) (r : Redis.t) : bool :=
  match DataService.get_cached self key r with
  | (Return v, _) => negb (truthy v)
  | (Raise _, _) => false
  end.

(** Some keyword of [product] occurs in [message_text]. *)
Definition mentioned (product : string) (message_text : string) : bool :=
  existsb (fun keyword => contains keyword message_text)
    (dict.get DataService.product_keywords product []).

(** What one message adds to the mention count of a product. *)
Definition added_count (found : bool) : Z := if found then 1%Z else 0%Z.

(** Three rows of the top-products statement: view counts 100, 200 and
    300, from channels A, B and A. *)
Definition three_rows (t1 t2 t3 A B : string) : list product_row :=
  [ (Some t1, Some A, Some 100%Z);
    (Some t2, Some B, Some 200%Z);
    (Some t3, Some A, Some 300%Z) ].

(** The dictionaries of the scan after these three rows. *)
Definition after_three (t1 t2 t3 A B : string) : DataService.tally :=
  DataService.scan_products DataService.product_keywords (lower t3) (Some A) 300
    (DataService.scan_products DataService.product_keywords (lower t2)
       (Some B) 200
       (DataService.scan_products DataService.product_keywords (lower t1)
          (Some A) 100 DataService.no_mentions)).

(** An entry of the comparison reports an absolute and a percentage
    difference. *)
Definition reports_both (metrics : value) (metric : string) : Prop :=
  exists entry d p,
    item metrics metric = Some entry
    /\ item entry "difference" = Some d
    /\ item entry "percentage_difference" = Some p.

(** [(a - b) / max(b, 1) * 100]. *)
Definition percentage (difference denominator : Qc) : Qc :=
  (difference / denominator * Q2Qc 100)%Qc.

(** Sample data for the closed instances below. *)
Module sample.

Definition channel (name : string) (posts : Z) : Channel.t :=
  {| Channel.channel_key := "key-" +:+ name;
     Channel.channel_name := Some name;
     Channel.channel_type := Some "Pharmaceutical";
     Channel.first_post_date := None;
     Channel.last_post_date := None;
     Channel.total_posts := Some posts;
     Channel.avg_views := Some (Q2Qc 0);
     Channel.image_percentage := Some (Q2Qc 50);
     Channel.activity_status := Some "Active" |}.

Definition message (key text channel : string) (views : Z)
  : TelegramMessage.t :=
  {| TelegramMessage.message_key := key;
     TelegramMessage.message_id := Some 1%Z;
     TelegramMessage.channel_key := Some ("key-" +:+ channel);
     TelegramMessage.date_key := Some "20260101";
     TelegramMessage.message_text := Some text;
     TelegramMessage.message_length := Some (Z.of_nat (String.length text));
     TelegramMessage.view_count := Some views;
     TelegramMessage.forward_count := Some 0%Z;
     TelegramMessage.has_image_flag := Some false;
     TelegramMessage.engagement_score := Some (Q2Qc 0);
     TelegramMessage.loaded_at := Some 0%Z |}.

Definition response (name : string) (posts : Z) : ChannelResponse.t :=
  {| ChannelResponse.channel_key := "key-" +:+ name;
     ChannelResponse.channel_name := name;
     ChannelResponse.channel_type := "Pharmaceutical";
     ChannelResponse.first_post_date := None;
     ChannelResponse.last_post_date := None;
     ChannelResponse.total_posts := posts;
     ChannelResponse.avg_views := Q2Qc 0;
     ChannelResponse.image_percentage := Q2Qc 50;
     ChannelResponse.activity_status := "Active" |}.

(** A warehouse with two channels and three messages on paracetamol. *)
Definition db : Session.t :=
  {| Session.connected := true;
     Session.dim_channels := [channel "A" 0; channel "B" 7];
     Session.fct_messages :=
       [ message "m1" "paracetamol 500mg in stock" "A" 100;
         message "m2" "new: paracetamol syrup" "B" 200;
         message "m3" "panadol (paracetamol) for pain" "A" 300 ];
     Session.dim_dates :=
       [ {| DateDimension.date_key := "20260101";
            DateDimension.full_date :=
              Some {| date.year := 2026; date.month := 1; date.day := 1 |} |} ];
     Session.ilike := fun text pattern =>
       contains (lower (String.substring 1 (String.length pattern - 2) pattern))
         (lower text);
     Session.channel_activity_rows := fun _ _ => [];
     Session.top_products_rows := fun _ =>
       [ (Some "paracetamol 500mg in stock", Some "A", Some 100%Z);
         (Some "new: paracetamol syrup", Some "B", Some 200%Z);
         (Some "panadol (paracetamol) for pain", Some "A", Some 300%Z) ];
     Session.images_by_channel_rows := [];
     Session.images_by_category_rows := [];
     Session.top_objects_rows := [];
     Session.avg_detections_row := None;
     Session.engagement_totals_row := fun _ => (0%Z, None, None, None, None);
     Session.engagement_top_rows := fun _ => [];
     Session.refusal := fun statement =>
       "Textual SQL expression should be explicitly declared as text()" |}.

(** A reachable Redis server with no keys, at time 0. *)
Definition empty_redis : Redis.t :=
  {| Redis.reachable := true; Redis.clock := 0; Redis.entries := ∅ |}.

(** A server holding the text [[]] under the key of the channel list. *)
Definition redis_with_empty_list : Redis.t :=
  {| Redis.reachable := true;
     Redis.clock := 10;
     Redis.entries :=
       {[ "channels:all" := {| Redis.expires_at := 300;
                               Redis.content := Redis.Text (JArr []) |} ]} |}.

End sample.

(** ** Vocabulary of the further properties *)

(** The server [seconds] later: nothing else changes. *)
Definition later (seconds : Z) (r : Redis.t) : Redis.t :=
  {| Redis.reachable := Redis.reachable r;
     Redis.clock := Redis.clock r + seconds;
     Redis.entries := Redis.entries r |}.

(** A value made of [None], booleans, numbers, strings, lists and
    dictionaries only: no pydantic object inside. *)
Fixpoint json_shaped (v : value) : bool :=
  match v with
  | VList l => forallb json_shaped l
  | VDict d => forallb (fun kv => json_shaped kv.2) d
  | VModel _ => false
  | _ => true
  end.

(** The row mentions the product: its lowered text holds one of the
    product's keywords. *)
Definition mentioning (product : string) (row : product_row) : bool :=
  match row.1.1 with
  | Some text => mentioned product (lower text)
  | None => false
  end.

(** The rows that mention the product, in their order. *)
Fixpoint mentions_of (product : string) (rows : list product_row)
  : list product_row :=
  match rows with
  | [] => []
  | row :: rows' =>
      if mentioning product row then row :: mentions_of product rows'
      else mentions_of product rows'
  end.

(** The sample warehouse with a fourth row whose text is [NULL]. *)
Definition db_with_null_text : Session.t :=
  {| Session.connected := true;
     Session.dim_channels := Session.dim_channels sample.db;
     Session.fct_messages := Session.fct_messages sample.db;
     Session.dim_dates := Session.dim_dates sample.db;
     Session.ilike := Session.ilike sample.db;
     Session.channel_activity_rows := Session.channel_activity_rows sample.db;
     Session.top_products_rows := fun days =>
       Session.top_products_rows sample.db days ++ [(None, Some "B", Some 5%Z)];
     Session.images_by_channel_rows := [];
     Session.images_by_category_rows := [];
     Session.top_objects_rows := [];
     Session.avg_detections_row := None;
     Session.engagement_totals_row := Session.engagement_totals_row sample.db;
     Session.engagement_top_rows := fun _ => [];
     Session.refusal := Session.refusal sample.db |}.

(** The response the search builds for a sample message. *)
Definition sample_found (text channel : string) (views : Z)
  : MessageResponse.t :=
  {| MessageResponse.message_id := 1%Z;
     MessageResponse.message_text := text;
     MessageResponse.message_date := 0%Z;
     MessageResponse.channel_name := channel;
     MessageResponse.view_count := views;
     MessageResponse.forward_count := 0%Z;
     MessageResponse.has_image := false;
     MessageResponse.message_length := Z.of_nat (String.length text);
     MessageResponse.engagement_score := Q2Qc 0 |}.

(** A warehouse whose one channel has a colon in its name. *)
Definition db_with_colon : Session.t :=
  {| Session.connected := true;
     Session.dim_channels := [sample.channel "Z:None" 3];
     Session.fct_messages :=
       [sample.message "m1" "paracetamol here" "Z:None" 10];
     Session.dim_dates := Session.dim_dates sample.db;
     Session.ilike := Session.ilike sample.db;
     Session.channel_activity_rows := fun _ _ => [];
     Session.top_products_rows := fun _ => [];
     Session.images_by_channel_rows := [];
     Session.images_by_category_rows := [];
     Session.top_objects_rows := [];
     Session.avg_detections_row := None;
     Session.engagement_totals_row := Session.engagement_totals_row sample.db;
     Session.engagement_top_rows := fun _ => [];
     Session.refusal := Session.refusal sample.db |}.

(** An outcome that is no [HTTPException]: a value, or another
    exception. *)
Definition internal {A} (out : except A) : Prop :=
  match out with
  | Raise (HTTPException _ _) => False
  | _ => True
  end.

(** The three filters of the channel listing as one test. *)
Definition listed (channel_type : option string) (min_posts : option Z)
    (active_only : bool) (c : ChannelResponse.t) : bool :=
  (if given channel_type
   then String.eqb (ChannelResponse.channel_type c)
          (default EmptyString channel_type)
   else true)
  && match min_posts with
     | Some n =>
         if negb (n =? 0)%Z then (n <=? ChannelResponse.total_posts c)%Z
         else true
     | None => true
     end
  && (if active_only
      then String.eqb (ChannelResponse.activity_status c) "Active"
      else true).

(** A channel row with a value in every column [ChannelResponse]
    requires. *)
Definition complete (channel : Channel.t) : bool :=
  bool_decide (is_Some (Channel.channel_name channel))
  && bool_decide (is_Some (Channel.channel_type channel))
  && bool_decide (is_Some (Channel.total_posts channel))
  && bool_decide (is_Some (Channel.avg_views channel))
  && bool_decide (is_Some (Channel.image_percentage channel))
  && bool_decide (is_Some (Channel.activity_status channel)).

(** The attribute that the first filter a listing request sets reads. *)
Definition first_filter (channel_type : option string)
    (min_posts : option Z) : string :=
  if given channel_type then "channel_type"
  else match min_posts with
       | Some n =>
           if negb (n =? 0)%Z then "total_posts" else "activity_status"
       | None => "activity_status"
       end.

(** A request for the channel listing that sets a filter. *)
Definition filtering (channel_type : option string) (min_posts : option Z)
    (active_only : bool) : bool :=
  given channel_type
  || match min_posts with Some n => negb (n =? 0)%Z | None => false end
  || active_only.

(** The warehouse with another channel table. *)
Definition with_channels (channels : list Channel.t) (db : Session.t)
  : Session.t :=
  {| Session.connected := Session.connected db;
     Session.dim_channels := channels;
     Session.fct_messages := Session.fct_messages db;
     Session.dim_dates := Session.dim_dates db;
     Session.ilike := Session.ilike db;
     Session.channel_activity_rows := Session.channel_activity_rows db;
     Session.top_products_rows := Session.top_products_rows db;
     Session.images_by_channel_rows := Session.images_by_channel_rows db;
     Session.images_by_category_rows := Session.images_by_category_rows db;
     Session.top_objects_rows := Session.top_objects_rows db;
     Session.avg_detections_row := Session.avg_detections_row db;
     Session.engagement_totals_row := Session.engagement_totals_row db;
     Session.engagement_top_rows := Session.engagement_top_rows db;
     Session.refusal := Session.refusal db |}.

(** A channel row whose statistics have not been computed yet. *)
Definition channel_without_statistics (name : string) : Channel.t :=
  {| Channel.channel_key := "key-" +:+ name;
     Channel.channel_name := Some name;
     Channel.channel_type := Some "Pharmaceutical";
     Channel.first_post_date := None;
     Channel.last_post_date := None;
     Channel.total_posts := None;
     Channel.avg_views := None;
     Channel.image_percentage := None;
     Channel.activity_status := None |}.

(** ** Arithmetic of the comparison *)

Section numbers.

Local Open Scope Z_scope.

Lemma max_int_lower_bound (a : Z) : 1 <= max_int a 1.
Proof. unfold max_int. destruct (Z.ltb_spec a 1); lia. Qed.

Lemma float_of_int_nonzero (z : Z) : z <> 0 -> float_of_int z <> 0%Qc.
Proof.
  intros Hz H. apply Hz.
  unfold float_of_int in H.
  apply Q2Qc_eq_iff in H.
  unfold Qeq in H. simpl in H. lia.
Qed.

Lemma max_float_lower_bound (a : Qc) : (1 <= max_float a 1)%Qc.
Proof.
  unfold max_float. destruct (decide (a < 1)%Qc) as [Hlt | Hge].
  - apply Qcle_refl.
  - apply Qcnot_lt_le. exact Hge.
Qed.

Lemma max_float_nonzero (a : Qc) : max_float a 1 <> 0%Qc.
Proof.
  intros H. pose proof (max_float_lower_bound a) as Hle.
  rewrite H in Hle. revert Hle. apply Qclt_not_le. reflexivity.
Qed.

Lemma truediv_defined (a b : Qc) :
  b <> 0%Qc -> truediv a b = Return (a / b)%Qc.
Proof.
  intros Hb. unfold truediv.
  destruct (decide (b = 0%Qc)); [contradiction | reflexivity].
Qed.

Lemma posts_ratio_defined (a b : Z) :
  truediv (float_of_int a) (float_of_int (max_int b 1))
  = Return (float_of_int a / float_of_int (max_int b 1))%Qc.
Proof.
  apply truediv_defined, float_of_int_nonzero.
  pose proof (max_int_lower_bound b). lia.
Qed.

Lemma views_ratio_defined (a b : Qc) :
  truediv a (max_float b 1) = Return (a / max_float b 1)%Qc.
Proof. apply truediv_defined, max_float_nonzero. Qed.

End numbers.

(** ** The comparison of two channels *)

Lemma metrics_value (c1 c2 : ChannelResponse.t) :
  channels.metrics c1 c2 =
  Return (VDict [
    ("total_posts", VDict [
       ("channel1", VInt (ChannelResponse.total_posts c1));
       ("channel2", VInt (ChannelResponse.total_posts c2));
       ("difference",
        VInt (ChannelResponse.total_posts c1 - ChannelResponse.total_posts c2));
       ("percentage_difference",
        VFloat (percentage
                  (float_of_int (ChannelResponse.total_posts c1
                                 - ChannelResponse.total_posts c2))
                  (float_of_int (max_int (ChannelResponse.total_posts c2) 1)))) ]);
    ("avg_views", VDict [
       ("channel1", VFloat (ChannelResponse.avg_views c1));
       ("channel2", VFloat (ChannelResponse.avg_views c2));
       ("difference",
        VFloat (ChannelResponse.avg_views c1 - ChannelResponse.avg_views c2)%Qc);
       ("percentage_difference",
        VFloat (percentage
                  (ChannelResponse.avg_views c1 - ChannelResponse.avg_views c2)%Qc
                  (max_float (ChannelResponse.avg_views c2) 1))) ]);
    ("image_percentage", VDict [
       ("channel1", VFloat (ChannelResponse.image_percentage c1));
       ("channel2", VFloat (ChannelResponse.image_percentage c2));
       ("difference",
        VFloat (ChannelResponse.image_percentage c1
                - ChannelResponse.image_percentage c2)%Qc) ]) ]).
Proof.
  unfold channels.metrics.
  rewrite posts_ratio_defined, views_ratio_defined. reflexivity.
Qed.

(** C5, as amended.  For every two channel objects the comparison returns
    the absolute difference of total posts, of average views and of image
    percentage, and a percentage difference for total posts and average
    views; the image-percentage entry carries no percentage difference. *)
Theorem comparison_differences (c1 c2 : ChannelResponse.t) :
  exists m posts views images,
    channels.metrics c1 c2 = Return m
    /\ item m "total_posts" = Some posts
    /\ item m "avg_views" = Some views
    /\ item m "image_percentage" = Some images
    /\ item posts "difference"
       = Some (VInt (ChannelResponse.total_posts c1
                     - ChannelResponse.total_posts c2))
    /\ item views "difference"
       = Some (VFloat (ChannelResponse.avg_views c1
                       - ChannelResponse.avg_views c2)%Qc)
    /\ item images "difference"
       = Some (VFloat (ChannelResponse.image_percentage c1
                       - ChannelResponse.image_percentage c2)%Qc)
    /\ item posts "percentage_difference"
       = Some (VFloat (percentage
                         (float_of_int (ChannelResponse.total_posts c1
                                        - ChannelResponse.total_posts c2))
                         (float_of_int
                            (max_int (ChannelResponse.total_posts c2) 1))))
    /\ item views "percentage_difference"
       = Some (VFloat (percentage
                         (ChannelResponse.avg_views c1
                          - ChannelResponse.avg_views c2)%Qc
                         (max_float (ChannelResponse.avg_views c2) 1)))
    /\ item images "percentage_difference" = None.
Proof.
  rewrite metrics_value. do 4 eexists.
  split; [reflexivity |]. repeat split; reflexivity.
Qed.

(** C5, as stated, fails: comparing the sample channels A and B, the
    image-percentage entry has no percentage difference. *)
Lemma comparison_lacks_image_percentage_ratio :
  ~ (exists m, channels.metrics (sample.response "A" 0) (sample.response "B" 7)
               = Return m
               /\ reports_both m "total_posts"
               /\ reports_both m "avg_views"
               /\ reports_both m "image_percentage").
Proof.
  intros (m & Hm & _ & _ & (entry & d & p & Hentry & _ & Hp)).
  rewrite metrics_value in Hm. injection Hm as <-.
  simpl in Hentry. injection Hentry as <-.
  simpl in Hp. discriminate Hp.
Qed.

(** C6.  For every two channel objects -- a zero total-post count or a
    zero average view count of the second included -- both divisions of
    the comparison are defined: the divisors are [max(total_posts, 1)] and
    [max(avg_views, 1)], which are at least 1, and the comparison returns
    without a division error. *)
Theorem comparison_never_divides_by_zero (c1 c2 : ChannelResponse.t) :
  (1 <= max_int (ChannelResponse.total_posts c2) 1)%Z
  /\ (1 <= max_float (ChannelResponse.avg_views c2) 1)%Qc
  /\ truediv (float_of_int (ChannelResponse.total_posts c1
                            - ChannelResponse.total_posts c2))
       (float_of_int (max_int (ChannelResponse.total_posts c2) 1))
     = Return (float_of_int (ChannelResponse.total_posts c1
                             - ChannelResponse.total_posts c2)
               / float_of_int (max_int (ChannelResponse.total_posts c2) 1))%Qc
  /\ truediv (ChannelResponse.avg_views c1 - ChannelResponse.avg_views c2)%Qc
       (max_float (ChannelResponse.avg_views c2) 1)
     = Return ((ChannelResponse.avg_views c1 - ChannelResponse.avg_views c2)
               / max_float (ChannelResponse.avg_views c2) 1)%Qc
  /\ exists m, channels.metrics c1 c2 = Return m.
Proof.
  split; [apply max_int_lower_bound |].
  split; [apply max_float_lower_bound |].
  split; [apply posts_ratio_defined |].
  split; [apply views_ratio_defined |].
  rewrite metrics_value. eexists. reflexivity.
Qed.

(** ** The daily-trends route *)

(** C1 on the code.  For a metric outside messages, views, forwards and
    images the route raises [HTTPException(400)] inside its own [try],
    whose [except Exception] turns it into a 500 carrying the text of the
    first exception: the answer is a 500, not the 400 the claim asks for. *)
Theorem daily_trends_unknown_metric (metric : string) (days : Z)
    (db : Session.t) (redis_client : option Redis.client) (r : Redis.t) :
  reports.known_metric metric = false ->
  reports.get_daily_trends metric days db redis_client r
  = (Raise (HTTPException 500 "400: Invalid metric"), r)
  /\ status (reports.get_daily_trends metric days db redis_client r).1 = 500%Z.
Proof.
  intros Hmetric.
  unfold reports.get_daily_trends, guarded, await, raise.
  rewrite Hmetric. simpl. split; reflexivity.
Qed.

Lemma daily_trends_bogus :
  reports.get_daily_trends "bogus" 30 sample.db None sample.empty_redis
  = (Raise (HTTPException 500 "400: Invalid metric"), sample.empty_redis)
  /\ status (reports.get_daily_trends "bogus" 30 sample.db None
               sample.empty_redis).1 = 500%Z.
Proof. apply daily_trends_unknown_metric. reflexivity. Defined.

(** ** The cache-aside layer *)

Lemma get_cached_total (self : DataService.t) (key : string) (r : Redis.t) :
  exists v, DataService.get_cached self key r = (Return v, r).
Proof.
  unfold DataService.get_cached.
  destruct (DataService.redis self); [| eauto].
  destruct (Redis.get r key) as [[data |] | e]; [| eauto | eauto].
  destruct (Redis.truthy_data data); [| eauto].
  destruct (Redis.json_loads data); eauto.
Qed.

Lemma get_live_entry (r : Redis.t) (key : string) (e : Redis.entry) :
  Redis.reachable r = true ->
  Redis.entries r !! key = Some e ->
  (Redis.clock r < Redis.expires_at e)%Z ->
  Redis.get r key = Return (Some (Redis.content e)).
Proof.
  intros Hup Hkey Hlive. unfold Redis.get. rewrite Hup, Hkey.
  destruct (Z.leb_spec (Redis.clock r) (Redis.expires_at e)); [| lia].
  reflexivity.
Qed.

(** C2.  [get_cached] never raises and never changes the server.  It
    returns the deserialised value of a present, unexpired entry, and
    [None] when the service has no cache client, when the entry is absent
    or expired, when the call to the server fails, and when the stored
    string does not deserialise.  [set_cached] never raises: it stores the
    serialised value with a time to live of 300 seconds, and answers
    [False], leaving the server as it is, when there is no client or the
    call fails. *)
Theorem cache_fail_open (db : Session.t) (redis_client : option Redis.client)
    (key : string) (data : value) (r : Redis.t) :
  let self := DataService.new db redis_client in
  (exists v, DataService.get_cached self key r = (Return v, r))
  /\ (forall c e j,
        redis_client = Some c ->
        Redis.reachable r = true ->
        Redis.entries r !! key = Some e ->
        (Redis.clock r < Redis.expires_at e)%Z ->
        Redis.content e = Redis.Text j ->
        DataService.get_cached self key r = (Return (loads j), r))
  /\ (redis_client = None
      \/ Redis.get r key = Return None
      \/ (exists e, Redis.get r key = Raise e)
      \/ (exists d e, Redis.get r key = Return (Some d)
                      /\ Redis.json_loads d = Raise e) ->
      DataService.get_cached self key r = (Return VNone, r))
  /\ (exists b r', DataService.set_cached self key data r = (Return b, r'))
  /\ (forall c r',
        redis_client = Some c ->
        Redis.setex r key 300 (Redis.Text (dumps data)) = Return r' ->
        DataService.set_cached self key data r = (Return true, r')
        /\ Redis.entries r'
           = <[key := {| Redis.expires_at := Redis.clock r + 300;
                         Redis.content := Redis.Text (dumps data) |}]>
               (Redis.entries r))
  /\ (redis_client = None
      \/ (exists e, Redis.setex r key 300 (Redis.Text (dumps data)) = Raise e) ->
      DataService.set_cached self key data r = (Return false, r)).
Proof.
  intros self. repeat split.
  - apply get_cached_total.
  - intros c e j -> Hup Hkey Hlive Hj.
    unfold DataService.get_cached. simpl.
    rewrite (get_live_entry r key e Hup Hkey Hlive), Hj. reflexivity.
  - intros [-> | [H | [[e H] | (d & e & H & Hd)]]];
      unfold DataService.get_cached; simpl; [reflexivity | ..].
    + destruct redis_client; [| reflexivity]. rewrite H. reflexivity.
    + destruct redis_client; [| reflexivity]. rewrite H. reflexivity.
    + destruct redis_client; [| reflexivity]. rewrite H, Hd.
      destruct (Redis.truthy_data d); reflexivity.
  - unfold DataService.set_cached. simpl.
    destruct redis_client; [| eauto].
    destruct (Redis.setex r key 300 (Redis.json_dumps data)); eauto.
  - unfold DataService.set_cached. simpl. subst redis_client.
    unfold Redis.json_dumps. rewrite H0. reflexivity.
  - subst redis_client. unfold Redis.setex in H0.
    destruct (Redis.reachable r); [| discriminate].
    injection H0 as <-. reflexivity.
  - intros [-> | [e H]]; unfold DataService.set_cached; simpl; [reflexivity |].
    destruct redis_client; [| reflexivity].
    unfold Redis.json_dumps. rewrite H. reflexivity.
Qed.

Lemma cache_fail_open_sample :
  DataService.get_cached (DataService.new sample.db (Some Redis.Client))
    "channels:all" sample.redis_with_empty_list
  = (Return (VList []), sample.redis_with_empty_list).
Proof.
  apply (proj1 (proj2 (cache_fail_open sample.db (Some Redis.Client)
                         "channels:all" VNone sample.redis_with_empty_list))
           Redis.Client
           {| Redis.expires_at := 300; Redis.content := Redis.Text (JArr []) |}
           (JArr [])).
  - reflexivity.
  - reflexivity.
  - vm_compute. reflexivity.
  - simpl. lia.
  - reflexivity.
Defined.

(** ** Dictionaries *)

Section dict_facts.

Context {V : Type}.
Implicit Types (d : dict.t V) (k : string) (v : V).

Lemma get_set d k v default : dict.get (dict.set d k v) k default = v.
Proof.
  induction d as [| [k' v'] d IH]; simpl.
  - rewrite String.eqb_refl. reflexivity.
  - destruct (String.eqb k' k) eqn:E; simpl; rewrite E; auto.
Qed.

Lemma get_set_other d k k' v default :
  k <> k' -> dict.get (dict.set d k v) k' default = dict.get d k' default.
Proof.
  intros Hne. induction d as [| [k0 v0] d IH]; simpl.
  - apply String.eqb_neq in Hne. rewrite Hne. reflexivity.
  - destruct (String.eqb k0 k) eqn:E; simpl.
    + apply String.eqb_eq in E. subst k0.
      apply String.eqb_neq in Hne. rewrite Hne. reflexivity.
    + destruct (String.eqb k0 k'); auto.
Qed.

Lemma get_absent d k default : k ∉ d.*1 -> dict.get d k default = default.
Proof.
  induction d as [| [k' v'] d IH]; simpl; [reflexivity |].
  intros Hk. apply not_elem_of_cons in Hk as [Hne Hk].
  destruct (String.eqb_spec k' k); [congruence | auto].
Qed.

(** Setting a key keeps the keys in place; a new key goes to the end. *)
Lemma set_keys d k v :
  (dict.set d k v).*1 = if dict.mem d k then d.*1 else d.*1 ++ [k].
Proof.
  induction d as [| [k' v'] d IH]; simpl; [reflexivity |].
  destruct (String.eqb k' k) eqn:E; csimpl; [reflexivity |].
  rewrite IH. destruct (dict.mem d k); reflexivity.
Qed.

Lemma mem_keys d k : dict.mem d k = true <-> k ∈ d.*1.
Proof.
  induction d as [| [k' v'] d IH]; simpl.
  - split; [discriminate | intros H; inversion H].
  - rewrite orb_true_iff, IH, elem_of_cons.
    destruct (String.eqb_spec k' k); intuition congruence.
Qed.

Lemma set_keys_NoDup d k v : NoDup d.*1 -> NoDup (dict.set d k v).*1.
Proof.
  intros Hd. rewrite set_keys. destruct (dict.mem d k) eqn:E; [exact Hd |].
  apply NoDup_app. split; [exact Hd |]. split; [| apply NoDup_singleton].
  intros x Hx Hk. apply list_elem_of_singleton in Hk. subst x.
  apply mem_keys in Hx. congruence.
Qed.

Lemma set_keys_head d k v k0 :
  head d.*1 = Some k0 -> head (dict.set d k v).*1 = Some k0.
Proof.
  intros Hd. rewrite set_keys. destruct (dict.mem d k); [exact Hd |].
  destruct (d.*1); [discriminate | exact Hd].
Qed.

Lemma head_entry d k0 default :
  head d.*1 = Some k0 -> exists d', d = (k0, dict.get d k0 default) :: d'.
Proof.
  destruct d as [| [k v] d]; simpl; [discriminate |].
  intros [= ->]. rewrite String.eqb_refl. eauto.
Qed.

Lemma get_entry d k v default :
  NoDup d.*1 -> (k, v) ∈ d -> dict.get d k default = v.
Proof.
  induction d as [| [k' v'] d IH]; simpl; intros Hd Hin.
  - inversion Hin.
  - apply NoDup_cons in Hd as [Hk' Hd].
    apply elem_of_cons in Hin as [[= -> ->] | Hin].
    + rewrite String.eqb_refl. reflexivity.
    + destruct (String.eqb_spec k' k) as [-> | Hne]; [| auto].
      exfalso. apply Hk'. apply list_elem_of_fmap. exists (k, v). auto.
Qed.

End dict_facts.

(** ** The stable descending sort *)

Section sorting.

Context {A : Type} (key : A -> Z).

Lemma insert_desc_permutation (x : A) (l : list A) :
  insert_desc key x l ≡ₚ x :: l.
Proof.
  induction l as [| y l IH]; simpl; [reflexivity |].
  destruct (key x <? key y)%Z; [| reflexivity].
  rewrite IH. apply Permutation_swap.
Qed.

Lemma sorted_desc_permutation (l : list A) : sorted_desc key l ≡ₚ l.
Proof.
  induction l as [| x l IH]; simpl; [reflexivity |].
  rewrite insert_desc_permutation, IH. reflexivity.
Qed.

(** A first element no other exceeds stays first. *)
Lemma sorted_desc_head (x : A) (l : list A) :
  Forall (fun y => key y <= key x)%Z l ->
  sorted_desc key (x :: l) = x :: sorted_desc key l.
Proof.
  intros Hl. simpl.
  assert (Forall (fun y => key y <= key x)%Z (sorted_desc key l)) as Hs.
  { rewrite Forall_forall in *. intros y Hy. apply Hl.
    rewrite <- (sorted_desc_permutation l). exact Hy. }
  destruct (sorted_desc key l) as [| y l']; simpl; [reflexivity |].
  apply Forall_cons in Hs as [Hy _].
  destruct (Z.ltb_spec (key x) (key y)); [lia | reflexivity].
Qed.

End sorting.

(** ** The scan for product mentions *)

Section scan.

Import DataService.

Implicit Types (st : tally) (table : dict.t (list string)).

(** The [break]: the keyword loop mentions the product once, at the first
    keyword found in the text, or not at all. *)
Lemma scan_keywords_first_match keywords message_text product channel_name
    views st :
  scan_keywords keywords message_text product channel_name views st
  = if existsb (fun keyword => contains keyword message_text) keywords
    then mention product channel_name views st
    else st.
Proof.
  induction keywords as [| keyword keywords IH]; simpl; [reflexivity |].
  destruct (contains keyword message_text); [reflexivity | exact IH].
Qed.

Lemma scan_products_cons product keywords table message_text channel_name
    views st :
  scan_products ((product, keywords) :: table) message_text channel_name
    views st
  = scan_products table message_text channel_name views
      (scan_keywords keywords message_text product channel_name views st).
Proof. reflexivity. Qed.

Lemma scan_products_count table message_text channel_name views st product :
  NoDup table.*1 ->
  dict.get (product_counts
              (scan_products table message_text channel_name views st))
    product 0%Z
  = (dict.get (product_counts st) product 0
     + added_count (existsb (fun keyword => contains keyword message_text)
                      (dict.get table product [])))%Z.
Proof.
  revert st. induction table as [| [p keywords] table IH]; intros st Hnd.
  - simpl. lia.
  - rewrite scan_products_cons. csimpl in Hnd.
    apply NoDup_cons in Hnd as [Hp Hnd].
    rewrite (IH _ Hnd), scan_keywords_first_match. simpl.
    destruct (String.eqb_spec p product) as [-> | Hne].
    + rewrite (get_absent table product [] Hp). simpl.
      destruct (existsb _ keywords); simpl; [| lia].
      rewrite get_set. lia.
    + destruct (existsb _ keywords); simpl; [| reflexivity].
      rewrite (get_set_other _ _ _ _ _ Hne). reflexivity.
Qed.

Lemma scan_products_views table message_text channel_name views st product :
  NoDup table.*1 ->
  dict.get (product_views
              (scan_products table message_text channel_name views st))
    product []
  = dict.get (product_views st) product []
    ++ (if existsb (fun keyword => contains keyword message_text)
             (dict.get table product [])
        then [views] else []).
Proof.
  revert st. induction table as [| [p keywords] table IH]; intros st Hnd.
  - simpl. rewrite app_nil_r. reflexivity.
  - rewrite scan_products_cons. csimpl in Hnd.
    apply NoDup_cons in Hnd as [Hp Hnd].
    rewrite (IH _ Hnd), scan_keywords_first_match. simpl.
    destruct (String.eqb_spec p product) as [-> | Hne].
    + rewrite (get_absent table product [] Hp). simpl.
      destruct (existsb _ keywords); simpl; rewrite app_nil_r; [| reflexivity].
      rewrite get_set. reflexivity.
    + destruct (existsb _ keywords); simpl; [| reflexivity].
      rewrite (get_set_other _ _ _ _ _ Hne). reflexivity.
Qed.

Lemma scan_products_channels table message_text channel_name views st
    product :
  NoDup table.*1 ->
  dict.get (product_channels
              (scan_products table message_text channel_name views st))
    product ∅
  = dict.get (product_channels st) product ∅
    ∪ (if existsb (fun keyword => contains keyword message_text)
            (dict.get table product [])
       then {[channel_name]} else ∅).
Proof.
  revert st. induction table as [| [p keywords] table IH]; intros st Hnd.
  - simpl. rewrite (right_id_L ∅ (∪)). reflexivity.
  - rewrite scan_products_cons. csimpl in Hnd.
    apply NoDup_cons in Hnd as [Hp Hnd].
    rewrite (IH _ Hnd), scan_keywords_first_match. simpl.
    destruct (String.eqb_spec p product) as [-> | Hne].
    + rewrite (get_absent table product [] Hp). simpl.
      destruct (existsb _ keywords); simpl;
        [| rewrite (right_id_L ∅ (∪)); reflexivity].
      rewrite get_set, (right_id_L ∅ (∪)). reflexivity.
    + destruct (existsb _ keywords); simpl; [| reflexivity].
      rewrite (get_set_other _ _ _ _ _ Hne). reflexivity.
Qed.

Lemma product_keywords_NoDup : NoDup product_keywords.*1.
Proof. apply (bool_decide_unpack _). vm_compute. exact I. Qed.

End scan.

(** C3.  Scanning one message changes the mention count of every product
    by one when some keyword of the product occurs in the lowered text --
    however many of them do -- and by nothing otherwise; the keyword loop
    stops at the first keyword found; the views list of the product grows
    by the one view count of the message. *)
Theorem one_mention_per_message (st : DataService.tally) (text : string)
    (channel_name : option string) (view_count : option Z)
    (product : string) :
  (forall keywords,
     DataService.scan_keywords keywords (lower text) product channel_name
       (or_zero view_count) st
     = if existsb (fun keyword => contains keyword (lower text)) keywords
       then DataService.mention product channel_name (or_zero view_count) st
       else st)
  /\ exists st',
       DataService.scan_row st (Some text, channel_name, view_count)
       = Return st'
       /\ dict.get (DataService.product_counts st') product 0%Z
          = (dict.get (DataService.product_counts st) product 0
             + added_count (mentioned product (lower text)))%Z
       /\ (dict.get (DataService.product_counts st') product 0
           <= dict.get (DataService.product_counts st) product 0 + 1)%Z
       /\ dict.get (DataService.product_views st') product []
          = dict.get (DataService.product_views st) product []
            ++ (if mentioned product (lower text)
                then [or_zero view_count] else []).
Proof.
  split; [intros; apply scan_keywords_first_match |].
  eexists. split; [reflexivity |].
  rewrite (scan_products_count _ _ _ _ _ _ product_keywords_NoDup).
  rewrite (scan_products_views _ _ _ _ _ _ product_keywords_NoDup).
  fold (mentioned product (lower text)).
  repeat split. destruct (mentioned product (lower text)); simpl; lia.
Qed.

(** ** Texts that contain a keyword *)

Lemma prefix_append (k b : string) : String.prefix k (k +:+ b) = true.
Proof.
  induction k as [| c k IH]; simpl; [destruct b; reflexivity |].
  destruct (Ascii.ascii_dec c c); [exact IH | congruence].
Qed.

Lemma contains_prefix (k s : string) :
  String.prefix k s = true -> contains k s = true.
Proof. intros H. destruct s; cbn [contains]; rewrite H; reflexivity. Qed.

Lemma contains_append (k a b : string) : contains k (a +:+ k +:+ b) = true.
Proof.
  induction a as [| c a IH].
  - change (contains k (k +:+ b) = true).
    apply contains_prefix, prefix_append.
  - change (contains k (String c (a +:+ k +:+ b)) = true).
    cbn [contains]. rewrite IH. apply orb_true_r.
Qed.

Lemma lower_append (a b : string) : lower (a +:+ b) = lower a +:+ lower b.
Proof.
  induction a as [| c a IH]; simpl; [reflexivity |].
  rewrite IH. reflexivity.
Qed.

Lemma mentions_paracetamol (text : string) :
  (exists a b, text = a +:+ "paracetamol" +:+ b) ->
  mentioned "Paracetamol" (lower text) = true.
Proof.
  intros (a & b & ->).
  rewrite !lower_append.
  change (lower "paracetamol") with "paracetamol".
  unfold mentioned. simpl. rewrite contains_append. reflexivity.
Qed.

(** ** Cache-aside: what a miss does *)

Section cache_aside.

Context (self : DataService.t).

Lemma miss_falls_through (key : string) (r : Redis.t) (body : cached value) :
  miss self key r = true ->
  (cached <~ DataService.get_cached self key ;;
   if truthy cached then ret cached else body) r
  = body r.
Proof.
  unfold miss, await. intros Hmiss.
  destruct (get_cached_total self key r) as [v Hv].
  rewrite Hv in Hmiss |- *.
  apply negb_true_iff in Hmiss. rewrite Hmiss. reflexivity.
Qed.

Lemma set_cached_total (key : string) (data : value) (r : Redis.t) :
  exists b r', DataService.set_cached self key data r = (Return b, r').
Proof.
  unfold DataService.set_cached.
  destruct (DataService.redis self); [| eauto].
  destruct (Redis.setex _ _ _ _); eauto.
Qed.

(** Computing, storing and returning: the result is what was computed. *)
Lemma store_and_return (key : string) (compute : except value) (r : Redis.t) :
  ((result <~ lift compute ;;
    _ <~ DataService.set_cached self key result ;;
    ret result) r).1
  = compute.
Proof.
  unfold await, lift, ret. destruct compute as [v | e]; [| reflexivity].
  destruct (set_cached_total key v r) as (b & r' & ->). reflexivity.
Qed.

End cache_aside.

(** ** The top product of three messages on paracetamol *)

Section top_product.

Import DataService.

Implicit Types (st : tally) (table : dict.t (list string)).

Lemma mention_counts_NoDup product channel_name views st :
  NoDup (product_counts st).*1 ->
  NoDup (product_counts (mention product channel_name views st)).*1.
Proof. apply set_keys_NoDup. Qed.

Lemma scan_products_NoDup table message_text channel_name views st :
  NoDup (product_counts st).*1 ->
  NoDup (product_counts
           (scan_products table message_text channel_name views st)).*1.
Proof.
  revert st. induction table as [| [p keywords] table IH]; intros st Hst.
  - exact Hst.
  - rewrite scan_products_cons. apply IH.
    rewrite scan_keywords_first_match.
    destruct (existsb _ keywords); [apply mention_counts_NoDup |]; exact Hst.
Qed.

Lemma scan_products_head table message_text channel_name views st first :
  head (product_counts st).*1 = Some first ->
  head (product_counts
          (scan_products table message_text channel_name views st)).*1
  = Some first.
Proof.
  revert st. induction table as [| [p keywords] table IH]; intros st Hst.
  - exact Hst.
  - rewrite scan_products_cons. apply IH.
    rewrite scan_keywords_first_match.
    destruct (existsb _ keywords); [apply set_keys_head |]; exact Hst.
Qed.

(** On empty dictionaries, the first product of the table that the text
    mentions becomes the first key of the counts. *)
Lemma scan_products_first product keywords table message_text channel_name
    views :
  existsb (fun keyword => contains keyword message_text) keywords = true ->
  head (product_counts
          (scan_products ((product, keywords) :: table) message_text
             channel_name views no_mentions)).*1
  = Some product.
Proof.
  intros Hfound. rewrite scan_products_cons. apply scan_products_head.
  rewrite scan_keywords_first_match, Hfound. reflexivity.
Qed.

Lemma added_count_bound (found : bool) : (added_count found <= 1)%Z.
Proof. destruct found; simpl; lia. Qed.

(** The channel names of a set of non-null names. *)
Lemma required_names (field : string) (names : list string) :
  mapM (required field) (Some <$> names) = Return names.
Proof.
  induction names as [| name names IH]; csimpl; [reflexivity |].
  rewrite IH. reflexivity.
Qed.

Lemma pair_members (A B x : string) : x ∈ [A; B] <-> x = A \/ x = B.
Proof. rewrite elem_of_cons, list_elem_of_singleton. reflexivity. Qed.

Lemma pair_NoDup (A B : string) : A <> B -> NoDup [A; B].
Proof.
  intros Hne. apply NoDup_cons. split; [| apply NoDup_singleton].
  intros H. apply list_elem_of_singleton in H. contradiction.
Qed.

(** [list(s)] of the set of two channel names, in whichever order. *)
Lemma elements_two (A B : string) :
  exists names : list string,
    elements ({[Some A; Some B]} : gset (option string)) = Some <$> names
    /\ NoDup names
    /\ (forall x, x ∈ names <-> x = A \/ x = B)
    /\ (length names <= 2)%nat.
Proof.
  destruct (decide (A = B)) as [-> | Hne].
  - exists [B]. rewrite (idemp_L (∪)), elements_singleton. repeat split.
    + apply NoDup_singleton.
    + intros Hx. apply list_elem_of_singleton in Hx. auto.
    + intros [-> | ->]; apply list_elem_of_singleton; reflexivity.
    + simpl. lia.
  - assert ([Some A; Some B]
            ≡ₚ elements ({[Some A; Some B]} : gset (option string))) as Hperm.
    { rewrite elements_union_singleton, elements_singleton; [reflexivity |].
      intros H. apply elem_of_singleton in H. congruence. }
    apply Permutation_length_2_inv in Hperm as [-> | ->].
    + exists [A; B]. repeat split;
        [apply pair_NoDup; exact Hne | apply pair_members
         | apply pair_members | simpl; lia].
    + exists [B; A]. repeat split;
        [apply pair_NoDup; congruence | intros H; apply pair_members in H; tauto
         | intros H; apply pair_members; tauto | simpl; lia].
Qed.

End top_product.

(** ** Lookups that tell a missing key from a default *)

Section dict_find.

Context {V : Type}.
Implicit Types (d : dict.t V) (k : string) (v : V).

Lemma get_find d k default_value :
  dict.get d k default_value = default default_value (dict.find d k).
Proof.
  induction d as [| [k' v'] d IH]; simpl; [reflexivity |].
  destruct (String.eqb k' k); [reflexivity | exact IH].
Qed.

Lemma find_set d k v : dict.find (dict.set d k v) k = Some v.
Proof.
  induction d as [| [k' v'] d IH]; simpl.
  - rewrite String.eqb_refl. reflexivity.
  - destruct (String.eqb k' k) eqn:E; simpl; rewrite E; auto.
Qed.

Lemma find_set_other d k k' v :
  k <> k' -> dict.find (dict.set d k v) k' = dict.find d k'.
Proof.
  intros Hne. induction d as [| [k0 v0] d IH]; simpl.
  - apply String.eqb_neq in Hne. rewrite Hne. reflexivity.
  - destruct (String.eqb k0 k) eqn:E; simpl.
    + apply String.eqb_eq in E. subst k0.
      apply String.eqb_neq in Hne. rewrite Hne. reflexivity.
    + destruct (String.eqb k0 k'); auto.
Qed.

End dict_find.

Section scan_find.

Import DataService.

Lemma scan_products_views_find table message_text channel_name views st
    product :
  NoDup table.*1 ->
  dict.find (product_views
               (scan_products table message_text channel_name views st))
    product
  = if existsb (fun keyword => contains keyword message_text)
         (dict.get table product [])
    then Some (dict.get (product_views st) product [] ++ [views])
    else dict.find (product_views st) product.
Proof.
  revert st. induction table as [| [p keywords] table IH]; intros st Hnd.
  - reflexivity.
  - rewrite scan_products_cons. csimpl in Hnd.
    apply NoDup_cons in Hnd as [Hp Hnd].
    rewrite (IH _ Hnd), scan_keywords_first_match. simpl.
    destruct (String.eqb_spec p product) as [-> | Hne].
    + rewrite (get_absent table product [] Hp). simpl.
      destruct (existsb _ keywords); simpl; [| reflexivity].
      apply find_set.
    + destruct (existsb _ keywords); simpl; [| reflexivity].
      rewrite (get_set_other _ _ _ _ _ Hne), (find_set_other _ _ _ _ Hne).
      reflexivity.
Qed.

End scan_find.

(** ** Three messages on paracetamol *)

Section three_messages.

Import DataService.

Context (t1 t2 t3 A B : string).
Context (H1 : exists a b, t1 = a +:+ "paracetamol" +:+ b).
Context (H2 : exists a b, t2 = a +:+ "paracetamol" +:+ b).
Context (H3 : exists a b, t3 = a +:+ "paracetamol" +:+ b).

Lemma scan_three_rows : scan_rows no_mentions (three_rows t1 t2 t3 A B)
  = Return (after_three t1 t2 t3 A B).
Proof. reflexivity. Qed.

Lemma after_three_count :
  dict.get (product_counts (after_three t1 t2 t3 A B)) "Paracetamol" 0%Z = 3%Z.
Proof.
  unfold after_three.
  rewrite !(scan_products_count _ _ _ _ _ _ product_keywords_NoDup).
  fold (mentioned "Paracetamol" (lower t1)).
  fold (mentioned "Paracetamol" (lower t2)).
  fold (mentioned "Paracetamol" (lower t3)).
  rewrite !mentions_paracetamol by assumption. reflexivity.
Qed.

Lemma after_three_bound (product : string) :
  (dict.get (product_counts (after_three t1 t2 t3 A B)) product 0 <= 3)%Z.
Proof.
  unfold after_three.
  rewrite !(scan_products_count _ _ _ _ _ _ product_keywords_NoDup).
  fold (mentioned product (lower t1)).
  fold (mentioned product (lower t2)).
  fold (mentioned product (lower t3)).
  pose proof (added_count_bound (mentioned product (lower t1))).
  pose proof (added_count_bound (mentioned product (lower t2))).
  pose proof (added_count_bound (mentioned product (lower t3))).
  change (dict.get (product_counts no_mentions) product 0%Z) with 0%Z. lia.
Qed.

Lemma after_three_views :
  dict.find (product_views (after_three t1 t2 t3 A B)) "Paracetamol"
  = Some [100; 200; 300]%Z.
Proof.
  unfold after_three.
  rewrite (scan_products_views_find _ _ _ _ _ _ product_keywords_NoDup).
  rewrite !(scan_products_views _ _ _ _ _ _ product_keywords_NoDup).
  fold (mentioned "Paracetamol" (lower t1)).
  fold (mentioned "Paracetamol" (lower t2)).
  fold (mentioned "Paracetamol" (lower t3)).
  rewrite !mentions_paracetamol by assumption. reflexivity.
Qed.

Lemma after_three_channels :
  dict.get (product_channels (after_three t1 t2 t3 A B)) "Paracetamol" ∅
  = {[Some A; Some B]}.
Proof.
  unfold after_three.
  rewrite !(scan_products_channels _ _ _ _ _ _ product_keywords_NoDup).
  fold (mentioned "Paracetamol" (lower t1)).
  fold (mentioned "Paracetamol" (lower t2)).
  fold (mentioned "Paracetamol" (lower t3)).
  rewrite !mentions_paracetamol by assumption.
  simpl dict.get. rewrite (left_id_L ∅ (∪)).
  rewrite <- (assoc_L (∪)), (comm_L (∪) {[Some B]}), (assoc_L (∪)).
  rewrite (idemp_L (∪)). reflexivity.
Qed.

Lemma after_three_sorted :
  exists rest,
    sorted_desc snd (product_counts (after_three t1 t2 t3 A B))
    = ("Paracetamol", 3%Z) :: rest.
Proof.
  assert (head (product_counts (after_three t1 t2 t3 A B)).*1
          = Some "Paracetamol") as Hhead.
  { unfold after_three. do 2 apply scan_products_head.
    apply (scan_products_first "Paracetamol" _ (tail product_keywords)).
    apply (mentions_paracetamol t1 H1). }
  assert (NoDup (product_counts (after_three t1 t2 t3 A B)).*1) as Hkeys.
  { unfold after_three. do 3 apply scan_products_NoDup. apply NoDup_nil_2. }
  destruct (head_entry _ _ 0%Z Hhead) as [rest Hrest].
  rewrite after_three_count in Hrest.
  exists (sorted_desc snd rest). rewrite Hrest.
  apply sorted_desc_head. apply Forall_forall. intros [k v] Hkv. simpl.
  rewrite <- (get_entry (product_counts (after_three t1 t2 t3 A B)) k v 0%Z
                Hkeys).
  - apply after_three_bound.
  - rewrite Hrest. apply elem_of_cons. right. exact Hkv.
Qed.

Lemma slice_to_short {X} (n : Z) (l : list X) :
  (0 <= n)%Z -> (length l <= Z.to_nat n)%nat -> slice_to n l = l.
Proof.
  intros Hn Hl. unfold slice_to.
  destruct (Z.leb_spec 0 n); [apply take_ge; exact Hl | lia].
Qed.

Lemma top_product_paracetamol :
  exists names,
    top_product (after_three t1 t2 t3 A B) ("Paracetamol", 3%Z)
    = Return {| TopProduct.product_name := "Paracetamol";
                TopProduct.mention_count := 3;
                TopProduct.channels := names;
                TopProduct.avg_views := Q2Qc 200 |}
    /\ NoDup names
    /\ (forall x, x ∈ names <-> x = A \/ x = B).
Proof.
  destruct (elements_two A B) as (names & Hnames & Hnd & Hmem & Hlen).
  exists names. split; [| split; assumption].
  unfold top_product.
  rewrite !get_find, after_three_views. simpl default.
  rewrite <- get_find, after_three_channels, Hnames.
  rewrite slice_to_short by (rewrite ?length_fmap; simpl; lia).
  rewrite required_names.
  replace (truediv _ _) with (Return (A := Qc) (Q2Qc 200)); [reflexivity |].
  vm_compute. f_equal. apply Qc_is_canon. reflexivity.
Qed.

End three_messages.

(** What each method returns when its cache lookup misses. *)
Ltac fall_through Hmiss :=
  cbv zeta; rewrite miss_falls_through by exact Hmiss; apply store_and_return.

Lemma get_top_products_miss (self : DataService.t) (limit days : Z)
    (r : Redis.t) :
  miss self ("top_products:" +:+ pretty limit +:+ ":" +:+ pretty days +:+ "d") r
  = true ->
  (DataService.get_top_products self limit days r).1
  = DataService.top_products self limit days.
Proof.
  intros Hmiss. unfold DataService.get_top_products. fall_through Hmiss.
Qed.

(** On a cache miss: when the statement of the top-products report
    returns three rows whose texts contain "paracetamol", with view counts
    100, 200 and 300 from channels A, B and A,
    [get_top_products(limit=1, days=30)] computes exactly one product:
    Paracetamol, with 3 mentions, the channels A and B (each once, in
    some order) and an average of 200 views. *)
Lemma top_product_on_miss (db : Session.t) (t1 t2 t3 A B : string) :
  Session.connected db = true ->
  Session.top_products_rows db 30 = three_rows t1 t2 t3 A B ->
  (exists a b, t1 = a +:+ "paracetamol" +:+ b) ->
  (exists a b, t2 = a +:+ "paracetamol" +:+ b) ->
  (exists a b, t3 = a +:+ "paracetamol" +:+ b) ->
  exists names,
    (forall redis_client,
       DataService.top_products (DataService.new db redis_client) 1 30
       = Return (VList [VModel (MProduct
           {| TopProduct.product_name := "Paracetamol";
              TopProduct.mention_count := 3;
              TopProduct.channels := names;
              TopProduct.avg_views := Q2Qc 200 |})]))
    /\ NoDup names
    /\ (forall x, x ∈ names <-> x = A \/ x = B).
Proof.
  intros Hdb Hrows H1 H2 H3.
  destruct (top_product_paracetamol t1 t2 t3 A B H1 H2 H3)
    as (names & Htop & Hnd & Hmem).
  destruct (after_three_sorted t1 t2 t3 A B H1 H2 H3) as [rest Hsorted].
  exists names. split; [| split; assumption].
  intros redis_client.
  unfold DataService.top_products, Session.execute. simpl DataService.db.
  rewrite Hdb, Hrows. cbn [bind].
  rewrite scan_three_rows. cbn [bind].
  rewrite Hsorted.
  change (slice_to 1 (("Paracetamol", 3%Z) :: rest))
    with [("Paracetamol", 3%Z)].
  cbn [mapM bind]. rewrite Htop. reflexivity.
Qed.

(** C4 on the code.  With three rows whose texts contain "paracetamol",
    view counts 100, 200 and 300 and channels A, B and A, a reachable Redis
    server and nothing cached, the first call of
    [get_top_products(limit=1, days=30)] returns what the example says:
    the product Paracetamol with 3 mentions, the channels A and B and an
    average of 200 views.  It stores [json.dumps(result, default=str)],
    and the same call made again is served from the cache: it returns the
    [str] of the product, a text, in place of the product. *)
Theorem top_product_asked_twice (db : Session.t) (c : Redis.client)
    (r : Redis.t) (t1 t2 t3 A B : string) :
  Session.connected db = true ->
  Session.top_products_rows db 30 = three_rows t1 t2 t3 A B ->
  (exists a b, t1 = a +:+ "paracetamol" +:+ b) ->
  (exists a b, t2 = a +:+ "paracetamol" +:+ b) ->
  (exists a b, t3 = a +:+ "paracetamol" +:+ b) ->
  Redis.reachable r = true ->
  miss (DataService.new db (Some c)) "top_products:1:30d" r = true ->
  exists names r1,
    let paracetamol :=
      {| TopProduct.product_name := "Paracetamol";
         TopProduct.mention_count := 3;
         TopProduct.channels := names;
         TopProduct.avg_views := Q2Qc 200 |} in
    NoDup names
    /\ (forall x, x ∈ names <-> x = A \/ x = B)
    /\ DataService.get_top_products (DataService.new db (Some c)) 1 30 r
       = (Return (VList [VModel (MProduct paracetamol)]), r1)
    /\ DataService.get_top_products (DataService.new db (Some c)) 1 30 r1
       = (Return (VList [VStr (StrOf (MProduct paracetamol))]), r1)
    /\ VList [VStr (StrOf (MProduct paracetamol))]
       <> VList [VModel (MProduct paracetamol)].
Proof.
  intros Hdb Hrows H1 H2 H3 Hup Hmiss.
  destruct (top_product_on_miss db t1 t2 t3 A B Hdb Hrows H1 H2 H3)
    as (names & Htop & Hnd & Hmem).
  exists names. eexists. cbv zeta.
  split; [exact Hnd |]. split; [exact Hmem |].
  split; [| split; [| discriminate]].
  - unfold DataService.get_top_products. cbv zeta.
    change ("top_products:" +:+ pretty 1%Z +:+ ":" +:+ pretty 30%Z +:+ "d")
      with "top_products:1:30d".
    rewrite miss_falls_through by exact Hmiss.
    unfold await, lift, ret. rewrite Htop.
    unfold DataService.set_cached, Redis.setex. simpl DataService.redis.
    rewrite Hup. reflexivity.
  - unfold DataService.get_top_products, await. cbv zeta.
    unfold DataService.get_cached, Redis.get. simpl DataService.redis.
    cbn [Redis.reachable Redis.entries Redis.clock].
    change ("top_products:" +:+ pretty 1%Z +:+ ":" +:+ pretty 30%Z +:+ "d")
      with "top_products:1:30d".
    rewrite lookup_insert_eq.
    cbn [Redis.expires_at Redis.content DataService.cache_ttl
         DataService.new].
    destruct (Z.leb_spec (Redis.clock r) (Redis.clock r + 300)); [| lia].
    reflexivity.
Qed.

Lemma top_product_asked_twice_sample :
  exists names r1,
    let paracetamol :=
      {| TopProduct.product_name := "Paracetamol";
         TopProduct.mention_count := 3;
         TopProduct.channels := names;
         TopProduct.avg_views := Q2Qc 200 |} in
    NoDup names
    /\ (forall x, x ∈ names <-> x = "A" \/ x = "B")
    /\ DataService.get_top_products
         (DataService.new sample.db (Some Redis.Client)) 1 30
         sample.empty_redis
       = (Return (VList [VModel (MProduct paracetamol)]), r1)
    /\ DataService.get_top_products
         (DataService.new sample.db (Some Redis.Client)) 1 30 r1
       = (Return (VList [VStr (StrOf (MProduct paracetamol))]), r1)
    /\ VList [VStr (StrOf (MProduct paracetamol))]
       <> VList [VModel (MProduct paracetamol)].
Proof.
  apply (top_product_asked_twice sample.db Redis.Client sample.empty_redis
           "paracetamol 500mg in stock" "new: paracetamol syrup"
           "panadol (paracetamol) for pain" "A" "B").
  - reflexivity.
  - reflexivity.
  - exists "", " 500mg in stock". reflexivity.
  - exists "new: ", " syrup". reflexivity.
  - exists "panadol (", ") for pain". reflexivity.
  - reflexivity.
  - reflexivity.
Defined.

(** ** A search that matches nothing *)

Section search.

Import DataService.

Lemma filter_none {X} (P : X -> Prop) `{forall x, Decision (P x)} (l : list X) :
  (forall x, x ∈ l -> ~ P x) -> filter P l = [].
Proof.
  induction l as [| x l IH]; intros Hl; [reflexivity |].
  rewrite filter_cons. destruct (decide (P x)) as [HP | _].
  - exfalso. apply (Hl x); [apply elem_of_cons; auto | exact HP].
  - apply IH. intros y Hy. apply Hl. apply elem_of_cons. auto.
Qed.

Lemma joined_message (self : t) msg channel dd :
  (msg, channel, dd) ∈ joined self -> msg ∈ Session.fct_messages (db self).
Proof.
  unfold joined. intros Hrow.
  apply list_elem_of_bind in Hrow as (m & Hrow & Hm).
  apply list_elem_of_bind in Hrow as (c & Hrow & _).
  apply list_elem_of_bind in Hrow as (d & Hrow & _).
  apply list_elem_of_singleton in Hrow. congruence.
Qed.

Lemma search_no_match (self : t) query channel_name start_date end_date
    has_images min_views limit :
  Session.connected (db self) = true ->
  (forall msg text,
     msg ∈ Session.fct_messages (db self) ->
     TelegramMessage.message_text msg = Some text ->
     Session.ilike (db self) text ("%" +:+ query +:+ "%") = false) ->
  (0 <= limit)%Z ->
  search self query channel_name start_date end_date has_images min_views limit
  = Return (VList []).
Proof.
  intros Hdb Hnone Hlimit. unfold search, Session.execute. rewrite Hdb.
  rewrite filter_none.
  - cbn [bind]. unfold order_by_desc, sql_limit. simpl.
    destruct (Z.ltb_spec limit 0); [lia |].
    rewrite take_nil. reflexivity.
  - intros [[msg channel] dd] Hrow Hfilter.
    apply joined_message in Hrow. unfold search_filter in Hfilter.
    destruct (TelegramMessage.message_text msg) as [text |] eqn:Htext;
      [| discriminate Hfilter].
    rewrite (Hnone msg text Hrow Htext) in Hfilter. discriminate Hfilter.
Qed.

Lemma search_messages_miss (self : t) query channel_name start_date end_date
    has_images min_views limit (r : Redis.t) :
  miss self
    ("search:" +:+ query +:+ ":" +:+ fmt_opt id channel_name
     +:+ ":" +:+ fmt_opt date.str start_date
     +:+ ":" +:+ fmt_opt date.str end_date
     +:+ ":" +:+ fmt_opt fmt_bool has_images
     +:+ ":" +:+ fmt_opt pretty min_views
     +:+ ":" +:+ pretty limit) r = true ->
  (search_messages self query channel_name start_date end_date has_images
     min_views limit r).1
  = search self query channel_name start_date end_date has_images min_views
      limit.
Proof.
  intros Hmiss. unfold search_messages. fall_through Hmiss.
Qed.

End search.

(** On a cache miss the route answers a query without a match the way
    the specification asks: an empty message list, [total_results = 0]
    and one page, for every choice of the optional filters. *)
Lemma search_without_match_on_miss (validation_error : value -> string)
    (db : Session.t) (redis_client : option Redis.client) (r : Redis.t)
    (query : string) (channel_name : option string)
    (start_date end_date : option date.t) (has_images : option bool)
    (min_views : option Z) (page limit : Z) :
  Session.connected db = true ->
  (forall msg text,
     msg ∈ Session.fct_messages db ->
     TelegramMessage.message_text msg = Some text ->
     Session.ilike db text ("%" +:+ query +:+ "%") = false) ->
  (1 <= limit)%Z ->
  miss (DataService.new db redis_client)
    ("search:" +:+ query +:+ ":" +:+ fmt_opt id channel_name
     +:+ ":" +:+ fmt_opt date.str start_date
     +:+ ":" +:+ fmt_opt date.str end_date
     +:+ ":" +:+ fmt_opt fmt_bool has_images
     +:+ ":" +:+ fmt_opt pretty min_views
     +:+ ":" +:+ pretty limit) r = true ->
  (messages.search_messages validation_error query channel_name start_date
     end_date has_images min_views page limit db redis_client r).1
  = Return {| SearchResponse.query := query;
              SearchResponse.total_results := 0;
              SearchResponse.messages := [];
              SearchResponse.page := page;
              SearchResponse.total_pages := 1 |}.
Proof.
  intros Hdb Hnone Hlimit Hmiss.
  pose proof (search_messages_miss (DataService.new db redis_client) query
                channel_name start_date end_date has_images min_views limit r
                Hmiss) as Hsearch.
  rewrite (search_no_match (DataService.new db redis_client)) in Hsearch
    by (assumption || lia).
  unfold messages.search_messages, guarded, await.
  destruct (DataService.search_messages _ _ _ _ _ _ _ _ r) as [out r'].
  simpl in Hsearch. subst out. unfold lift. cbn [fst].
  unfold messages.search_response, floordiv, len. simpl length.
  destruct (Z.eqb_spec limit 0) as [-> | _]; [lia |].
  cbn [bind mapM try_except].
  change (Z.of_nat 0) with 0%Z.
  rewrite (Z.div_small (0 + limit - 1) limit) by lia.
  reflexivity.
Qed.

(** ** Looking a channel up twice *)

(** C8 on the code.  With a reachable Redis server and no entry to serve
    under the channel's key, the first lookup of an existing channel
    returns the channel object and stores [json.dumps(result, default=str)],
    which is the JSON string of [str(result)]; the second lookup, served
    from the cache, returns that string.  The two results differ. *)
Theorem channel_lookup_twice (db : Session.t) (c : Redis.client)
    (channel_name : string) (r : Redis.t) (row : Channel.t)
    (found : ChannelResponse.t) :
  DataService.first_channel_named (DataService.new db (Some c)) channel_name
  = Return (Some row) ->
  DataService.channel_response row = Return found ->
  Redis.reachable r = true ->
  miss (DataService.new db (Some c)) ("channel:" +:+ channel_name) r = true ->
  exists r1,
    DataService.get_channel_by_name (DataService.new db (Some c))
      channel_name r
    = (Return (VModel (MChannel found)), r1)
    /\ DataService.get_channel_by_name (DataService.new db (Some c))
         channel_name r1
       = (Return (VStr (StrOf (MChannel found))), r1)
    /\ VModel (MChannel found) <> VStr (StrOf (MChannel found)).
Proof.
  intros Hrow Hfound Hup Hmiss.
  eexists. split; [| split; [| discriminate]].
  - unfold DataService.get_channel_by_name. cbv zeta.
    rewrite miss_falls_through by exact Hmiss.
    unfold DataService.lookup_channel, await, lift, ret.
    rewrite Hrow, Hfound.
    unfold DataService.set_cached, Redis.setex. simpl DataService.redis.
    rewrite Hup. reflexivity.
  - unfold DataService.get_channel_by_name, await. cbv zeta.
    unfold DataService.get_cached, Redis.get. simpl.
    rewrite lookup_insert_eq. simpl.
    destruct (Z.leb_spec (Redis.clock r) (Redis.clock r + 300)); [| lia].
    reflexivity.
Qed.

Lemma channel_lookup_twice_sample :
  exists r1,
    DataService.get_channel_by_name
      (DataService.new sample.db (Some Redis.Client)) "A" sample.empty_redis
    = (Return (VModel (MChannel (sample.response "A" 0))), r1)
    /\ DataService.get_channel_by_name
         (DataService.new sample.db (Some Redis.Client)) "A" r1
       = (Return (VStr (StrOf (MChannel (sample.response "A" 0)))), r1)
    /\ VModel (MChannel (sample.response "A" 0))
       <> VStr (StrOf (MChannel (sample.response "A" 0))).
Proof.
  apply (channel_lookup_twice sample.db Redis.Client "A" sample.empty_redis
           (sample.channel "A" 0)).
  - reflexivity.
  - reflexivity.
  - reflexivity.
  - reflexivity.
Defined.

(** ** Falsy values are never served from the cache *)

Lemma truthy_roundtrip (v : value) : truthy (loads (dumps v)) = truthy v.
Proof. destruct v as [| | | | | [| x l] | [| kv d] |]; reflexivity. Qed.

Section falsy.

Context (self : DataService.t).

(** A stored document that loads as a falsy value is a miss, whatever the
    state of the server. *)
Lemma falsy_entry_misses (key : string) (r : Redis.t) (e : Redis.entry)
    (j : json) :
  Redis.entries r !! key = Some e ->
  Redis.content e = Redis.Text j ->
  truthy (loads j) = false ->
  miss self key r = true.
Proof.
  intros Hkey Hj Hfalsy. unfold miss, DataService.get_cached, Redis.get.
  destruct (DataService.redis self); [| reflexivity].
  destruct (Redis.reachable r); [| reflexivity].
  rewrite Hkey. destruct (Redis.clock r <=? Redis.expires_at e)%Z;
    [| reflexivity].
  rewrite Hj. simpl. rewrite Hfalsy. reflexivity.
Qed.

(** The empty string read back from the server is answered with [None]. *)
Lemma empty_string_is_none (key : string) (r : Redis.t) (e : Redis.entry) :
  Redis.entries r !! key = Some e ->
  Redis.content e = Redis.Junk false ->
  DataService.get_cached self key r = (Return VNone, r).
Proof.
  intros Hkey Hj. unfold DataService.get_cached, Redis.get.
  destruct (DataService.redis self); [| reflexivity].
  destruct (Redis.reachable r); [| reflexivity].
  rewrite Hkey. destruct (Redis.clock r <=? Redis.expires_at e)%Z;
    [| reflexivity].
  rewrite Hj. reflexivity.
Qed.

(** Storing a falsy result leaves the key a miss. *)
Lemma falsy_result_stays_missed (key : string) (v : value) (r : Redis.t) :
  miss self key r = true ->
  truthy v = false ->
  miss self key (DataService.set_cached self key v r).2 = true.
Proof.
  intros Hmiss Hfalsy. unfold DataService.set_cached.
  destruct (DataService.redis self) as [c |] eqn:Hc; [| exact Hmiss].
  unfold Redis.setex. destruct (Redis.reachable r) eqn:Hup; [| exact Hmiss].
  simpl. unfold miss, DataService.get_cached, Redis.get. rewrite Hc. simpl.
  rewrite lookup_insert_eq. simpl.
  destruct (Redis.clock r <=? Redis.clock r + DataService.cache_ttl self)%Z;
    [| reflexivity].
  simpl. rewrite truthy_roundtrip, Hfalsy. reflexivity.
Qed.

Lemma get_all_channels_miss (r : Redis.t) :
  miss self "channels:all" r = true ->
  (DataService.get_all_channels self r).1 = DataService.all_channels self.
Proof.
  intros Hmiss. unfold DataService.get_all_channels. fall_through Hmiss.
Qed.

Lemma get_channel_by_name_miss (channel_name : string) (r : Redis.t) :
  miss self ("channel:" +:+ channel_name) r = true ->
  DataService.get_channel_by_name self channel_name r
  = DataService.lookup_channel self channel_name
      ("channel:" +:+ channel_name) r.
Proof.
  intros Hmiss. unfold DataService.get_channel_by_name. cbv zeta.
  apply miss_falls_through. exact Hmiss.
Qed.

Lemma get_channel_activity_miss (channel_name : string) (days : Z)
    (r : Redis.t) :
  miss self ("channel_activity:" +:+ channel_name +:+ ":" +:+ pretty days
             +:+ "d") r = true ->
  DataService.get_channel_activity self channel_name days r
  = DataService.activity_of_channel self channel_name days
      ("channel_activity:" +:+ channel_name +:+ ":" +:+ pretty days +:+ "d") r.
Proof.
  intros Hmiss. unfold DataService.get_channel_activity. cbv zeta.
  apply miss_falls_through. exact Hmiss.
Qed.

Lemma get_visual_content_stats_miss (r : Redis.t) :
  miss self "visual_content_stats" r = true ->
  (DataService.get_visual_content_stats self r).1
  = DataService.visual_content_stats self.
Proof.
  intros Hmiss. unfold DataService.get_visual_content_stats. fall_through Hmiss.
Qed.

Lemma get_engagement_metrics_miss (days : Z) (r : Redis.t) :
  miss self ("engagement_metrics:" +:+ pretty days +:+ "d") r = true ->
  (DataService.get_engagement_metrics self days r).1
  = DataService.engagement_metrics self days.
Proof.
  intros Hmiss. unfold DataService.get_engagement_metrics. fall_through Hmiss.
Qed.

End falsy.

Lemma empty_channel_list_stays_missed (self : DataService.t) (r : Redis.t) :
  miss self "channels:all" r = true ->
  DataService.all_channels self = Return (VList []) ->
  miss self "channels:all" (DataService.get_all_channels self r).2 = true.
Proof.
  intros Hmiss Hempty. unfold DataService.get_all_channels. cbv zeta.
  rewrite miss_falls_through by exact Hmiss.
  unfold await, lift, ret. rewrite Hempty.
  pose proof (falsy_result_stays_missed self "channels:all" (VList []) r
                Hmiss eq_refl) as Hnext.
  destruct (set_cached_total self "channels:all" (VList []) r)
    as (b & r' & Hset).
  rewrite Hset in Hnext |- *. exact Hnext.
Qed.

(** C9.  Every read method of the service tests the cached value for
    truth.  A key whose stored text loads as a falsy value -- the empty
    list in particular -- is a miss; the empty string read back from the
    server is answered with [None]; on a miss each of the seven methods
    runs its lookup in the warehouse; and a falsy result, once stored,
    leaves the key a miss, so that an empty channel list is computed anew
    on the next call too. *)
Theorem falsy_values_are_recomputed (self : DataService.t) (r : Redis.t) :
  (forall key e j,
     Redis.entries r !! key = Some e ->
     Redis.content e = Redis.Text j ->
     truthy (loads j) = false ->
     miss self key r = true)
  /\ (forall key e,
        Redis.entries r !! key = Some e ->
        Redis.content e = Redis.Text (JArr []) ->
        miss self key r = true)
  /\ (forall key e,
        Redis.entries r !! key = Some e ->
        Redis.content e = Redis.Junk false ->
        DataService.get_cached self key r = (Return VNone, r))
  /\ (miss self "channels:all" r = true ->
      (DataService.get_all_channels self r).1 = DataService.all_channels self)
  /\ (forall channel_name,
        miss self ("channel:" +:+ channel_name) r = true ->
        DataService.get_channel_by_name self channel_name r
        = DataService.lookup_channel self channel_name
            ("channel:" +:+ channel_name) r)
  /\ (forall channel_name days,
        miss self ("channel_activity:" +:+ channel_name +:+ ":"
                   +:+ pretty days +:+ "d") r = true ->
        DataService.get_channel_activity self channel_name days r
        = DataService.activity_of_channel self channel_name days
            ("channel_activity:" +:+ channel_name +:+ ":" +:+ pretty days
             +:+ "d") r)
  /\ (forall query channel_name start_date end_date has_images min_views limit,
        miss self
          ("search:" +:+ query +:+ ":" +:+ fmt_opt id channel_name
           +:+ ":" +:+ fmt_opt date.str start_date
           +:+ ":" +:+ fmt_opt date.str end_date
           +:+ ":" +:+ fmt_opt fmt_bool has_images
           +:+ ":" +:+ fmt_opt pretty min_views
           +:+ ":" +:+ pretty limit) r = true ->
        (DataService.search_messages self query channel_name start_date
           end_date has_images min_views limit r).1
        = DataService.search self query channel_name start_date end_date
            has_images min_views limit)
  /\ (forall limit days,
        miss self ("top_products:" +:+ pretty limit +:+ ":" +:+ pretty days
                   +:+ "d") r = true ->
        (DataService.get_top_products self limit days r).1
        = DataService.top_products self limit days)
  /\ (miss self "visual_content_stats" r = true ->
      (DataService.get_visual_content_stats self r).1
      = DataService.visual_content_stats self)
  /\ (forall days,
        miss self ("engagement_metrics:" +:+ pretty days +:+ "d") r = true ->
        (DataService.get_engagement_metrics self days r).1
        = DataService.engagement_metrics self days)
  /\ (forall key v,
        miss self key r = true ->
        truthy v = false ->
        miss self key (DataService.set_cached self key v r).2 = true)
  /\ (miss self "channels:all" r = true ->
      DataService.all_channels self = Return (VList []) ->
      miss self "channels:all" (DataService.get_all_channels self r).2 = true).
Proof.
  split; [intros key e j; apply falsy_entry_misses |].
  split; [intros key e Hkey He;
          apply (falsy_entry_misses self key r e (JArr []) Hkey He eq_refl) |].
  split; [intros key e; apply empty_string_is_none |].
  split; [apply get_all_channels_miss |].
  split; [intros; apply get_channel_by_name_miss; assumption |].
  split; [intros; apply get_channel_activity_miss; assumption |].
  split; [intros; apply search_messages_miss; assumption |].
  split; [intros; apply get_top_products_miss; assumption |].
  split; [apply get_visual_content_stats_miss |].
  split; [intros; apply get_engagement_metrics_miss; assumption |].
  split; [intros key v; apply falsy_result_stays_missed |].
  apply empty_channel_list_stays_missed.
Qed.

Lemma stored_empty_list_is_recomputed :
  (DataService.get_all_channels (DataService.new sample.db (Some Redis.Client))
     sample.redis_with_empty_list).1
  = DataService.all_channels (DataService.new sample.db (Some Redis.Client)).
Proof.
  destruct (falsy_values_are_recomputed
              (DataService.new sample.db (Some Redis.Client))
              sample.redis_with_empty_list)
    as (_ & Hempty & _ & Hall & _).
  apply Hall.
  apply (Hempty "channels:all"
           {| Redis.expires_at := 300;
              Redis.content := Redis.Text (JArr []) |}).
  - vm_compute. reflexivity.
  - reflexivity.
Defined.

(** ** A minimum of zero *)

(** C10.  A minimum of 0 filters nothing.  In the search, [min_views=0]
    adds no constraint on the view count: the filter accepts the same
    rows as with the minimum unset, the query returns the same result, and
    so does the method when neither cache key has something to serve (the
    two keys differ).  In the channel listing, [min_posts=0] gives the
    response of the listing with the minimum unset. *)
Theorem zero_minimum_is_no_filter (db : Session.t)
    (redis_client : option Redis.client) (r : Redis.t) (query : string)
    (channel_name : option string) (start_date end_date : option date.t)
    (has_images : option bool) (limit : Z)
    (channel_type : option string) (active_only : bool) :
  let self := DataService.new db redis_client in
  (forall row,
     DataService.search_filter self query channel_name start_date end_date
       has_images (Some 0%Z) row
     = DataService.search_filter self query channel_name start_date end_date
         has_images None row)
  /\ DataService.search self query channel_name start_date end_date
       has_images (Some 0%Z) limit
     = DataService.search self query channel_name start_date end_date
         has_images None limit
  /\ (miss self
        ("search:" +:+ query +:+ ":" +:+ fmt_opt id channel_name
         +:+ ":" +:+ fmt_opt date.str start_date
         +:+ ":" +:+ fmt_opt date.str end_date
         +:+ ":" +:+ fmt_opt fmt_bool has_images
         +:+ ":" +:+ "0" +:+ ":" +:+ pretty limit) r = true ->
      miss self
        ("search:" +:+ query +:+ ":" +:+ fmt_opt id channel_name
         +:+ ":" +:+ fmt_opt date.str start_date
         +:+ ":" +:+ fmt_opt date.str end_date
         +:+ ":" +:+ fmt_opt fmt_bool has_images
         +:+ ":" +:+ "None" +:+ ":" +:+ pretty limit) r = true ->
      (DataService.search_messages self query channel_name start_date
         end_date has_images (Some 0%Z) limit r).1
      = (DataService.search_messages self query channel_name start_date
           end_date has_images None limit r).1)
  /\ channels.get_all_channels channel_type (Some 0%Z) active_only db
       redis_client r
     = channels.get_all_channels channel_type None active_only db
         redis_client r.
Proof.
  intros self.
  assert (forall row,
            DataService.search_filter self query channel_name start_date
              end_date has_images (Some 0%Z) row
            = DataService.search_filter self query channel_name start_date
                end_date has_images None row) as Hfilter.
  { intros [[msg channel] dd]. reflexivity. }
  split; [exact Hfilter |].
  split; [reflexivity |].
  split; [| reflexivity].
  intros Hzero Hnone.
  rewrite (search_messages_miss self query channel_name start_date end_date
             has_images (Some 0%Z) limit r Hzero).
  rewrite (search_messages_miss self query channel_name start_date end_date
             has_images None limit r Hnone).
  reflexivity.
Qed.

Lemma zero_minimum_sample :
  (DataService.search_messages (DataService.new sample.db None) "paracetamol"
     None None None None (Some 0%Z) 20 sample.empty_redis).1
  = (DataService.search_messages (DataService.new sample.db None) "paracetamol"
       None None None None None 20 sample.empty_redis).1.
Proof.
  apply (proj1 (proj2 (proj2 (zero_minimum_is_no_filter sample.db None
                                sample.empty_redis "paracetamol" None None
                                None None 20 None false)))).
  - reflexivity.
  - reflexivity.
Defined.

(** * Further properties of the code *)

(** ** The round trip through the cache *)

Lemma value_nested_ind (P : value -> Prop) :
  P VNone ->
  (forall b, P (VBool b)) ->
  (forall z, P (VInt z)) ->
  (forall q, P (VFloat q)) ->
  (forall s, P (VStr s)) ->
  (forall l, Forall P l -> P (VList l)) ->
  (forall d, Forall (fun kv => P kv.2) d -> P (VDict d)) ->
  (forall m, P (VModel m)) ->
  forall v, P v.
Proof.
  intros HNone HBool HInt HFloat HStr HList HDict HModel.
  fix IH 1.
  intros [| b | z | q | s | l | d | m];
    [exact HNone | apply HBool | apply HInt | apply HFloat | apply HStr
    | | | apply HModel].
  - apply HList. induction l as [| x l IHl]; constructor; [apply IH | exact IHl].
  - apply HDict. induction d as [| [k x] d IHd]; constructor;
      [apply IH | exact IHd].
Qed.

Lemma json_nested_ind (P : json -> Prop) :
  P JNull ->
  (forall b, P (JBool b)) ->
  (forall z, P (JInt z)) ->
  (forall q, P (JFloat q)) ->
  (forall s, P (JStr s)) ->
  (forall l, Forall P l -> P (JArr l)) ->
  (forall d, Forall (fun kv => P kv.2) d -> P (JObj d)) ->
  forall j, P j.
Proof.
  intros HNull HBool HInt HFloat HStr HArr HObj.
  fix IH 1.
  intros [| b | z | q | s | l | d];
    [exact HNull | apply HBool | apply HInt | apply HFloat | apply HStr | |].
  - apply HArr. induction l as [| x l IHl]; constructor; [apply IH | exact IHl].
  - apply HObj. induction d as [| [k x] d IHd]; constructor;
      [apply IH | exact IHd].
Qed.

(** What [json.loads] yields holds no pydantic object. *)
Lemma loads_json_shaped (j : json) : json_shaped (loads j) = true.
Proof.
  induction j as [| b | z | q | s | l IH | d IH] using json_nested_ind;
    try reflexivity; simpl.
  - induction IH as [| x l Hx _ IHl]; simpl; [reflexivity |].
    rewrite Hx, IHl. reflexivity.
  - induction IH as [| [k x] d Hx _ IHd]; simpl; [reflexivity |].
    simpl in Hx. rewrite Hx, IHd. reflexivity.
Qed.

(** A value without pydantic objects comes back as it went in. *)
Lemma loads_dumps_json_shaped (v : value) :
  json_shaped v = true -> loads (dumps v) = v.
Proof.
  induction v as [| b | z | q | s | l IH | d IH | m] using value_nested_ind;
    intros Hv; try reflexivity; simpl in *; [| | discriminate Hv].
  - f_equal. induction IH as [| x l Hx _ IHl]; simpl in *; [reflexivity |].
    apply andb_true_iff in Hv as [Hx' Hl]. rewrite (Hx Hx'), (IHl Hl).
    reflexivity.
  - f_equal. induction IH as [| [k x] d Hx _ IHd]; simpl in *; [reflexivity |].
    apply andb_true_iff in Hv as [Hx' Hd]. rewrite (Hx Hx'), (IHd Hd).
    reflexivity.
Qed.

Lemma set_then_get (self : DataService.t) (c : Redis.client) (key : string)
    (v : value) (r : Redis.t) (elapsed : Z) :
  DataService.redis self = Some c ->
  Redis.reachable r = true ->
  DataService.get_cached self key
    (later elapsed (DataService.set_cached self key v r).2)
  = (Return (if (elapsed <=? DataService.cache_ttl self)%Z
             then loads (dumps v) else VNone),
     later elapsed (DataService.set_cached self key v r).2).
Proof.
  intros Hc Hup.
  unfold DataService.set_cached, Redis.setex. rewrite Hc, Hup.
  unfold DataService.get_cached, Redis.get, later. rewrite Hc. simpl.
  rewrite lookup_insert_eq. simpl.
  destruct (Z.leb_spec elapsed (DataService.cache_ttl self)) as [Hle | Hgt].
  - destruct (Z.leb_spec (Redis.clock r + elapsed)
                (Redis.clock r + DataService.cache_ttl self)); [| lia].
    reflexivity.
  - destruct (Z.leb_spec (Redis.clock r + elapsed)
                (Redis.clock r + DataService.cache_ttl self)); [lia |].
    reflexivity.
Qed.

(** X1.  With a client and a reachable server, a value stored by
    [set_cached] is read back by [get_cached] for the next 300 seconds as
    [json.loads(json.dumps(value, default=str))]: unchanged when it holds
    no pydantic object, and with every pydantic object replaced by its
    [str] otherwise. *)
Theorem cache_round_trip (db : Session.t) (c : Redis.client) (key : string)
    (v : value) (r : Redis.t) (elapsed : Z) :
  Redis.reachable r = true ->
  (elapsed < 300)%Z ->
  let self := DataService.new db (Some c) in
  let stored := later elapsed (DataService.set_cached self key v r).2 in
  DataService.get_cached self key stored = (Return (loads (dumps v)), stored)
  /\ (json_shaped v = true ->
      DataService.get_cached self key stored = (Return v, stored))
  /\ json_shaped (loads (dumps v)) = true.
Proof.
  intros Hup Hlt self stored.
  assert (DataService.get_cached self key stored
          = (Return (loads (dumps v)), stored)) as Hget.
  { unfold stored. rewrite (set_then_get self c key v r elapsed eq_refl Hup).
    simpl DataService.cache_ttl.
    destruct (Z.leb_spec elapsed 300); [reflexivity | lia]. }
  split; [exact Hget |]. split; [| apply loads_json_shaped].
  intros Hshape. rewrite Hget, (loads_dumps_json_shaped v Hshape). reflexivity.
Qed.

Lemma cache_round_trip_sample :
  DataService.get_cached (DataService.new sample.db (Some Redis.Client)) "k"
    (later 299
       (DataService.set_cached (DataService.new sample.db (Some Redis.Client))
          "k" (VList [VInt 1; VStr (Lit "a")]) sample.empty_redis).2)
  = (Return (VList [VInt 1; VStr (Lit "a")]),
     later 299
       (DataService.set_cached (DataService.new sample.db (Some Redis.Client))
          "k" (VList [VInt 1; VStr (Lit "a")]) sample.empty_redis).2).
Proof.
  apply (proj1 (proj2 (cache_round_trip sample.db Redis.Client "k"
                         (VList [VInt 1; VStr (Lit "a")]) sample.empty_redis
                         299 eq_refl ltac:(lia)))).
  reflexivity.
Defined.

(** X2.  An entry stored by [set_cached] is gone once more than 300
    seconds have passed: [get_cached] then answers [None].  At 300 seconds
    exactly the server still serves it. *)
Theorem cache_entry_expires (db : Session.t) (c : Redis.client) (key : string)
    (v : value) (r : Redis.t) (elapsed : Z) :
  Redis.reachable r = true ->
  (300 < elapsed)%Z ->
  let self := DataService.new db (Some c) in
  let stored := later elapsed (DataService.set_cached self key v r).2 in
  DataService.get_cached self key stored = (Return VNone, stored)
  /\ DataService.get_cached self key
       (later 300 (DataService.set_cached self key v r).2)
     = (Return (loads (dumps v)),
        later 300 (DataService.set_cached self key v r).2).
Proof.
  intros Hup Hgt self stored. unfold stored.
  rewrite !(set_then_get self c key v r _ eq_refl Hup).
  simpl DataService.cache_ttl.
  destruct (Z.leb_spec elapsed 300); [lia |].
  split; reflexivity.
Qed.

Lemma cache_entry_expires_sample :
  DataService.get_cached (DataService.new sample.db (Some Redis.Client)) "k"
    (later 301
       (DataService.set_cached (DataService.new sample.db (Some Redis.Client))
          "k" (VInt 7) sample.empty_redis).2)
  = (Return VNone,
     later 301
       (DataService.set_cached (DataService.new sample.db (Some Redis.Client))
          "k" (VInt 7) sample.empty_redis).2)
  /\ DataService.get_cached (DataService.new sample.db (Some Redis.Client))
       "k"
       (later 300
          (DataService.set_cached
             (DataService.new sample.db (Some Redis.Client)) "k" (VInt 7)
             sample.empty_redis).2)
     = (Return (loads (dumps (VInt 7))),
        later 300
          (DataService.set_cached
             (DataService.new sample.db (Some Redis.Client)) "k" (VInt 7)
             sample.empty_redis).2).
Proof.
  apply (cache_entry_expires sample.db Redis.Client "k" (VInt 7)
           sample.empty_redis 301); [reflexivity | lia].
Defined.

(** X3.  Storing under one key changes nothing of what [get_cached]
    reads under another key. *)
Theorem set_cached_other_key (self : DataService.t) (key other : string)
    (v : value) (r : Redis.t) :
  key <> other ->
  (DataService.get_cached self other (DataService.set_cached self key v r).2).1
  = (DataService.get_cached self other r).1.
Proof.
  intros Hne. unfold DataService.set_cached, Redis.setex.
  destruct (DataService.redis self) as [c |] eqn:Hc; [| reflexivity].
  destruct (Redis.reachable r) eqn:Hup; [| reflexivity].
  simpl. unfold DataService.get_cached, Redis.get. rewrite Hc. simpl.
  rewrite Hup, (lookup_insert_ne _ _ _ _ Hne).
  destruct (Redis.entries r !! other) as [e |]; [| reflexivity].
  destruct (Redis.clock r <=? Redis.expires_at e)%Z; [| reflexivity].
  destruct (Redis.truthy_data (Redis.content e)); [| reflexivity].
  destruct (Redis.json_loads (Redis.content e)); reflexivity.
Qed.

Lemma set_cached_other_key_sample :
  (DataService.get_cached (DataService.new sample.db (Some Redis.Client))
     "channels:all"
     (DataService.set_cached (DataService.new sample.db (Some Redis.Client))
        "k" (VInt 7) sample.redis_with_empty_list).2).1
  = (DataService.get_cached (DataService.new sample.db (Some Redis.Client))
       "channels:all" sample.redis_with_empty_list).1.
Proof. apply set_cached_other_key. discriminate. Defined.

(** ** The scan over all rows *)

Section scan_rows.

Import DataService.

Implicit Types (st : tally) (rows : list product_row).

Lemma scan_rows_cons st text channel_name view_count rows :
  scan_rows st ((Some text, channel_name, view_count) :: rows)
  = scan_rows (scan_products product_keywords (lower text) channel_name
                 (or_zero view_count) st) rows.
Proof. reflexivity. Qed.

Lemma scan_rows_null_text st channel_name view_count rows :
  scan_rows st ((None, channel_name, view_count) :: rows)
  = Raise (Error "AttributeError"
             "'NoneType' object has no attribute 'lower'").
Proof. reflexivity. Qed.

(** The scan returns exactly when no text is [NULL]. *)
Lemma scan_rows_returns st rows :
  Forall (fun row : product_row => row.1.1 <> None) rows ->
  exists st', scan_rows st rows = Return st'.
Proof.
  intros Hrows. revert st.
  induction Hrows as [| [[text channel_name] view_count] rows Hrow _ IH];
    intros st; [eexists; reflexivity |].
  destruct text as [text |]; [| contradiction].
  rewrite scan_rows_cons. apply IH.
Qed.

Lemma scan_rows_raises st rows :
  Exists (fun row : product_row => row.1.1 = None) rows ->
  scan_rows st rows
  = Raise (Error "AttributeError"
             "'NoneType' object has no attribute 'lower'").
Proof.
  intros Hrows. revert st.
  induction rows as [| [[text channel_name] view_count] rows IH]; intros st.
  - inversion Hrows.
  - destruct text as [text |]; [| reflexivity].
    rewrite scan_rows_cons. apply IH.
    apply Exists_cons in Hrows as [Hrow | Hrows]; [discriminate | exact Hrows].
Qed.

(** The three dictionaries after the scan, product by product. *)
Lemma scan_rows_entries st rows st' product :
  scan_rows st rows = Return st' ->
  dict.get (product_counts st') product 0%Z
  = (dict.get (product_counts st) product 0 + len (mentions_of product rows))%Z
  /\ dict.get (product_views st') product []
     = dict.get (product_views st) product []
       ++ ((fun row : product_row => or_zero row.2)
           <$> mentions_of product rows)
  /\ dict.get (product_channels st') product ∅
     = dict.get (product_channels st) product ∅
       ∪ list_to_set ((fun row : product_row => row.1.2)
                      <$> mentions_of product rows).
Proof.
  revert st.
  induction rows as [| [[text channel_name] view_count] rows IH]; intros st.
  - intros [= <-]. simpl. unfold len. simpl.
    rewrite Z.add_0_r, app_nil_r, (right_id_L ∅ (∪)). auto.
  - destruct text as [text |]; [| discriminate].
    rewrite scan_rows_cons. intros Hscan.
    destruct (IH _ Hscan) as (Hcount & Hviews & Hchannels).
    rewrite Hcount, Hviews, Hchannels.
    rewrite (scan_products_count _ _ _ _ _ _ product_keywords_NoDup).
    rewrite (scan_products_views _ _ _ _ _ _ product_keywords_NoDup).
    rewrite (scan_products_channels _ _ _ _ _ _ product_keywords_NoDup).
    fold (mentioned product (lower text)).
    cbn [mentions_of].
    change (mentioning product (Some text, channel_name, view_count))
      with (mentioned product (lower text)).
    destruct (mentioned product (lower text)); simpl.
    + unfold len. simpl length. rewrite <- (assoc_L (++)), <- (assoc_L (∪)).
      split; [lia |]. split; reflexivity.
    + rewrite Z.add_0_r, app_nil_r, (right_id_L ∅ (∪)). auto.
Qed.

Lemma scan_rows_views_key st rows st' product :
  scan_rows st rows = Return st' ->
  is_Some (dict.find (product_views st) product)
  \/ mentions_of product rows <> [] ->
  is_Some (dict.find (product_views st') product).
Proof.
  revert st.
  induction rows as [| [[text channel_name] view_count] rows IH]; intros st.
  - intros [= <-] [Hkey | Hne]; [exact Hkey | contradiction].
  - destruct text as [text |]; [| discriminate].
    rewrite scan_rows_cons. intros Hscan Hkey. apply (IH _ Hscan).
    rewrite (scan_products_views_find _ _ _ _ _ _ product_keywords_NoDup).
    fold (mentioned product (lower text)).
    cbn [mentions_of] in Hkey.
    change (mentioning product (Some text, channel_name, view_count))
      with (mentioned product (lower text)) in Hkey.
    destruct (mentioned product (lower text)); [left; eauto | exact Hkey].
Qed.

Lemma scan_rows_views_find st rows st' product :
  scan_rows st rows = Return st' ->
  mentions_of product rows <> [] ->
  dict.find (product_views st') product
  = Some (dict.get (product_views st') product []).
Proof.
  intros Hscan Hne.
  destruct (scan_rows_views_key st rows st' product Hscan (or_intror Hne))
    as [l Hl].
  rewrite get_find, Hl. reflexivity.
Qed.

End scan_rows.

(** ** Invariants of the mention counts *)

Section mapM_facts.

Context {A B : Type} (f : A -> except B).

Lemma mapM_Forall2 (l : list A) (l' : list B) :
  mapM f l = Return l' -> Forall2 (fun a b => f a = Return b) l l'.
Proof.
  revert l'. induction l as [| a l IH]; intros l'; simpl.
  - intros [= <-]. constructor.
  - destruct (f a) as [b |] eqn:Hb; simpl; [| discriminate].
    destruct (mapM f l) as [bs |]; simpl; [| discriminate].
    intros [= <-]. constructor; [exact Hb | apply IH; reflexivity].
Qed.

Lemma mapM_returns (l : list A) :
  Forall (fun a => exists b, f a = Return b) l ->
  exists l', mapM f l = Return l'.
Proof.
  induction 1 as [| a l [b Hb] _ [bs IH]]; simpl; [eauto |].
  rewrite Hb, IH. simpl. eauto.
Qed.

Lemma mapM_length (l : list A) (l' : list B) :
  mapM f l = Return l' -> length l' = length l.
Proof.
  intros H. apply mapM_Forall2 in H. symmetry.
  eapply Forall2_length. exact H.
Qed.

End mapM_facts.

Lemma required_inv {A} (field : string) (l : list (option A)) (l' : list A) :
  mapM (required field) l = Return l' -> l = Some <$> l'.
Proof.
  intros H. apply mapM_Forall2 in H.
  induction H as [| [a |] b l l' Hab _ IH]; csimpl;
    [reflexivity | | discriminate].
  injection Hab as <-. rewrite IH. reflexivity.
Qed.

Section counts.

Import DataService.

Implicit Types (st : tally) (d : dict.t Z).

Lemma set_Forall {V} (P : string * V -> Prop) (d : dict.t V) k v :
  Forall P d -> P (k, v) -> Forall P (dict.set d k v).
Proof.
  intros Hd Hkv. induction Hd as [| [k' v'] d Hk' Hd IH]; simpl.
  - constructor; [exact Hkv | constructor].
  - destruct (String.eqb_spec k' k) as [-> | _]; constructor; auto.
Qed.

Lemma count_nonnegative d k :
  Forall (fun kv => 1 <= kv.2)%Z d -> (0 <= dict.get d k 0)%Z.
Proof.
  induction 1 as [| [k' v'] d Hv _ IH]; simpl; [lia |].
  destruct (String.eqb k' k); simpl in *; lia.
Qed.

Lemma mention_counted (K : list string) product channel_name views st :
  product ∈ K ->
  Forall (fun kv => 1 <= kv.2 /\ kv.1 ∈ K)%Z (product_counts st) ->
  Forall (fun kv => 1 <= kv.2 /\ kv.1 ∈ K)%Z
    (product_counts (mention product channel_name views st)).
Proof.
  intros Hp Hst. simpl. apply set_Forall; [exact Hst |]. simpl.
  split; [| exact Hp].
  assert (0 <= dict.get (product_counts st) product 0)%Z; [| lia].
  apply count_nonnegative. eapply Forall_impl; [exact Hst |].
  intros kv [H _]. exact H.
Qed.

Lemma scan_products_counted (K : list string) table message_text channel_name
    views st :
  table.*1 ⊆ K ->
  Forall (fun kv => 1 <= kv.2 /\ kv.1 ∈ K)%Z (product_counts st) ->
  Forall (fun kv => 1 <= kv.2 /\ kv.1 ∈ K)%Z
    (product_counts (scan_products table message_text channel_name views st)).
Proof.
  revert st. induction table as [| [p keywords] table IH]; intros st HK Hst.
  - exact Hst.
  - rewrite scan_products_cons. apply IH.
    + intros x Hx. apply HK. csimpl. apply elem_of_cons. auto.
    + rewrite scan_keywords_first_match.
      destruct (existsb _ keywords); [| exact Hst].
      apply mention_counted; [| exact Hst].
      apply HK. csimpl. apply elem_of_cons. auto.
Qed.

(** After the scan the counts have one entry per product of the table
    that some row mentions, each at least 1. *)
Lemma scan_rows_counted st rows st' :
  scan_rows st rows = Return st' ->
  NoDup (product_counts st).*1 ->
  Forall (fun kv => 1 <= kv.2 /\ kv.1 ∈ product_keywords.*1)%Z
    (product_counts st) ->
  NoDup (product_counts st').*1
  /\ Forall (fun kv => 1 <= kv.2 /\ kv.1 ∈ product_keywords.*1)%Z
       (product_counts st').
Proof.
  revert st.
  induction rows as [| [[text channel_name] view_count] rows IH]; intros st.
  - intros [= <-]. auto.
  - destruct text as [text |]; [| discriminate].
    rewrite scan_rows_cons. intros Hscan Hnd Hst.
    apply (IH _ Hscan).
    + apply scan_products_NoDup. exact Hnd.
    + apply scan_products_counted; [reflexivity | exact Hst].
Qed.

(** An entry of the counts is the number of rows that mention its
    product. *)
Lemma scan_rows_entry rows st' product count :
  scan_rows no_mentions rows = Return st' ->
  (product, count) ∈ product_counts st' ->
  count = len (mentions_of product rows)
  /\ (1 <= count)%Z
  /\ product ∈ product_keywords.*1.
Proof.
  intros Hscan Hin.
  destruct (scan_rows_counted _ _ _ Hscan NoDup_nil_2 (Forall_nil_2 _))
    as [Hnd Hall].
  rewrite Forall_forall in Hall. destruct (Hall _ Hin) as [Hone Hkey].
  destruct (scan_rows_entries _ _ _ product Hscan) as (Hcount & _).
  rewrite (get_entry _ _ _ 0%Z Hnd Hin) in Hcount. simpl in *.
  repeat split; [lia | exact Hone | exact Hkey].
Qed.

(** Conversely, a mentioned product has an entry. *)
Lemma scan_rows_mentioned rows st' product :
  scan_rows no_mentions rows = Return st' ->
  mentions_of product rows <> [] ->
  product ∈ (product_counts st').*1.
Proof.
  intros Hscan Hne.
  destruct (scan_rows_entries _ _ _ product Hscan) as (Hcount & _).
  destruct (decide (product ∈ (product_counts st').*1)) as [Hin | Hout];
    [exact Hin | exfalso].
  rewrite (get_absent _ _ 0%Z Hout) in Hcount. simpl in Hcount.
  destruct (mentions_of product rows); [contradiction |].
  unfold len in Hcount. simpl in Hcount. lia.
Qed.

Lemma product_counts_short rows st' :
  scan_rows no_mentions rows = Return st' ->
  (length (product_counts st') <= 10)%nat.
Proof.
  intros Hscan.
  destruct (scan_rows_counted _ _ _ Hscan NoDup_nil_2 (Forall_nil_2 _))
    as [Hnd Hall].
  rewrite <- (length_fmap fst).
  change 10%nat with (length product_keywords.*1).
  apply submseteq_length, NoDup_submseteq; [exact Hnd |].
  intros k Hk. apply list_elem_of_fmap in Hk as ([k' c] & -> & Hin).
  rewrite Forall_forall in Hall. apply (Hall _ Hin).
Qed.

End counts.

(** ** What the top-products report returns *)

Section sorted.

Context {A : Type} (key : A -> Z).

Lemma insert_desc_sorted (x : A) (l : list A) :
  StronglySorted (fun a b => key b <= key a)%Z l ->
  StronglySorted (fun a b => key b <= key a)%Z (insert_desc key x l).
Proof.
  induction 1 as [| y l Hl IH Hy]; simpl.
  - repeat constructor.
  - destruct (Z.ltb_spec (key x) (key y)) as [Hlt | Hge].
    + constructor; [exact IH |].
      rewrite (insert_desc_permutation key x l).
      constructor; [lia | exact Hy].
    + constructor; [constructor; assumption |].
      constructor; [exact Hge |].
      eapply Forall_impl; [exact Hy |]. simpl. intros z Hz. lia.
Qed.

Lemma sorted_desc_sorted (l : list A) :
  StronglySorted (fun a b => key b <= key a)%Z (sorted_desc key l).
Proof.
  induction l as [| x l IH]; simpl; [constructor |].
  apply insert_desc_sorted, IH.
Qed.

Lemma slice_to_take (n : Z) (l : list A) : exists m, slice_to n l = take m l.
Proof. unfold slice_to. destruct (0 <=? n)%Z; eauto. Qed.

Lemma take_sorted (R : relation A) (m : nat) (l : list A) :
  StronglySorted R l -> StronglySorted R (take m l).
Proof.
  intros Hl. rewrite <- (take_drop m l) in Hl.
  apply StronglySorted_app in Hl. tauto.
Qed.

End sorted.

Section report.

Import DataService.

Implicit Types (st : tally) (rows : list product_row).

Lemma mentions_of_elem product rows row :
  row ∈ mentions_of product rows ->
  row ∈ rows /\ mentioning product row = true.
Proof.
  induction rows as [| r rows IH]; simpl; [intros H; inversion H |].
  destruct (mentioning product r) eqn:Hr.
  - intros [-> | Hin]%elem_of_cons.
    + split; [apply elem_of_cons; auto | exact Hr].
    + destruct (IH Hin). split; [apply elem_of_cons; auto | assumption].
  - intros Hin. destruct (IH Hin).
    split; [apply elem_of_cons; auto | assumption].
Qed.

(** [TopProduct(...)] of an entry, read backwards. *)
Lemma top_product_inv st product count tp :
  top_product st (product, count) = Return tp ->
  TopProduct.product_name tp = product
  /\ TopProduct.mention_count tp = count
  /\ TopProduct.avg_views tp
     = (float_of_int (sum (dict.get (product_views st) product [0%Z]))
        / float_of_int
            (max_int (len (dict.get (product_views st) product [1%Z])) 1))%Qc
  /\ slice_to 5 (elements (dict.get (product_channels st) product ∅))
     = Some <$> TopProduct.channels tp.
Proof.
  unfold top_product. rewrite posts_ratio_defined. cbn [bind].
  destruct (mapM _ _) as [channels |] eqn:Hchannels; [| discriminate].
  cbn [bind]. intros [= <-]. simpl.
  repeat split. apply (required_inv _ _ _ Hchannels).
Qed.

Lemma top_product_returns st product count :
  Forall is_Some (elements (dict.get (product_channels st) product ∅)) ->
  exists tp, top_product st (product, count) = Return tp.
Proof.
  intros Hnames. unfold top_product. rewrite posts_ratio_defined. cbn [bind].
  destruct (mapM_returns (required "channels")
              (slice_to 5 (elements (dict.get (product_channels st) product ∅))))
    as [channels ->]; [| cbn [bind]; eauto].
  destruct (slice_to_take 5 (elements (dict.get (product_channels st) product ∅)))
    as [m ->].
  apply Forall_take. eapply Forall_impl; [exact Hnames |].
  intros x [a ->]. eauto.
Qed.

End report.

Section report_theorems.

Import DataService.

Implicit Types (st : tally) (rows : list product_row).

Lemma Forall2_keys {A B} (R : A -> B -> Prop) (key : A -> Z) (key' : B -> Z)
    (l : list A) (l' : list B) :
  Forall2 R l l' ->
  (forall a b, R a b -> key' b = key a) ->
  StronglySorted (fun a b => key b <= key a)%Z l ->
  StronglySorted (fun a b => key' b <= key' a)%Z l'.
Proof.
  intros HR Hkey. induction HR as [| a b l l' Hab HR IH]; intros Hl;
    [constructor |].
  apply StronglySorted_inv in Hl as [Hl Ha].
  constructor; [apply IH; exact Hl |].
  rewrite (Hkey _ _ Hab). clear IH Hl Hab.
  induction HR as [| a' b' l l' Hab' HR IH]; [constructor |].
  apply Forall_cons in Ha as [Ha' Ha].
  constructor; [rewrite (Hkey _ _ Hab'); exact Ha' | apply IH; exact Ha].
Qed.

Lemma Forall2_fmap_eq {A B C} (R : A -> B -> Prop) (f : A -> C) (g : B -> C)
    (l : list A) (l' : list B) :
  Forall2 R l l' -> (forall a b, R a b -> g b = f a) -> g <$> l' = f <$> l.
Proof.
  intros HR Hfg. induction HR as [| a b l l' Hab _ IH]; csimpl;
    [reflexivity |].
  rewrite (Hfg _ _ Hab), IH. reflexivity.
Qed.

Lemma Forall2_elem_r {A B} (R : A -> B -> Prop) (l : list A) (l' : list B) b :
  Forall2 R l l' -> b ∈ l' -> exists a, a ∈ l /\ R a b.
Proof.
  intros HR. induction HR as [| a b' l l' Hab _ IH]; intros Hb;
    [inversion Hb |].
  apply elem_of_cons in Hb as [-> | Hb].
  - exists a. split; [apply elem_of_cons; auto | exact Hab].
  - destruct (IH Hb) as (a' & Ha' & Hr). exists a'.
    split; [apply elem_of_cons; auto | exact Hr].
Qed.

Lemma slice_to_subseteq {A} (n : Z) (l : list A) x :
  x ∈ slice_to n l -> x ∈ l.
Proof.
  destruct (slice_to_take n l) as [m ->]. apply subseteq_take.
Qed.

Lemma slice_to_length {A} (n : Z) (l : list A) :
  (0 <= n)%Z -> (length (slice_to n l) <= Z.to_nat n)%nat.
Proof.
  intros Hn. unfold slice_to. destruct (Z.leb_spec 0 n); [| lia].
  rewrite length_take. lia.
Qed.

Lemma slice_to_length_le {A} (n : Z) (l : list A) :
  (length (slice_to n l) <= length l)%nat.
Proof.
  destruct (slice_to_take n l) as [m ->]. rewrite length_take. lia.
Qed.

(** The channel names gathered for a product are those of its rows. *)
Lemma channel_of_hit st rows product (name : option string) :
  scan_rows no_mentions rows = Return st ->
  name ∈ elements (dict.get (product_channels st) product ∅) ->
  exists row, row ∈ mentions_of product rows /\ row.1.2 = name.
Proof.
  intros Hscan Hname.
  destruct (scan_rows_entries _ _ _ product Hscan) as (_ & _ & Hchannels).
  rewrite Hchannels in Hname. simpl in Hname.
  apply elem_of_elements, elem_of_union in Hname as [Hname | Hname].
  - apply not_elem_of_empty in Hname. contradiction.
  - apply elem_of_list_to_set, list_elem_of_fmap in Hname
      as (row & -> & Hrow).
    eauto.
Qed.

(** The run of the report on rows without [NULL] text or channel name. *)
Lemma top_products_run (self : t) (limit days : Z) :
  Session.connected (db self) = true ->
  Forall (fun row : product_row => is_Some row.1.1 /\ is_Some row.1.2)
    (Session.top_products_rows (db self) days) ->
  exists st tps,
    scan_rows no_mentions (Session.top_products_rows (db self) days)
    = Return st
    /\ mapM (top_product st)
         (slice_to limit (sorted_desc snd (product_counts st)))
       = Return tps
    /\ top_products self limit days
       = Return (VList (map (fun p => VModel (MProduct p)) tps)).
Proof.
  intros Hdb Hrows.
  destruct (scan_rows_returns no_mentions
              (Session.top_products_rows (db self) days)) as [st Hscan].
  { eapply Forall_impl; [exact Hrows |]. intros row [[text Htext] _].
    rewrite Htext. discriminate. }
  destruct (mapM_returns (top_product st)
              (slice_to limit (sorted_desc snd (product_counts st))))
    as [tps Htps].
  { apply Forall_forall. intros [product count] _.
    apply top_product_returns. apply Forall_forall. intros name Hname.
    destruct (channel_of_hit _ _ _ _ Hscan Hname) as (row & Hrow & <-).
    apply mentions_of_elem in Hrow as [Hrow _].
    rewrite Forall_forall in Hrows. apply (Hrows _ Hrow). }
  exists st, tps. split; [exact Hscan |]. split; [exact Htps |].
  unfold top_products, Session.execute. rewrite Hdb. cbn [bind].
  rewrite Hscan. cbn [bind]. rewrite Htps. reflexivity.
Qed.

End report_theorems.

(** X4.  On a cache miss, with the session connected and no [NULL] text
    or channel name among the rows, [get_top_products] returns a list of
    products, and for each of them: its name is a product of the keyword
    table; its mention count is the number of rows whose lowered text
    holds one of its keywords, at least 1; its average is the sum of those
    rows' view counts ([NULL] as 0) over their number; its channels are at
    most five, without repetition, each the channel of such a row. *)
Theorem top_products_report (db : Session.t)
    (redis_client : option Redis.client) (r : Redis.t) (limit days : Z) :
  Session.connected db = true ->
  Forall (fun row : product_row => is_Some row.1.1 /\ is_Some row.1.2)
    (Session.top_products_rows db days) ->
  miss (DataService.new db redis_client)
    ("top_products:" +:+ pretty limit +:+ ":" +:+ pretty days +:+ "d") r
  = true ->
  exists tps,
    (DataService.get_top_products (DataService.new db redis_client) limit
       days r).1
    = Return (VList (map (fun p => VModel (MProduct p)) tps))
    /\ forall tp, tp ∈ tps ->
         TopProduct.product_name tp ∈ DataService.product_keywords.*1
         /\ TopProduct.mention_count tp
            = len (mentions_of (TopProduct.product_name tp)
                     (Session.top_products_rows db days))
         /\ (1 <= TopProduct.mention_count tp)%Z
         /\ TopProduct.avg_views tp
            = (float_of_int
                 (sum ((fun row : product_row => or_zero row.2)
                       <$> mentions_of (TopProduct.product_name tp)
                             (Session.top_products_rows db days)))
               / float_of_int (TopProduct.mention_count tp))%Qc
         /\ NoDup (TopProduct.channels tp)
         /\ (length (TopProduct.channels tp) <= 5)%nat
         /\ forall name, name ∈ TopProduct.channels tp ->
              exists row,
                row ∈ mentions_of (TopProduct.product_name tp)
                        (Session.top_products_rows db days)
                /\ row.1.2 = Some name.
Proof.
  intros Hdb Hrows Hmiss.
  destruct (top_products_run (DataService.new db redis_client) limit days
              Hdb Hrows) as (st & tps & Hscan & Htps & Hrun).
  simpl DataService.db in *.
  exists tps. split.
  { rewrite get_top_products_miss by exact Hmiss. exact Hrun. }
  intros tp Htp.
  destruct (Forall2_elem_r _ _ _ _ (mapM_Forall2 _ _ _ Htps) Htp)
    as ([product count] & Hentry & Htop).
  apply slice_to_subseteq in Hentry.
  rewrite (sorted_desc_permutation snd (DataService.product_counts st))
    in Hentry.
  destruct (scan_rows_entry _ _ _ _ Hscan Hentry) as (Hcount & Hone & Hkey).
  destruct (top_product_inv _ _ _ _ Htop) as (Hname & Hmentions & Havg & Hch).
  rewrite Hname, Hmentions.
  assert (mentions_of product (Session.top_products_rows db days) <> [])
    as Hhits.
  { intros Hnil. rewrite Hnil in Hcount. unfold len in Hcount.
    simpl in Hcount. lia. }
  split; [exact Hkey |]. split; [exact Hcount |]. split; [exact Hone |].
  split; [| split; [| split]].
  - rewrite Havg, !get_find.
    rewrite (scan_rows_views_find _ _ _ _ Hscan Hhits). simpl default.
    destruct (scan_rows_entries _ _ _ product Hscan) as (_ & Hviews & _).
    rewrite Hviews. simpl "++".
    unfold len at 1. rewrite length_fmap.
    fold (len (mentions_of product (Session.top_products_rows db days))).
    rewrite <- Hcount. unfold max_int.
    destruct (Z.ltb_spec count 1); [lia | reflexivity].
  - apply (NoDup_fmap_1 Some). rewrite <- Hch.
    destruct (slice_to_take 5
                (elements (dict.get (DataService.product_channels st)
                             product ∅))) as [m ->].
    apply (sublist_NoDup _
             (elements (dict.get (DataService.product_channels st)
                          product ∅)));
      [apply NoDup_elements | apply sublist_take].
  - rewrite <- (length_fmap Some), <- Hch.
    apply (slice_to_length 5). lia.
  - intros name Hname'.
    apply (channel_of_hit st _ product (Some name) Hscan).
    apply (slice_to_subseteq 5). rewrite Hch.
    apply list_elem_of_fmap. eauto.
Qed.

Lemma top_products_report_sample :
  exists tps,
    (DataService.get_top_products (DataService.new sample.db None) 10 30
       sample.empty_redis).1
    = Return (VList (map (fun p => VModel (MProduct p)) tps))
    /\ forall tp, tp ∈ tps ->
         TopProduct.product_name tp ∈ DataService.product_keywords.*1
         /\ TopProduct.mention_count tp
            = len (mentions_of (TopProduct.product_name tp)
                     (Session.top_products_rows sample.db 30))
         /\ (1 <= TopProduct.mention_count tp)%Z
         /\ TopProduct.avg_views tp
            = (float_of_int
                 (sum ((fun row : product_row => or_zero row.2)
                       <$> mentions_of (TopProduct.product_name tp)
                             (Session.top_products_rows sample.db 30)))
               / float_of_int (TopProduct.mention_count tp))%Qc
         /\ NoDup (TopProduct.channels tp)
         /\ (length (TopProduct.channels tp) <= 5)%nat
         /\ forall name, name ∈ TopProduct.channels tp ->
              exists row,
                row ∈ mentions_of (TopProduct.product_name tp)
                        (Session.top_products_rows sample.db 30)
                /\ row.1.2 = Some name.
Proof.
  apply (top_products_report sample.db None sample.empty_redis 10 30).
  - reflexivity.
  - repeat constructor; simpl; eauto.
  - reflexivity.
Defined.

(** X5.  Under the same conditions the products come in non-increasing
    order of mention count, no product twice, at most ten of them and at
    most [limit] for a non-negative [limit]; with [limit >= 10] every
    product that some row mentions is in the list. *)
Theorem top_products_order (db : Session.t)
    (redis_client : option Redis.client) (r : Redis.t) (limit days : Z) :
  Session.connected db = true ->
  Forall (fun row : product_row => is_Some row.1.1 /\ is_Some row.1.2)
    (Session.top_products_rows db days) ->
  miss (DataService.new db redis_client)
    ("top_products:" +:+ pretty limit +:+ ":" +:+ pretty days +:+ "d") r
  = true ->
  exists tps,
    (DataService.get_top_products (DataService.new db redis_client) limit
       days r).1
    = Return (VList (map (fun p => VModel (MProduct p)) tps))
    /\ StronglySorted
         (fun a b => TopProduct.mention_count b <= TopProduct.mention_count a)%Z
         tps
    /\ NoDup (TopProduct.product_name <$> tps)
    /\ (length tps <= 10)%nat
    /\ ((0 <= limit)%Z -> (length tps <= Z.to_nat limit)%nat)
    /\ ((10 <= limit)%Z ->
        forall product,
          mentions_of product (Session.top_products_rows db days) <> [] ->
          product ∈ TopProduct.product_name <$> tps).
Proof.
  intros Hdb Hrows Hmiss.
  destruct (top_products_run (DataService.new db redis_client) limit days
              Hdb Hrows) as (st & tps & Hscan & Htps & Hrun).
  simpl DataService.db in *.
  exists tps. split.
  { rewrite get_top_products_miss by exact Hmiss. exact Hrun. }
  pose proof (mapM_Forall2 _ _ _ Htps) as Hall.
  assert (forall (e : string * Z) tp,
            DataService.top_product st e = Return tp ->
            TopProduct.mention_count tp = e.2
            /\ TopProduct.product_name tp = e.1) as Hfields.
  { intros [product count] tp Htop.
    destruct (top_product_inv _ _ _ _ Htop) as (Hname & Hmentions & _).
    auto. }
  assert (TopProduct.product_name <$> tps
          = (slice_to limit
               (sorted_desc snd (DataService.product_counts st))).*1)
    as Hnames.
  { apply (Forall2_fmap_eq _ _ _ _ _ Hall). intros e tp Htop.
    apply (Hfields e tp Htop). }
  destruct (scan_rows_counted _ _ _ Hscan NoDup_nil_2 (Forall_nil_2 _))
    as [Hnd _].
  split; [| split; [| split; [| split]]].
  - apply (Forall2_keys _ snd _ _ _ Hall).
    + intros e tp Htop. apply (Hfields e tp Htop).
    + destruct (slice_to_take limit
                  (sorted_desc snd (DataService.product_counts st)))
        as [m ->].
      apply take_sorted, sorted_desc_sorted.
  - rewrite Hnames.
    destruct (slice_to_take limit
                (sorted_desc snd (DataService.product_counts st))) as [m ->].
    rewrite fmap_take.
    eapply sublist_NoDup; [| apply sublist_take].
    rewrite (sorted_desc_permutation snd (DataService.product_counts st)).
    exact Hnd.
  - rewrite (mapM_length _ _ _ Htps).
    etransitivity; [apply slice_to_length_le |].
    rewrite (sorted_desc_permutation snd (DataService.product_counts st)).
    apply (product_counts_short _ _ Hscan).
  - intros Hlimit. rewrite (mapM_length _ _ _ Htps).
    apply slice_to_length. exact Hlimit.
  - intros Hlimit product Hhits. rewrite Hnames.
    rewrite slice_to_short.
    + rewrite (sorted_desc_permutation snd (DataService.product_counts st)).
      apply (scan_rows_mentioned _ _ _ Hscan Hhits).
    + lia.
    + rewrite (sorted_desc_permutation snd (DataService.product_counts st)).
      pose proof (product_counts_short _ _ Hscan). lia.
Qed.

Lemma top_products_order_sample :
  exists tps,
    (DataService.get_top_products (DataService.new sample.db None) 10 30
       sample.empty_redis).1
    = Return (VList (map (fun p => VModel (MProduct p)) tps))
    /\ StronglySorted
         (fun a b => TopProduct.mention_count b <= TopProduct.mention_count a)%Z
         tps
    /\ NoDup (TopProduct.product_name <$> tps)
    /\ (length tps <= 10)%nat
    /\ ((0 <= 10)%Z -> (length tps <= Z.to_nat 10)%nat)
    /\ ((10 <= 10)%Z ->
        forall product,
          mentions_of product (Session.top_products_rows sample.db 30) <> [] ->
          product ∈ TopProduct.product_name <$> tps).
Proof.
  apply (top_products_order sample.db None sample.empty_redis 10 30).
  - reflexivity.
  - repeat constructor; simpl; eauto.
  - reflexivity.
Defined.

(** X6.  One row with a [NULL] text anywhere among the rows makes the
    report fail as a whole: on a miss, [get_top_products] raises the
    [AttributeError] of [row[0].lower()] and stores nothing. *)
Theorem top_products_null_text (db : Session.t)
    (redis_client : option Redis.client) (r : Redis.t) (limit days : Z) :
  Session.connected db = true ->
  Exists (fun row : product_row => row.1.1 = None)
    (Session.top_products_rows db days) ->
  miss (DataService.new db redis_client)
    ("top_products:" +:+ pretty limit +:+ ":" +:+ pretty days +:+ "d") r
  = true ->
  DataService.get_top_products (DataService.new db redis_client) limit days r
  = (Raise (Error "AttributeError"
              "'NoneType' object has no attribute 'lower'"), r).
Proof.
  intros Hdb Hrows Hmiss.
  unfold DataService.get_top_products. cbv zeta.
  rewrite miss_falls_through by exact Hmiss.
  unfold await, lift, DataService.top_products, Session.execute.
  simpl DataService.db. rewrite Hdb. cbn [bind].
  rewrite (scan_rows_raises _ _ Hrows). reflexivity.
Qed.

Lemma top_products_null_text_sample :
  DataService.get_top_products (DataService.new db_with_null_text None) 10 30
    sample.empty_redis
  = (Raise (Error "AttributeError"
              "'NoneType' object has no attribute 'lower'"),
     sample.empty_redis).
Proof.
  apply top_products_null_text.
  - reflexivity.
  - simpl. do 3 apply Exists_cons_tl. apply Exists_cons_hd. reflexivity.
  - reflexivity.
Defined.

(** ** Strings *)

Lemma append_assoc (a b c : string) : (a +:+ b) +:+ c = a +:+ (b +:+ c).
Proof.
  induction a as [| x a IH]; [reflexivity |].
  change (String x ((a +:+ b) +:+ c) = String x (a +:+ (b +:+ c))).
  rewrite IH. reflexivity.
Qed.

Lemma length_append (a b : string) :
  String.length (a +:+ b) = (String.length a + String.length b)%nat.
Proof.
  induction a as [| x a IH]; [reflexivity |].
  change (S (String.length (a +:+ b))
          = S (String.length a + String.length b)).
  rewrite IH. reflexivity.
Qed.

Lemma length_substring (n : nat) (s : string) :
  (String.length (String.substring 0 n s) <= n)%nat.
Proof.
  revert s. induction n as [| n IH]; intros [| x s]; simpl; try lia.
  specialize (IH s). lia.
Qed.

(** [s[:n] + "..." if len(s) > n else s] is at most three characters
    longer than [n], and [s] itself when [s] is no longer than [n]. *)
Lemma truncate_length (n : nat) (s : string) :
  (String.length (truncate n s) <= n + 3)%nat
  /\ ((String.length s <= n)%nat -> truncate n s = s).
Proof.
  unfold truncate.
  destruct (Z.ltb_spec (Z.of_nat n) (Z.of_nat (String.length s))).
  - split; [| lia]. rewrite length_append. simpl.
    pose proof (length_substring n s). lia.
  - split; [lia | reflexivity].
Qed.

(** ** What a search returns *)

Section search_results.

Import DataService.

Lemma message_response_inv (self : t) (msg : TelegramMessage.t)
    (m : MessageResponse.t) :
  message_response self msg = Return m ->
  TelegramMessage.view_count msg = Some (MessageResponse.view_count m)
  /\ TelegramMessage.has_image_flag msg = Some (MessageResponse.has_image m)
  /\ exists text,
       TelegramMessage.message_text msg = Some text
       /\ MessageResponse.message_text m = truncate 500 text.
Proof.
  unfold message_response.
  destruct (Session.execute _ _) as [channel |]; [| discriminate].
  cbn [bind].
  destruct (TelegramMessage.message_id msg); [| discriminate].
  destruct (TelegramMessage.message_text msg) as [text |]; [| discriminate].
  destruct (TelegramMessage.loaded_at msg); [| discriminate].
  cbn [bind required].
  destruct (match head channel with
            | Some c => required "channel_name" (Channel.channel_name c)
            | None => Return "Unknown"
            end); [| discriminate].
  destruct (TelegramMessage.view_count msg); [| discriminate].
  destruct (TelegramMessage.forward_count msg); [| discriminate].
  destruct (TelegramMessage.has_image_flag msg); [| discriminate].
  destruct (TelegramMessage.message_length msg); [| discriminate].
  destruct (TelegramMessage.engagement_score msg); [| discriminate].
  cbn [bind required]. intros [= <-]. simpl. eauto.
Qed.

Lemma order_by_desc_elem {A} (col : A -> option Z) (rows : list A) x :
  x ∈ order_by_desc col rows -> x ∈ rows.
Proof.
  unfold order_by_desc. intros [Hx | Hx]%elem_of_app.
  - apply list_elem_of_filter in Hx. tauto.
  - rewrite sorted_desc_permutation in Hx.
    apply list_elem_of_filter in Hx. tauto.
Qed.

(** The rows handed on by [ORDER BY ... DESC LIMIT k], when none of them
    has a [NULL] in the column, are in non-increasing order. *)
Lemma order_by_desc_sorted {A} (col : A -> option Z) (rows : list A) k :
  Forall (fun row => col row <> None) (take k (order_by_desc col rows)) ->
  StronglySorted (fun a b => default 0 (col b) <= default 0 (col a))%Z
    (take k (order_by_desc col rows)).
Proof.
  unfold order_by_desc. intros Hall.
  destruct (filter (fun r => col r = None) rows) as [| x nulls] eqn:Hnulls.
  - simpl. apply take_sorted, sorted_desc_sorted.
  - destruct k as [| k]; [constructor |]. exfalso.
    simpl in Hall. apply Forall_cons in Hall as [Hx _]. apply Hx.
    assert (x ∈ filter (fun r => col r = None) rows) as Hin
      by (rewrite Hnulls; apply elem_of_cons; auto).
    apply list_elem_of_filter in Hin. tauto.
Qed.

Lemma search_inv (self : t) query channel_name start_date end_date
    has_images min_views limit v :
  search self query channel_name start_date end_date has_images min_views
    limit = Return v ->
  (0 <= limit)%Z
  /\ exists ms,
       v = VList (map (fun m => VModel (MMessage m)) ms)
       /\ Forall2 (fun row m => message_response self row.1.1 = Return m)
            (take (Z.to_nat limit)
               (order_by_desc
                  (fun row => TelegramMessage.view_count row.1.1)
                  (filter (fun row =>
                             search_filter self query channel_name start_date
                               end_date has_images min_views row = true)
                     (joined self))))
            ms.
Proof.
  unfold search, Session.execute.
  destruct (Session.connected (db self)); [| discriminate]. cbn [bind].
  unfold sql_limit. destruct (Z.ltb_spec limit 0); [discriminate |].
  cbn [bind].
  destruct (mapM _ _) as [ms |] eqn:Hms; [| discriminate]. cbn [bind].
  intros [= <-]. split; [lia |]. exists ms. split; [reflexivity |].
  apply (mapM_Forall2 _ _ _ Hms).
Qed.

End search_results.

Lemma Forall2_elem_l {A B} (R : A -> B -> Prop) (l : list A) (l' : list B) a :
  Forall2 R l l' -> a ∈ l -> exists b, b ∈ l' /\ R a b.
Proof.
  intros HR. induction HR as [| a' b l l' Hab _ IH]; intros Ha;
    [inversion Ha |].
  apply elem_of_cons in Ha as [-> | Ha].
  - exists b. split; [apply elem_of_cons; auto | exact Hab].
  - destruct (IH Ha) as (b' & Hb' & Hr). exists b'.
    split; [apply elem_of_cons; auto | exact Hr].
Qed.

(** X7.  Whatever [search_messages] returns on a cache miss is a list of
    at most [limit] messages in non-increasing order of view count, each
    text at most 503 characters long; with a non-zero [min_views] every
    message has at least that many views, and with [has_images] set every
    message has that image flag. *)
Theorem search_results (db : Session.t) (redis_client : option Redis.client)
    (r : Redis.t) (query : string) (channel_name : option string)
    (start_date end_date : option date.t) (has_images : option bool)
    (min_views : option Z) (limit : Z) (vs : list value) :
  miss (DataService.new db redis_client)
    ("search:" +:+ query +:+ ":" +:+ fmt_opt id channel_name
     +:+ ":" +:+ fmt_opt date.str start_date
     +:+ ":" +:+ fmt_opt date.str end_date
     +:+ ":" +:+ fmt_opt fmt_bool has_images
     +:+ ":" +:+ fmt_opt pretty min_views
     +:+ ":" +:+ pretty limit) r = true ->
  (DataService.search_messages (DataService.new db redis_client) query
     channel_name start_date end_date has_images min_views limit r).1
  = Return (VList vs) ->
  exists ms,
    vs = map (fun m => VModel (MMessage m)) ms
    /\ (0 <= limit)%Z
    /\ (length ms <= Z.to_nat limit)%nat
    /\ StronglySorted
         (fun a b => MessageResponse.view_count b
                     <= MessageResponse.view_count a)%Z ms
    /\ (forall m, m ∈ ms ->
          (String.length (MessageResponse.message_text m) <= 503)%nat)
    /\ (forall n, min_views = Some n -> n <> 0%Z ->
          forall m, m ∈ ms -> (n <= MessageResponse.view_count m)%Z)
    /\ (forall b, has_images = Some b ->
          forall m, m ∈ ms -> MessageResponse.has_image m = b).
Proof.
  intros Hmiss Hresult.
  rewrite (search_messages_miss _ _ _ _ _ _ _ _ _ Hmiss) in Hresult.
  apply search_inv in Hresult as (Hlimit & ms & [= ->] & Hall).
  exists ms. split; [reflexivity |]. split; [exact Hlimit |].
  assert (forall m, m ∈ ms ->
            exists row,
              DataService.search_filter (DataService.new db redis_client)
                query channel_name start_date end_date has_images min_views
                row = true
              /\ DataService.message_response
                   (DataService.new db redis_client) row.1.1 = Return m)
    as Hrow.
  { intros m Hm.
    destruct (Forall2_elem_r _ _ _ _ Hall Hm) as (row & Hin & Hm').
    exists row. split; [| exact Hm'].
    apply subseteq_take, order_by_desc_elem, list_elem_of_filter in Hin.
    tauto. }
  split; [| split; [| split; [| split]]].
  - rewrite <- (Forall2_length _ _ _ Hall), length_take. lia.
  - apply (Forall2_keys _
             (fun row : TelegramMessage.t * Channel.t * DateDimension.t =>
                default 0%Z (TelegramMessage.view_count row.1.1))
             _ _ _ Hall).
    + intros row m Hm. apply message_response_inv in Hm as (Hviews & _).
      rewrite Hviews. reflexivity.
    + apply (order_by_desc_sorted
               (fun row : TelegramMessage.t * Channel.t * DateDimension.t =>
                  TelegramMessage.view_count row.1.1)).
      apply Forall_forall. intros row Hin.
      destruct (Forall2_elem_l _ _ _ _ Hall Hin) as (m & _ & Hm).
      apply message_response_inv in Hm as (Hviews & _).
      rewrite Hviews. discriminate.
  - intros m Hm. destruct (Hrow m Hm) as (row & _ & Hm').
    apply message_response_inv in Hm' as (_ & _ & text & _ & ->).
    apply (truncate_length 500).
  - intros n -> Hn m Hm. destruct (Hrow m Hm) as ([[msg channel] dd] & Hf & Hm').
    apply message_response_inv in Hm' as (Hviews & _).
    unfold DataService.search_filter in Hf. simpl in Hviews.
    rewrite !andb_true_iff in Hf. destruct Hf as [_ Hmin].
    destruct (Z.eqb_spec n 0); [contradiction |]. simpl in Hmin.
    rewrite Hviews in Hmin. simpl in Hmin. lia.
  - intros b -> m Hm. destruct (Hrow m Hm) as ([[msg channel] dd] & Hf & Hm').
    apply message_response_inv in Hm' as (_ & Himage & _).
    unfold DataService.search_filter in Hf. simpl in Himage.
    rewrite !andb_true_iff in Hf. destruct Hf as [[_ Hflag] _].
    rewrite Himage in Hflag. simpl in Hflag.
    apply bool_decide_eq_true in Hflag. exact Hflag.
Qed.

Lemma search_results_sample :
  exists ms,
    [ VModel (MMessage (sample_found "panadol (paracetamol) for pain" "A" 300));
      VModel (MMessage (sample_found "new: paracetamol syrup" "B" 200)) ]
    = map (fun m => VModel (MMessage m)) ms
    /\ (0 <= 20)%Z
    /\ (length ms <= Z.to_nat 20)%nat
    /\ StronglySorted
         (fun a b => MessageResponse.view_count b
                     <= MessageResponse.view_count a)%Z ms
    /\ (forall m, m ∈ ms ->
          (String.length (MessageResponse.message_text m) <= 503)%nat)
    /\ (forall n, Some 150%Z = Some n -> n <> 0%Z ->
          forall m, m ∈ ms -> (n <= MessageResponse.view_count m)%Z)
    /\ (forall b, @None bool = Some b ->
          forall m, m ∈ ms -> MessageResponse.has_image m = b).
Proof.
  apply (search_results sample.db None sample.empty_redis "paracetamol" None
           None None None (Some 150%Z) 20).
  - reflexivity.
  - vm_compute. reflexivity.
Defined.

(** ** The same search, twice *)

Lemma as_message_models (error : string) (ms : list MessageResponse.t) :
  mapM (messages.as_message error) (map (fun m => VModel (MMessage m)) ms)
  = Return ms.
Proof.
  induction ms as [| m ms IH]; [reflexivity |].
  cbn [map mapM messages.as_message bind]. rewrite IH. reflexivity.
Qed.

Lemma search_response_models (validation_error : value -> string)
    (query : string) (page limit : Z) (ms : list MessageResponse.t) :
  limit <> 0%Z ->
  messages.search_response validation_error query page limit
    (VList (map (fun m => VModel (MMessage m)) ms))
  = Return {| SearchResponse.query := query;
              SearchResponse.total_results := len ms;
              SearchResponse.messages := ms;
              SearchResponse.page := page;
              SearchResponse.total_pages :=
                max_int 1 ((len ms + limit - 1) `div` limit) |}.
Proof.
  intros Hlimit. unfold messages.search_response, floordiv.
  destruct (Z.eqb_spec limit 0) as [| _]; [contradiction |]. cbn [bind].
  rewrite as_message_models. cbn [bind]. unfold len.
  rewrite length_map. reflexivity.
Qed.

Lemma loads_dumps_messages (ms : list MessageResponse.t) :
  loads (dumps (VList (map (fun m => VModel (MMessage m)) ms)))
  = VList (map (fun m => VStr (StrOf (MMessage m))) ms).
Proof.
  simpl. f_equal. induction ms as [| m ms IH]; [reflexivity |].
  simpl. rewrite IH. reflexivity.
Qed.

(** The route on the stored texts of a non-empty result: the response
    refuses them. *)
Lemma search_response_texts (validation_error : value -> string)
    (query : string) (page limit : Z) (m : MessageResponse.t)
    (ms : list MessageResponse.t) :
  limit <> 0%Z ->
  messages.search_response validation_error query page limit
    (VList (map (fun m => VStr (StrOf (MMessage m))) (m :: ms)))
  = Raise (Error "ValidationError"
             (validation_error
                (VList (map (fun m => VStr (StrOf (MMessage m)))
                          (m :: ms))))).
Proof.
  intros Hlimit. unfold messages.search_response, floordiv.
  destruct (Z.eqb_spec limit 0) as [| _]; [contradiction |]. reflexivity.
Qed.

(** X8.  With a reachable Redis server, a search that finds something
    answers 200 the first time and 500 the second: the first call caches
    the messages as the strings [default=str] makes of them, the second is
    served these strings, and the [SearchResponse] refuses them; the
    detail of the 500 is the text of pydantic's [ValidationError] for
    them. *)
Theorem repeated_search_fails (validation_error : value -> string)
    (db : Session.t) (c : Redis.client)
    (r : Redis.t) (query : string) (channel_name : option string)
    (start_date end_date : option date.t) (has_images : option bool)
    (min_views : option Z) (page limit : Z)
    (m : MessageResponse.t) (ms : list MessageResponse.t) :
  Redis.reachable r = true ->
  miss (DataService.new db (Some c))
    ("search:" +:+ query +:+ ":" +:+ fmt_opt id channel_name
     +:+ ":" +:+ fmt_opt date.str start_date
     +:+ ":" +:+ fmt_opt date.str end_date
     +:+ ":" +:+ fmt_opt fmt_bool has_images
     +:+ ":" +:+ fmt_opt pretty min_views
     +:+ ":" +:+ pretty limit) r = true ->
  DataService.search (DataService.new db (Some c)) query channel_name
    start_date end_date has_images min_views limit
  = Return (VList (map (fun m => VModel (MMessage m)) (m :: ms))) ->
  let first :=
    messages.search_messages validation_error query channel_name start_date
      end_date has_images min_views page limit db (Some c) r in
  let second :=
    messages.search_messages validation_error query channel_name start_date
      end_date has_images min_views page limit db (Some c) first.2 in
  status first.1 = 200%Z
  /\ second.1
     = Raise (HTTPException 500
                (validation_error
                   (VList (map (fun m => VStr (StrOf (MMessage m)))
                             (m :: ms)))))
  /\ status second.1 = 500%Z.
Proof.
  intros Hup Hmiss Hsearch first second.
  assert (1 <= limit)%Z as Hlimit.
  { apply search_inv in Hsearch as (Hlimit & found & [= Hfound] & Hall).
    apply Forall2_length in Hall. rewrite length_take in Hall.
    apply (f_equal length) in Hfound. rewrite !length_map in Hfound.
    simpl in Hfound. lia. }
  assert (exists out,
            first = (Return out,
                     {| Redis.reachable := true;
                        Redis.clock := Redis.clock r;
                        Redis.entries :=
                          <["search:" +:+ query +:+ ":"
                            +:+ fmt_opt id channel_name
                            +:+ ":" +:+ fmt_opt date.str start_date
                            +:+ ":" +:+ fmt_opt date.str end_date
                            +:+ ":" +:+ fmt_opt fmt_bool has_images
                            +:+ ":" +:+ fmt_opt pretty min_views
                            +:+ ":" +:+ pretty limit :=
                              {| Redis.expires_at := Redis.clock r + 300;
                                 Redis.content :=
                                   Redis.Text
                                     (dumps (VList
                                        (map (fun m => VModel (MMessage m))
                                           (m :: ms)))) |}]>
                            (Redis.entries r) |})) as [out Hfirst].
  { unfold first, messages.search_messages, guarded, await.
    unfold DataService.search_messages. cbv zeta.
    rewrite miss_falls_through by exact Hmiss.
    unfold await, lift, ret. rewrite Hsearch.
    unfold DataService.set_cached, Redis.setex. simpl DataService.redis.
    rewrite Hup. rewrite search_response_models by lia.
    cbn [try_except]. eauto. }
  split; [rewrite Hfirst; reflexivity |].
  assert (second.1
          = Raise (HTTPException 500
                     (validation_error
                        (VList (map (fun m => VStr (StrOf (MMessage m)))
                                  (m :: ms)))))) as Hsecond.
  { unfold second. rewrite Hfirst. cbn [snd].
    unfold messages.search_messages, guarded, await.
    unfold DataService.search_messages, await. cbv zeta.
    unfold DataService.get_cached, Redis.get. simpl DataService.redis.
    cbn [Redis.reachable Redis.entries Redis.clock].
    rewrite lookup_insert_eq.
    cbn [Redis.expires_at Redis.content].
    destruct (Z.leb_spec (Redis.clock r) (Redis.clock r + 300)); [| lia].
    cbn [Redis.truthy_data Redis.json_loads].
    rewrite loads_dumps_messages.
    change (truthy (VList (map (fun m => VStr (StrOf (MMessage m)))
                             (m :: ms)))) with true.
    cbv iota. unfold ret, lift.
    rewrite (search_response_texts validation_error query page limit m ms)
      by lia.
    reflexivity. }
  split; [exact Hsecond | rewrite Hsecond; reflexivity].
Qed.

Lemma repeated_search_fails_sample :
  let first :=
    messages.search_messages (fun _ => "1 validation error") "paracetamol"
      None None None None (Some 150%Z) 1 20 sample.db (Some Redis.Client)
      sample.empty_redis in
  let second :=
    messages.search_messages (fun _ => "1 validation error") "paracetamol"
      None None None None (Some 150%Z) 1 20 sample.db (Some Redis.Client)
      first.2 in
  status first.1 = 200%Z
  /\ second.1
     = Raise (HTTPException 500
                ((fun _ => "1 validation error")
                   (VList (map (fun m => VStr (StrOf (MMessage m)))
                             (sample_found "panadol (paracetamol) for pain"
                                "A" 300
                              :: [sample_found "new: paracetamol syrup" "B"
                                    200])))))
  /\ status second.1 = 500%Z.
Proof.
  apply (repeated_search_fails (fun _ => "1 validation error") sample.db
           Redis.Client sample.empty_redis
           "paracetamol" None None None None (Some 150%Z) 1 20
           (sample_found "panadol (paracetamol) for pain" "A" 300)
           [sample_found "new: paracetamol syrup" "B" 200]).
  - reflexivity.
  - reflexivity.
  - vm_compute. reflexivity.
Defined.

(** ** One cache key for two searches *)

Lemma search_keys_equal (query x rest : string) :
  "search:" +:+ query +:+ ":" +:+ fmt_opt id (Some (x +:+ ":None"))
  +:+ ":" +:+ rest
  = "search:" +:+ (query +:+ ":" +:+ x) +:+ ":" +:+ fmt_opt id None
    +:+ ":" +:+ rest.
Proof.
  simpl fmt_opt. unfold id.
  rewrite (append_assoc x ":None"), (append_assoc query (":" +:+ x)).
  reflexivity.
Qed.

(** X9.  The cache key of a search joins its parameters with colons, so
    two searches can share a key: the search for [query] in the channel
    named [x:None] and the search for [query:x] in all channels.  With a
    reachable Redis server, once the first has stored a non-empty result,
    the second is served that result (as it reads back from the cache),
    whatever the warehouse holds for it. *)
Theorem search_served_across_queries (db : Session.t) (c : Redis.client)
    (r : Redis.t) (query x : string) (limit : Z) (result : value) :
  Redis.reachable r = true ->
  miss (DataService.new db (Some c))
    ("search:" +:+ query +:+ ":" +:+ fmt_opt id (Some (x +:+ ":None"))
     +:+ ":" +:+ "None" +:+ ":" +:+ "None" +:+ ":" +:+ "None"
     +:+ ":" +:+ "None" +:+ ":" +:+ pretty limit) r = true ->
  DataService.search (DataService.new db (Some c)) query
    (Some (x +:+ ":None")) None None None None limit = Return result ->
  truthy result = true ->
  let first :=
    DataService.search_messages (DataService.new db (Some c)) query
      (Some (x +:+ ":None")) None None None None limit r in
  first.1 = Return result
  /\ DataService.search_messages (DataService.new db (Some c))
       (query +:+ ":" +:+ x) None None None None None limit first.2
     = (Return (loads (dumps result)), first.2).
Proof.
  intros Hup Hmiss Hsearch Htruthy first.
  assert (first
          = (Return result,
             {| Redis.reachable := true;
                Redis.clock := Redis.clock r;
                Redis.entries :=
                  <["search:" +:+ query +:+ ":"
                    +:+ fmt_opt id (Some (x +:+ ":None"))
                    +:+ ":" +:+ "None" +:+ ":" +:+ "None" +:+ ":" +:+ "None"
                    +:+ ":" +:+ "None" +:+ ":" +:+ pretty limit :=
                      {| Redis.expires_at := Redis.clock r + 300;
                         Redis.content := Redis.Text (dumps result) |}]>
                    (Redis.entries r) |})) as Hfirst.
  { unfold first, DataService.search_messages. cbv zeta.
    rewrite miss_falls_through by exact Hmiss.
    unfold await, lift, ret. rewrite Hsearch.
    unfold DataService.set_cached, Redis.setex. simpl DataService.redis.
    rewrite Hup. reflexivity. }
  rewrite Hfirst. split; [reflexivity |]. simpl snd.
  unfold DataService.search_messages, await. cbv zeta.
  change (fmt_opt date.str None) with "None".
  change (fmt_opt fmt_bool None) with "None".
  change (fmt_opt (pretty (A := Z)) None) with "None".
  rewrite <- search_keys_equal.
  unfold DataService.get_cached, Redis.get. simpl DataService.redis.
  cbn [Redis.reachable Redis.entries Redis.clock].
  rewrite lookup_insert_eq.
  cbn [Redis.expires_at Redis.content].
  destruct (Z.leb_spec (Redis.clock r) (Redis.clock r + 300)); [| lia].
  cbn [Redis.truthy_data Redis.json_loads].
  rewrite truthy_roundtrip, Htruthy. reflexivity.
Qed.

Lemma search_served_across_queries_sample :
  let first :=
    DataService.search_messages
      (DataService.new db_with_colon (Some Redis.Client)) "para"
      (Some ("Z" +:+ ":None")) None None None None 20 sample.empty_redis in
  first.1
  = Return (VList [VModel (MMessage
                     (sample_found "paracetamol here" "Z:None" 10))])
  /\ DataService.search_messages
       (DataService.new db_with_colon (Some Redis.Client))
       ("para" +:+ ":" +:+ "Z") None None None None None 20 first.2
     = (Return (loads (dumps (VList [VModel (MMessage
                  (sample_found "paracetamol here" "Z:None" 10))]))),
        first.2).
Proof.
  apply (search_served_across_queries db_with_colon Redis.Client
           sample.empty_redis "para" "Z" 20).
  - reflexivity.
  - reflexivity.
  - vm_compute. reflexivity.
  - reflexivity.
Defined.

(** ** A search without a match, served the result of another search *)

(** C7 on the code.  A query that matches no stored text is not always
    answered with the empty list.  Take a channel whose name ends in
    [:None], say [x:None], and a search for [query] in that channel that
    finds something, with a reachable Redis server and nothing cached.
    The search for [query:x] in all channels has the same cache key.  If
    it matches no stored text, its answer on a cache miss would be the
    empty list; asked after the first search it is served the texts that
    search stored, which the response refuses: the route answers 500. *)
Theorem search_without_match_fails (validation_error : value -> string)
    (db : Session.t) (c : Redis.client) (r : Redis.t) (query x : string)
    (page limit : Z) (m : MessageResponse.t)
    (ms : list MessageResponse.t) :
  Redis.reachable r = true ->
  Session.connected db = true ->
  miss (DataService.new db (Some c))
    ("search:" +:+ query +:+ ":" +:+ fmt_opt id (Some (x +:+ ":None"))
     +:+ ":" +:+ "None" +:+ ":" +:+ "None" +:+ ":" +:+ "None"
     +:+ ":" +:+ "None" +:+ ":" +:+ pretty limit) r = true ->
  DataService.search (DataService.new db (Some c)) query
    (Some (x +:+ ":None")) None None None None limit
  = Return (VList (map (fun m => VModel (MMessage m)) (m :: ms))) ->
  (forall msg text,
     msg ∈ Session.fct_messages db ->
     TelegramMessage.message_text msg = Some text ->
     Session.ilike db text ("%" +:+ (query +:+ ":" +:+ x) +:+ "%") = false) ->
  let first :=
    messages.search_messages validation_error query (Some (x +:+ ":None"))
      None None None None page limit db (Some c) r in
  let second :=
    messages.search_messages validation_error (query +:+ ":" +:+ x) None
      None None None None page limit db (Some c) first.2 in
  status first.1 = 200%Z
  /\ DataService.search (DataService.new db (Some c)) (query +:+ ":" +:+ x)
       None None None None None limit
     = Return (VList [])
  /\ second.1
     = Raise (HTTPException 500
                (validation_error
                   (VList (map (fun m => VStr (StrOf (MMessage m)))
                             (m :: ms)))))
  /\ status second.1 = 500%Z.
Proof.
  intros Hup Hdb Hmiss Hsearch Hnone first second.
  assert (1 <= limit)%Z as Hlimit.
  { apply search_inv in Hsearch as (Hlimit & found & [= Hfound] & Hall).
    apply Forall2_length in Hall. rewrite length_take in Hall.
    apply (f_equal length) in Hfound. rewrite !length_map in Hfound.
    simpl in Hfound. lia. }
  assert (exists out,
            first = (Return out,
                     {| Redis.reachable := true;
                        Redis.clock := Redis.clock r;
                        Redis.entries :=
                          <["search:" +:+ query +:+ ":"
                            +:+ fmt_opt id (Some (x +:+ ":None"))
                            +:+ ":" +:+ "None" +:+ ":" +:+ "None"
                            +:+ ":" +:+ "None" +:+ ":" +:+ "None"
                            +:+ ":" +:+ pretty limit :=
                              {| Redis.expires_at := Redis.clock r + 300;
                                 Redis.content :=
                                   Redis.Text
                                     (dumps (VList
                                        (map (fun m => VModel (MMessage m))
                                           (m :: ms)))) |}]>
                            (Redis.entries r) |})) as [out Hfirst].
  { unfold first, messages.search_messages, guarded, await.
    unfold DataService.search_messages. cbv zeta.
    change (fmt_opt date.str None) with "None".
    change (fmt_opt fmt_bool None) with "None".
    change (fmt_opt (pretty (A := Z)) None) with "None".
    rewrite miss_falls_through by exact Hmiss.
    unfold await, lift, ret. rewrite Hsearch.
    unfold DataService.set_cached, Redis.setex. simpl DataService.redis.
    rewrite Hup. rewrite search_response_models by lia.
    cbn [try_except]. eauto. }
  split; [rewrite Hfirst; reflexivity |].
  split.
  { apply (search_no_match (DataService.new db (Some c)));
      [exact Hdb | exact Hnone | lia]. }
  assert (second.1
          = Raise (HTTPException 500
                     (validation_error
                        (VList (map (fun m => VStr (StrOf (MMessage m)))
                                  (m :: ms)))))) as Hsecond.
  { unfold second. rewrite Hfirst. cbn [snd].
    unfold messages.search_messages, guarded, await.
    unfold DataService.search_messages, await. cbv zeta.
    change (fmt_opt date.str None) with "None".
    change (fmt_opt fmt_bool None) with "None".
    change (fmt_opt (pretty (A := Z)) None) with "None".
    rewrite <- search_keys_equal.
    unfold DataService.get_cached, Redis.get. simpl DataService.redis.
    cbn [Redis.reachable Redis.entries Redis.clock].
    rewrite lookup_insert_eq.
    cbn [Redis.expires_at Redis.content].
    destruct (Z.leb_spec (Redis.clock r) (Redis.clock r + 300)); [| lia].
    cbn [Redis.truthy_data Redis.json_loads].
    rewrite loads_dumps_messages.
    change (truthy (VList (map (fun m => VStr (StrOf (MMessage m)))
                             (m :: ms)))) with true.
    cbv iota. unfold ret, lift.
    rewrite (search_response_texts validation_error (query +:+ ":" +:+ x)
               page limit m ms) by lia.
    reflexivity. }
  split; [exact Hsecond | rewrite Hsecond; reflexivity].
Qed.

Lemma search_without_match_fails_sample :
  let first :=
    messages.search_messages (fun _ => "1 validation error") "para"
      (Some ("Z" +:+ ":None")) None None None None 1 20 db_with_colon
      (Some Redis.Client) sample.empty_redis in
  let second :=
    messages.search_messages (fun _ => "1 validation error")
      ("para" +:+ ":" +:+ "Z") None None None None None 1 20 db_with_colon
      (Some Redis.Client) first.2 in
  status first.1 = 200%Z
  /\ DataService.search (DataService.new db_with_colon (Some Redis.Client))
       ("para" +:+ ":" +:+ "Z") None None None None None 20
     = Return (VList [])
  /\ second.1
     = Raise (HTTPException 500
                ((fun _ => "1 validation error")
                   (VList (map (fun m => VStr (StrOf (MMessage m)))
                             (sample_found "paracetamol here" "Z:None" 10
                              :: [])))))
  /\ status second.1 = 500%Z.
Proof.
  apply (search_without_match_fails (fun _ => "1 validation error")
           db_with_colon Redis.Client sample.empty_redis "para" "Z" 1 20
           (sample_found "paracetamol here" "Z:None" 10) []).
  - reflexivity.
  - reflexivity.
  - reflexivity.
  - vm_compute. reflexivity.
  - intros msg text Hmsg Htext. simpl in Hmsg.
    apply list_elem_of_singleton in Hmsg. subst msg.
    injection Htext as <-. vm_compute. reflexivity.
Defined.

(** ** Channels that do not exist *)

Section unknown_channel.

Context (db : Session.t) (redis_client : option Redis.client).
Context (channel_name : string).
Context (Hdb : Session.connected db = true).
Context (Hnone : forall channel,
           channel ∈ Session.dim_channels db ->
           Channel.channel_name channel <> Some channel_name).

Lemma no_channel_named :
  DataService.first_channel_named (DataService.new db redis_client)
    channel_name = Return None.
Proof.
  unfold DataService.first_channel_named, Session.execute.
  simpl DataService.db. rewrite Hdb. cbn [bind].
  rewrite filter_none; [reflexivity |].
  intros channel Hin Heq. apply (Hnone channel Hin).
  unfold sql_eq in Heq.
  destruct (Channel.channel_name channel) as [name |]; [| discriminate].
  apply bool_decide_eq_true in Heq. congruence.
Qed.

Lemma unknown_channel_lookup (r : Redis.t) :
  miss (DataService.new db redis_client) ("channel:" +:+ channel_name) r
  = true ->
  DataService.get_channel_by_name (DataService.new db redis_client)
    channel_name r = (Return VNone, r).
Proof.
  intros Hmiss. rewrite get_channel_by_name_miss by exact Hmiss.
  unfold DataService.lookup_channel, await, lift.
  rewrite no_channel_named. reflexivity.
Qed.

End unknown_channel.

(** X10.  Looking up a channel name that no row carries returns [None]
    and writes nothing to the cache, so the absence is looked up anew each
    time; the channel route answers it with 404. *)
Theorem unknown_channel_is_404 (db : Session.t)
    (redis_client : option Redis.client) (r : Redis.t)
    (channel_name : string) :
  Session.connected db = true ->
  (forall channel,
     channel ∈ Session.dim_channels db ->
     Channel.channel_name channel <> Some channel_name) ->
  miss (DataService.new db redis_client) ("channel:" +:+ channel_name) r
  = true ->
  DataService.get_channel_by_name (DataService.new db redis_client)
    channel_name r = (Return VNone, r)
  /\ channels.get_channel channel_name db redis_client r
     = (Raise (HTTPException 404
                 ("Channel '" +:+ channel_name +:+ "' not found")), r)
  /\ status (channels.get_channel channel_name db redis_client r).1 = 404%Z.
Proof.
  intros Hdb Hnone Hmiss.
  pose proof (unknown_channel_lookup db redis_client channel_name Hdb Hnone
                r Hmiss) as Hlookup.
  assert (channels.get_channel channel_name db redis_client r
          = (Raise (HTTPException 404
                      ("Channel '" +:+ channel_name +:+ "' not found")), r))
    as Hroute.
  { unfold channels.get_channel, guarded_http, await. rewrite Hlookup.
    reflexivity. }
  split; [exact Hlookup |]. split; [exact Hroute |].
  rewrite Hroute. reflexivity.
Qed.

Lemma unknown_channel_is_404_sample :
  DataService.get_channel_by_name
    (DataService.new sample.db (Some Redis.Client)) "nonexistent"
    sample.empty_redis = (Return VNone, sample.empty_redis)
  /\ channels.get_channel "nonexistent" sample.db (Some Redis.Client)
       sample.empty_redis
     = (Raise (HTTPException 404
                 ("Channel '" +:+ "nonexistent" +:+ "' not found")),
        sample.empty_redis)
  /\ status (channels.get_channel "nonexistent" sample.db
               (Some Redis.Client) sample.empty_redis).1 = 404%Z.
Proof.
  apply unknown_channel_is_404.
  - reflexivity.
  - intros channel Hin. simpl in Hin.
    repeat (apply elem_of_cons in Hin as [-> | Hin]);
      [discriminate .. | inversion Hin].
  - reflexivity.
Defined.

(** X11.  For a channel name that no row carries, the activity method
    returns the empty list without storing it, and the activity route
    answers 404. *)
Theorem unknown_channel_activity (db : Session.t)
    (redis_client : option Redis.client) (r : Redis.t)
    (channel_name : string) (days : Z) :
  Session.connected db = true ->
  (forall channel,
     channel ∈ Session.dim_channels db ->
     Channel.channel_name channel <> Some channel_name) ->
  miss (DataService.new db redis_client) ("channel:" +:+ channel_name) r
  = true ->
  miss (DataService.new db redis_client)
    ("channel_activity:" +:+ channel_name +:+ ":" +:+ pretty days +:+ "d") r
  = true ->
  DataService.get_channel_activity (DataService.new db redis_client)
    channel_name days r = (Return (VList []), r)
  /\ channels.get_channel_activity channel_name days db redis_client r
     = (Raise (HTTPException 404
                 ("Channel '" +:+ channel_name +:+ "' not found")), r).
Proof.
  intros Hdb Hnone Hmiss Hactivity.
  pose proof (unknown_channel_lookup db redis_client channel_name Hdb Hnone
                r Hmiss) as Hlookup.
  assert (DataService.get_channel_activity (DataService.new db redis_client)
            channel_name days r = (Return (VList []), r)) as Hservice.
  { rewrite get_channel_activity_miss by exact Hactivity.
    unfold DataService.activity_of_channel, await. rewrite Hlookup.
    reflexivity. }
  split; [exact Hservice |].
  unfold channels.get_channel_activity, guarded_http, await.
  rewrite Hservice. simpl. rewrite Hlookup. reflexivity.
Qed.

Lemma unknown_channel_activity_sample :
  DataService.get_channel_activity
    (DataService.new sample.db (Some Redis.Client)) "nonexistent" 30
    sample.empty_redis = (Return (VList []), sample.empty_redis)
  /\ channels.get_channel_activity "nonexistent" 30 sample.db
       (Some Redis.Client) sample.empty_redis
     = (Raise (HTTPException 404
                 ("Channel '" +:+ "nonexistent" +:+ "' not found")),
        sample.empty_redis).
Proof.
  apply unknown_channel_activity.
  - reflexivity.
  - intros channel Hin. simpl in Hin.
    repeat (apply elem_of_cons in Hin as [-> | Hin]);
      [discriminate .. | inversion Hin].
  - reflexivity.
  - reflexivity.
Defined.

(** ** What the service raises *)

Section internal_facts.

Lemma internal_bind {A B} (m : except A) (k : A -> except B) :
  internal m -> (forall a, internal (k a)) -> internal (bind m k).
Proof.
  intros Hm Hk. destruct m as [a | e]; [apply Hk | exact Hm].
Qed.

Lemma internal_required {A} (field : string) (x : option A) :
  internal (required field x).
Proof. destruct x; exact I. Qed.

Lemma internal_execute {A} (db : Session.t) (rows : list A) :
  internal (Session.execute db rows).
Proof. unfold Session.execute. destruct (Session.connected db); exact I. Qed.

Lemma internal_sql_limit {A} (n : Z) (rows : list A) :
  internal (sql_limit n rows).
Proof. unfold sql_limit. destruct (n <? 0)%Z; exact I. Qed.

Lemma internal_truediv (a b : Qc) : internal (truediv a b).
Proof. unfold truediv. destruct (decide (b = 0%Qc)); exact I. Qed.

Lemma internal_mapM {A B} (f : A -> except B) (l : list A) :
  (forall a, internal (f a)) -> internal (mapM f l).
Proof.
  intros Hf. induction l as [| a l IH]; [exact I |].
  cbn [mapM]. apply internal_bind; [apply Hf |].
  intros b. apply internal_bind; [exact IH |]. intros bs. exact I.
Qed.

Lemma internal_await {A B} (m : cached A) (k : A -> cached B) (r : Redis.t) :
  internal (m r).1 ->
  (forall a r', internal (k a r').1) ->
  internal (await m k r).1.
Proof.
  intros Hm Hk. unfold await.
  destruct (m r) as [[a | e] r']; [apply Hk | exact Hm].
Qed.

Lemma internal_get_cached (self : DataService.t) (key : string)
    (r : Redis.t) :
  internal (DataService.get_cached self key r).1.
Proof.
  destruct (get_cached_total self key r) as [v Hv]. rewrite Hv. exact I.
Qed.

Lemma internal_set_cached (self : DataService.t) (key : string) (v : value)
    (r : Redis.t) :
  internal (DataService.set_cached self key v r).1.
Proof.
  destruct (set_cached_total self key v r) as (b & r' & Hb).
  rewrite Hb. exact I.
Qed.

(** The cache-aside shape every read method has. *)
Lemma internal_cache_aside (self : DataService.t) (key : string)
    (body : cached value) (r : Redis.t) :
  (forall r', internal (body r').1) ->
  internal
    (await (DataService.get_cached self key)
       (fun cached => if truthy cached then ret cached else body) r).1.
Proof.
  intros Hbody. apply internal_await; [apply internal_get_cached |].
  intros cached r'. destruct (truthy cached); [exact I | apply Hbody].
Qed.

Lemma internal_store (self : DataService.t) (key : string)
    (body : except value) (r : Redis.t) :
  internal body ->
  internal
    (await (lift body)
       (fun result =>
          await (DataService.set_cached self key result)
            (fun _ => ret result)) r).1.
Proof.
  intros Hbody. apply internal_await; [exact Hbody |].
  intros result r'. apply internal_await; [apply internal_set_cached |].
  intros _ r''. exact I.
Qed.

Lemma internal_channel_response (channel : Channel.t) :
  internal (DataService.channel_response channel).
Proof.
  unfold DataService.channel_response.
  repeat (apply internal_bind; [apply internal_required | intros ?]).
  exact I.
Qed.

Lemma internal_get_channel_by_name (self : DataService.t)
    (channel_name : string) (r : Redis.t) :
  internal (DataService.get_channel_by_name self channel_name r).1.
Proof.
  unfold DataService.get_channel_by_name. apply internal_cache_aside.
  intros r'. unfold DataService.lookup_channel.
  apply internal_await.
  - unfold lift, DataService.first_channel_named. simpl.
    apply internal_bind; [apply internal_execute | intros rows; exact I].
  - intros [channel |] r''; [| exact I].
    apply internal_await; [apply internal_channel_response |].
    intros result r3. apply internal_await; [apply internal_set_cached |].
    intros _ r4. exact I.
Qed.

Lemma internal_get_channel_activity (self : DataService.t)
    (channel_name : string) (days : Z) (r : Redis.t) :
  internal (DataService.get_channel_activity self channel_name days r).1.
Proof.
  unfold DataService.get_channel_activity. apply internal_cache_aside.
  intros r'. unfold DataService.activity_of_channel.
  apply internal_await; [apply internal_get_channel_by_name |].
  intros channel r''. destruct (negb (truthy channel)); [exact I |].
  apply internal_await; [apply internal_execute |].
  intros result r3. apply internal_await.
  - unfold lift. simpl. apply internal_mapM.
    intros [[[full_date message_count] avg_views] avg_forwards].
    unfold DataService.channel_activity.
    apply internal_bind; [apply internal_required | intros ?; exact I].
  - intros activity r4. apply internal_await; [apply internal_set_cached |].
    intros _ r5. exact I.
Qed.

Lemma internal_scan_rows (rows : list product_row) (st : DataService.tally) :
  internal (DataService.scan_rows st rows).
Proof.
  revert st. induction rows as [| [[text channel] views] rows IH];
    intros st; [exact I |].
  cbn [DataService.scan_rows]. apply internal_bind.
  - unfold DataService.scan_row. destruct text; exact I.
  - intros st'. apply IH.
Qed.

Lemma internal_top_product (st : DataService.tally) (entry : string * Z) :
  internal (DataService.top_product st entry).
Proof.
  destruct entry as [product count]. unfold DataService.top_product.
  apply internal_bind; [apply internal_truediv | intros avg].
  apply internal_bind.
  - apply internal_mapM. intros a. apply internal_required.
  - intros channels. exact I.
Qed.

Lemma internal_count_dict (field : string) (rows : list count_row) :
  internal (DataService.count_dict field rows).
Proof.
  unfold DataService.count_dict. apply internal_bind.
  - apply internal_mapM. intros row.
    apply internal_bind; [apply internal_required | intros ?; exact I].
  - intros ?. exact I.
Qed.

Lemma internal_top_message (row : top_message_row) :
  internal (DataService.top_message row).
Proof.
  destruct row as [[[[[[[[message_id message_text] channel_name] view_count]
    forward_count] has_image_flag] message_length] engagement_score]
    message_date].
  unfold DataService.top_message.
  apply internal_bind; [destruct message_text; exact I | intros text].
  repeat (apply internal_bind; [apply internal_required | intros ?]).
  exact I.
Qed.

End internal_facts.

(** X12.  No read method of the service raises an [HTTPException]:
    whatever fails inside it (the database, a NULL in a required column, a
    division, a negative limit) reaches the route as another exception,
    and the cache never fails it at all. *)
Theorem service_raises_no_http_exception (self : DataService.t)
    (r : Redis.t) :
  internal (DataService.get_all_channels self r).1
  /\ (forall channel_name,
        internal (DataService.get_channel_by_name self channel_name r).1)
  /\ (forall channel_name days,
        internal
          (DataService.get_channel_activity self channel_name days r).1)
  /\ (forall query channel_name start_date end_date has_images min_views
        limit,
        internal
          (DataService.search_messages self query channel_name start_date
             end_date has_images min_views limit r).1)
  /\ (forall limit days,
        internal (DataService.get_top_products self limit days r).1)
  /\ internal (DataService.get_visual_content_stats self r).1
  /\ (forall days,
        internal (DataService.get_engagement_metrics self days r).1).
Proof.
  split.
  { unfold DataService.get_all_channels. apply internal_cache_aside.
    intros r'. apply internal_store. unfold DataService.all_channels.
    apply internal_bind; [apply internal_execute | intros channels].
    apply internal_bind;
      [apply internal_mapM, internal_channel_response | intros ?; exact I]. }
  split; [intros; apply internal_get_channel_by_name |].
  split; [intros; apply internal_get_channel_activity |].
  split.
  { intros. unfold DataService.search_messages. apply internal_cache_aside.
    intros r'. apply internal_store. unfold DataService.search.
    apply internal_bind; [apply internal_execute | intros rows].
    apply internal_bind; [apply internal_sql_limit | intros rows'].
    apply internal_bind; [| intros ?; exact I].
    apply internal_mapM. intros row. unfold DataService.message_response.
    apply internal_bind; [apply internal_execute | intros channel].
    do 3 (apply internal_bind; [apply internal_required | intros ?]).
    apply internal_bind.
    - destruct (head channel); [apply internal_required | exact I].
    - intros ?.
      repeat (apply internal_bind; [apply internal_required | intros ?]).
      exact I. }
  split.
  { intros. unfold DataService.get_top_products. apply internal_cache_aside.
    intros r'. apply internal_store. unfold DataService.top_products.
    apply internal_bind; [apply internal_execute | intros result].
    apply internal_bind; [apply internal_scan_rows | intros st].
    apply internal_bind;
      [apply internal_mapM, internal_top_product | intros ?; exact I]. }
  split.
  { unfold DataService.get_visual_content_stats. apply internal_cache_aside.
    intros r'. apply internal_store. unfold DataService.visual_content_stats.
    do 4 (apply internal_bind; [apply internal_execute | intros ?]).
    do 2 (apply internal_bind; [apply internal_count_dict | intros ?]).
    exact I. }
  intros days. unfold DataService.get_engagement_metrics.
  apply internal_cache_aside. intros r'. apply internal_store.
  unfold DataService.engagement_metrics.
  do 2 (apply internal_bind; [apply internal_execute | intros ?]).
  apply internal_bind;
    [apply internal_mapM, internal_top_message | intros ?].
  apply internal_bind; [destruct (head _); exact I | intros totals].
  destruct totals as [[[[total_messages total_views] total_forwards]
    avg_views] avg_forwards]. exact I.
Qed.

(** ** Comparing channels *)

(** A channel found in the warehouse is stored on the first lookup, and
    the second lookup is served the stored text. *)
Lemma lookup_stores (db : Session.t) (c : Redis.client)
    (channel_name : string) (r : Redis.t) (row : Channel.t)
    (found : ChannelResponse.t) :
  DataService.first_channel_named (DataService.new db (Some c)) channel_name
  = Return (Some row) ->
  DataService.channel_response row = Return found ->
  Redis.reachable r = true ->
  miss (DataService.new db (Some c)) ("channel:" +:+ channel_name) r = true ->
  exists r1,
    DataService.get_channel_by_name (DataService.new db (Some c))
      channel_name r
    = (Return (VModel (MChannel found)), r1)
    /\ DataService.get_channel_by_name (DataService.new db (Some c))
         channel_name r1
       = (Return (VStr (StrOf (MChannel found))), r1).
Proof.
  intros Hrow Hfound Hup Hmiss.
  eexists. split.
  - rewrite get_channel_by_name_miss by exact Hmiss.
    unfold DataService.lookup_channel, await, lift, ret.
    rewrite Hrow, Hfound.
    unfold DataService.set_cached, Redis.setex. simpl DataService.redis.
    rewrite Hup. reflexivity.
  - unfold DataService.get_channel_by_name, await. cbv zeta.
    unfold DataService.get_cached, Redis.get. simpl.
    rewrite lookup_insert_eq. simpl.
    destruct (Z.leb_spec (Redis.clock r) (Redis.clock r + 300)); [| lia].
    reflexivity.
Qed.

Lemma internal_is_500 {A} (e : exn) :
  internal (Raise e : except A) ->
  status (try_except_http (Raise e : except A)
            (fun e => Raise (HTTPException 500 (exn_str e)))) = 500%Z.
Proof. destruct e; [intros [] | reflexivity]. Qed.

(** X13.  When the second channel of a comparison is in no row, the
    comparison answers 404: it names the first channel if the lookup of
    that one found nothing either, and the second channel otherwise. *)
Theorem comparison_with_unknown_channel (db : Session.t)
    (redis_client : option Redis.client) (r r1 : Redis.t)
    (channel_name compare_with : string) (channel1 : value) :
  Session.connected db = true ->
  (forall channel,
     channel ∈ Session.dim_channels db ->
     Channel.channel_name channel <> Some compare_with) ->
  DataService.get_channel_by_name (DataService.new db redis_client)
    channel_name r = (Return channel1, r1) ->
  miss (DataService.new db redis_client) ("channel:" +:+ compare_with) r1
  = true ->
  channels.compare_channel channel_name compare_with db redis_client r
  = (Raise (channels.not_found
              (if truthy channel1 then compare_with else channel_name)), r1).
Proof.
  intros Hdb Hnone Hfirst Hmiss.
  pose proof (unknown_channel_lookup db redis_client compare_with Hdb Hnone
                r1 Hmiss) as Hsecond.
  unfold channels.compare_channel, guarded_http, await. cbv zeta.
  rewrite Hfirst, Hsecond.
  destruct (truthy channel1); reflexivity.
Qed.

Lemma comparison_with_unknown_channel_sample :
  channels.compare_channel "A" "nonexistent" sample.db (Some Redis.Client)
    sample.empty_redis
  = (Raise (channels.not_found
              (if truthy (VModel (MChannel (sample.response "A" 0)))
               then "nonexistent" else "A")),
     (DataService.get_channel_by_name
        (DataService.new sample.db (Some Redis.Client)) "A"
        sample.empty_redis).2).
Proof.
  apply comparison_with_unknown_channel.
  - reflexivity.
  - intros channel Hin. simpl in Hin.
    repeat (apply elem_of_cons in Hin as [-> | Hin]);
      [discriminate .. | inversion Hin].
  - reflexivity.
  - reflexivity.
Defined.

(** X14.  With Redis reachable and nothing cached, comparing a channel
    that exists with itself answers 500: the first lookup stores the
    channel, the second is served the stored text, and the metrics read an
    attribute of that text. *)
Theorem comparison_with_itself (db : Session.t) (c : Redis.client)
    (channel_name : string) (r : Redis.t) (row : Channel.t)
    (found : ChannelResponse.t) :
  DataService.first_channel_named (DataService.new db (Some c)) channel_name
  = Return (Some row) ->
  DataService.channel_response row = Return found ->
  Redis.reachable r = true ->
  miss (DataService.new db (Some c)) ("channel:" +:+ channel_name) r = true ->
  status (channels.compare_channel channel_name channel_name db (Some c) r).1
  = 500%Z.
Proof.
  intros Hrow Hfound Hup Hmiss.
  destruct (lookup_stores db c channel_name r row found Hrow Hfound Hup Hmiss)
    as (r1 & Hfirst & Hsecond).
  unfold channels.compare_channel, guarded_http. cbv zeta.
  unfold await at 1. rewrite Hfirst.
  unfold await at 1. rewrite Hsecond.
  change (truthy (VModel (MChannel found))) with true.
  change (truthy (VStr (StrOf (MChannel found)))) with true.
  cbn [negb].
  pose proof (internal_get_channel_activity (DataService.new db (Some c))
                channel_name 30 r1) as Hfirst_activity.
  unfold await at 1.
  destruct (DataService.get_channel_activity (DataService.new db (Some c))
              channel_name 30 r1) as [[activity1 | e1] r2].
  - pose proof (internal_get_channel_activity (DataService.new db (Some c))
                  channel_name 30 r2) as Hsecond_activity.
    unfold await at 1.
    destruct (DataService.get_channel_activity (DataService.new db (Some c))
                channel_name 30 r2) as [[activity2 | e2] r3].
    + reflexivity.
    + apply internal_is_500. exact Hsecond_activity.
  - apply internal_is_500. exact Hfirst_activity.
Qed.

Lemma comparison_with_itself_sample :
  status (channels.compare_channel "A" "A" sample.db (Some Redis.Client)
            sample.empty_redis).1 = 500%Z.
Proof.
  apply (comparison_with_itself sample.db Redis.Client "A" sample.empty_redis
           (sample.channel "A" 0) (sample.response "A" 0));
    reflexivity.
Defined.

(** ** The channel listing *)

Section listing.

Import DataService.

Lemma channel_response_inv (row : Channel.t) (c : ChannelResponse.t) :
  channel_response row = Return c ->
  ChannelResponse.channel_key c = Channel.channel_key row
  /\ Channel.channel_name row = Some (ChannelResponse.channel_name c)
  /\ Channel.total_posts row = Some (ChannelResponse.total_posts c).
Proof.
  unfold channel_response.
  destruct (Channel.channel_name row); [| discriminate].
  destruct (Channel.channel_type row); [| discriminate].
  destruct (Channel.total_posts row); [| discriminate].
  destruct (Channel.avg_views row); [| discriminate].
  destruct (Channel.image_percentage row); [| discriminate].
  destruct (Channel.activity_status row); [| discriminate].
  cbn [bind required]. intros [= <-]. simpl. auto.
Qed.

Lemma channel_response_complete (row : Channel.t) :
  complete row = true -> exists c, channel_response row = Return c.
Proof.
  unfold complete, channel_response. intros Hrow.
  repeat (apply andb_true_iff in Hrow as [Hrow ?]).
  repeat match goal with
         | H : bool_decide (is_Some _) = true |- _ =>
             apply bool_decide_eq_true in H as [? ->]
         end.
  cbn [bind required]. eauto.
Qed.

Lemma channel_response_incomplete (row : Channel.t) :
  complete row = false ->
  exists field, channel_response row = Raise (Error "ValidationError" field).
Proof.
  unfold complete, channel_response. intros Hrow.
  destruct (Channel.channel_name row); [| cbn; eauto].
  destruct (Channel.channel_type row); [| cbn; eauto].
  destruct (Channel.total_posts row); [| cbn; eauto].
  destruct (Channel.avg_views row); [| cbn; eauto].
  destruct (Channel.image_percentage row); [| cbn; eauto].
  destruct (Channel.activity_status row); [| cbn; eauto].
  exfalso. revert Hrow.
  rewrite !bool_decide_eq_true_2 by eauto. discriminate.
Qed.

Lemma channel_response_raises (row : Channel.t) (e : exn) :
  channel_response row = Raise e ->
  exists field, e = Error "ValidationError" field.
Proof.
  destruct (complete row) eqn:Hrow.
  - destruct (channel_response_complete row Hrow) as [c ->]. discriminate.
  - destruct (channel_response_incomplete row Hrow) as [field ->].
    intros [= <-]. eauto.
Qed.

Lemma order_by_desc_permutation {A} (col : A -> option Z) (rows : list A) :
  order_by_desc col rows ≡ₚ rows.
Proof.
  unfold order_by_desc. rewrite sorted_desc_permutation.
  apply filter_app_complement.
Qed.

Lemma mapM_raises {A B} (f : A -> except B) (P : exn -> Prop) (l : list A) :
  (forall a e, f a = Raise e -> P e) ->
  Exists (fun a => exists e, f a = Raise e) l ->
  exists e, mapM f l = Raise e /\ P e.
Proof.
  intros HP. induction 1 as [a l [e He] | a l _ IH]; cbn [mapM].
  - rewrite He. cbn [bind]. eauto.
  - destruct (f a) as [b | e] eqn:Ha; cbn [bind]; [| eauto].
    destruct IH as (e & -> & He). cbn [bind]. eauto.
Qed.

End listing.

(** X15.  With the database reachable, every channel row complete and
    nothing to serve from the cache, [get_all_channels] returns every
    channel of the table exactly once, in non-increasing order of total
    posts. *)
Theorem channel_listing (self : DataService.t) (r : Redis.t) :
  Session.connected (DataService.db self) = true ->
  Forall (fun row => complete row = true)
    (Session.dim_channels (DataService.db self)) ->
  miss self "channels:all" r = true ->
  exists cs,
    (DataService.get_all_channels self r).1
    = Return (VList (map (fun c => VModel (MChannel c)) cs))
    /\ ChannelResponse.channel_key <$> cs
       ≡ₚ Channel.channel_key <$> Session.dim_channels (DataService.db self)
    /\ StronglySorted
         (fun a b =>
            ChannelResponse.total_posts b <= ChannelResponse.total_posts a)%Z
         cs
    /\ Forall (fun c =>
                 exists row,
                   row ∈ Session.dim_channels (DataService.db self)
                   /\ DataService.channel_response row = Return c) cs.
Proof.
  intros Hdb Hcomplete Hmiss.
  rewrite get_all_channels_miss by exact Hmiss.
  unfold DataService.all_channels, Session.execute. rewrite Hdb. cbn [bind].
  set (rows := order_by_desc Channel.total_posts
                 (Session.dim_channels (DataService.db self))).
  assert (rows ≡ₚ Session.dim_channels (DataService.db self)) as Hperm
    by apply order_by_desc_permutation.
  destruct (mapM_returns DataService.channel_response rows) as [cs Hcs].
  { rewrite Hperm. eapply Forall_impl; [exact Hcomplete |].
    intros row. apply channel_response_complete. }
  rewrite Hcs. cbn [bind]. exists cs. split; [reflexivity |].
  pose proof (mapM_Forall2 _ _ _ Hcs) as Hall.
  split; [| split].
  - rewrite <- Hperm.
    rewrite (Forall2_fmap_eq _ Channel.channel_key
               ChannelResponse.channel_key _ _ Hall); [reflexivity |].
    intros row c Hc. apply channel_response_inv in Hc. tauto.
  - apply (Forall2_keys _ (fun row => default 0%Z (Channel.total_posts row))
             ChannelResponse.total_posts _ _ Hall).
    + intros row c Hc. apply channel_response_inv in Hc as (_ & _ & ->).
      reflexivity.
    + rewrite <- (take_ge rows (length rows)) by lia.
      apply order_by_desc_sorted.
      rewrite take_ge by (fold rows; lia). fold rows.
      rewrite Hperm. eapply Forall_impl; [exact Hcomplete |].
      intros row Hrow.
      destruct (channel_response_complete row Hrow) as [c Hc].
      apply channel_response_inv in Hc as (_ & _ & ->). discriminate.
  - apply Forall_forall. intros c Hc.
    destruct (Forall2_elem_r _ _ _ _ Hall Hc) as (row & Hrow & Hresponse).
    exists row. split; [| exact Hresponse].
    rewrite <- Hperm. exact Hrow.
Qed.

Lemma channel_listing_sample :
  exists cs,
    (DataService.get_all_channels
       (DataService.new sample.db (Some Redis.Client)) sample.empty_redis).1
    = Return (VList (map (fun c => VModel (MChannel c)) cs))
    /\ ChannelResponse.channel_key <$> cs
       ≡ₚ Channel.channel_key <$> Session.dim_channels sample.db
    /\ StronglySorted
         (fun a b =>
            ChannelResponse.total_posts b <= ChannelResponse.total_posts a)%Z
         cs
    /\ Forall (fun c =>
                 exists row,
                   row ∈ Session.dim_channels sample.db
                   /\ DataService.channel_response row = Return c) cs.
Proof.
  apply (channel_listing (DataService.new sample.db (Some Redis.Client))
           sample.empty_redis).
  - reflexivity.
  - repeat constructor.
  - reflexivity.
Defined.

(** X16.  One channel row with a NULL in a column [ChannelResponse]
    requires makes the whole listing fail with a validation error, and
    nothing is stored. *)
Theorem channel_listing_incomplete_row (self : DataService.t) (r : Redis.t) :
  Session.connected (DataService.db self) = true ->
  Exists (fun row => complete row = false)
    (Session.dim_channels (DataService.db self)) ->
  miss self "channels:all" r = true ->
  exists field,
    DataService.get_all_channels self r
    = (Raise (Error "ValidationError" field), r).
Proof.
  intros Hdb Hrow Hmiss.
  unfold DataService.get_all_channels. cbv zeta.
  rewrite miss_falls_through by exact Hmiss.
  unfold await, lift.
  unfold DataService.all_channels, Session.execute. rewrite Hdb. cbn [bind].
  destruct (mapM_raises DataService.channel_response
              (fun e => exists field, e = Error "ValidationError" field)
              (order_by_desc Channel.total_posts
                 (Session.dim_channels (DataService.db self))))
    as (e & -> & field & ->).
  - apply channel_response_raises.
  - rewrite order_by_desc_permutation.
    eapply Exists_impl; [exact Hrow |]. intros row Hincomplete.
    destruct (channel_response_incomplete row Hincomplete) as [field ->].
    eauto.
  - exists field. reflexivity.
Qed.

Lemma channel_listing_incomplete_row_sample :
  exists field,
    DataService.get_all_channels
      (DataService.new
         (with_channels
            [sample.channel "A" 0; channel_without_statistics "C"] sample.db)
         (Some Redis.Client)) sample.empty_redis
    = (Raise (Error "ValidationError" field), sample.empty_redis).
Proof.
  apply channel_listing_incomplete_row.
  - reflexivity.
  - apply Exists_cons_tl, Exists_cons_hd. reflexivity.
  - reflexivity.
Defined.

(** ** The filters of the channel route *)

Section filters.

Lemma comprehension_models (attribute : string)
    (test : ChannelResponse.t -> bool) (cs : list ChannelResponse.t) :
  comprehension attribute test (map (fun c => VModel (MChannel c)) cs)
  = Return (map (fun c => VModel (MChannel c)) (List.filter test cs)).
Proof.
  induction cs as [| c cs IH]; [reflexivity |].
  cbn [map comprehension as_channel bind List.filter]. rewrite IH.
  cbn [bind]. destruct (test c); reflexivity.
Qed.

Lemma select_models (attribute : string) (test : ChannelResponse.t -> bool)
    (cs : list ChannelResponse.t) :
  select attribute test (VList (map (fun c => VModel (MChannel c)) cs))
  = Return (VList (map (fun c => VModel (MChannel c)) (List.filter test cs))).
Proof. unfold select. rewrite comprehension_models. reflexivity. Qed.

Lemma filter_twice {A} (f g : A -> bool) (l : list A) :
  List.filter g (List.filter f l) = List.filter (fun a => f a && g a) l.
Proof.
  induction l as [| a l IH]; [reflexivity |]. cbn [List.filter].
  destruct (f a); cbn [List.filter andb]; rewrite IH; reflexivity.
Qed.

Lemma filter_same {A} (f g : A -> bool) (l : list A) :
  (forall a, f a = g a) -> List.filter f l = List.filter g l.
Proof.
  intros Hfg. induction l as [| a l IH]; [reflexivity |]. cbn [List.filter].
  rewrite Hfg, IH. reflexivity.
Qed.

Lemma filter_all {A} (f : A -> bool) (l : list A) :
  (forall a, f a = true) -> List.filter f l = l.
Proof.
  intros Hf. induction l as [| a l IH]; [reflexivity |]. cbn [List.filter].
  rewrite Hf, IH. reflexivity.
Qed.

(** One optional filter of the route, on a list of channel objects. *)
Lemma filter_step (set : bool) (attribute : string)
    (test : ChannelResponse.t -> bool) (cs : list ChannelResponse.t)
    (r : Redis.t) :
  (if set
   then lift (select attribute test
                (VList (map (fun c => VModel (MChannel c)) cs)))
   else ret (VList (map (fun c => VModel (MChannel c)) cs))) r
  = (Return (VList (map (fun c => VModel (MChannel c))
                      (List.filter (fun c => if set then test c else true)
                         cs))), r).
Proof.
  destruct set.
  - unfold lift. rewrite select_models. reflexivity.
  - rewrite filter_all by reflexivity. reflexivity.
Qed.

Lemma listing_of_models (channel_type : option string) (min_posts : option Z)
    (active_only : bool) (db : Session.t)
    (redis_client : option Redis.client) (cs : list ChannelResponse.t)
    (r r' : Redis.t) :
  DataService.get_all_channels (DataService.new db redis_client) r
  = (Return (VList (map (fun c => VModel (MChannel c)) cs)), r') ->
  channels.get_all_channels channel_type min_posts active_only db
    redis_client r
  = (Return (VList (map (fun c => VModel (MChannel c))
                      (List.filter (listed channel_type min_posts active_only)
                         cs))), r').
Proof.
  intros Hservice.
  unfold channels.get_all_channels, guarded. cbv zeta.
  unfold await at 1. rewrite Hservice.
  assert (forall ty,
            channel_type = Some ty ->
            default EmptyString channel_type = ty) as Hty
    by (intros ty ->; reflexivity).
  unfold await at 1.
  replace (match channel_type with
           | Some ty =>
               if negb (String.eqb ty "")
               then lift (select "channel_type"
                            (fun c =>
                               String.eqb (ChannelResponse.channel_type c) ty)
                            (VList (map (fun c => VModel (MChannel c)) cs)))
               else ret (VList (map (fun c => VModel (MChannel c)) cs))
           | None => ret (VList (map (fun c => VModel (MChannel c)) cs))
           end r')
    with ((if given channel_type
           then lift (select "channel_type"
                        (fun c =>
                           String.eqb (ChannelResponse.channel_type c)
                             (default EmptyString channel_type))
                        (VList (map (fun c => VModel (MChannel c)) cs)))
           else ret (VList (map (fun c => VModel (MChannel c)) cs))) r')
    by (destruct channel_type; reflexivity).
  rewrite filter_step.
  unfold await at 1.
  match goal with
  | |- context [List.filter ?f cs] => set (typed := List.filter f cs)
  end.
  replace (match min_posts with
           | Some n =>
               if negb (n =? 0)%Z
               then lift (select "total_posts"
                            (fun c => (n <=? ChannelResponse.total_posts c)%Z)
                            (VList (map (fun c => VModel (MChannel c)) typed)))
               else ret (VList (map (fun c => VModel (MChannel c)) typed))
           | None => ret (VList (map (fun c => VModel (MChannel c)) typed))
           end r')
    with ((if match min_posts with
              | Some n => negb (n =? 0)%Z
              | None => false
              end
           then lift (select "total_posts"
                        (fun c =>
                           (default 0%Z min_posts
                            <=? ChannelResponse.total_posts c)%Z)
                        (VList (map (fun c => VModel (MChannel c)) typed)))
           else ret (VList (map (fun c => VModel (MChannel c)) typed))) r')
    by (destruct min_posts as [n |]; reflexivity).
  rewrite filter_step.
  rewrite filter_step. cbn [try_except].
  unfold typed. rewrite !filter_twice.
  do 4 f_equal. apply filter_same. intros c. unfold listed.
  rewrite andb_assoc.
  destruct min_posts as [n |]; [destruct (negb (n =? 0)%Z) |]; reflexivity.
Qed.

Lemma listed_spec (channel_type : option string) (min_posts : option Z)
    (active_only : bool) (c : ChannelResponse.t) :
  listed channel_type min_posts active_only c = true <->
  (forall ty, channel_type = Some ty -> ty <> EmptyString ->
     ChannelResponse.channel_type c = ty)
  /\ (forall n, min_posts = Some n -> n <> 0%Z ->
        (n <= ChannelResponse.total_posts c)%Z)
  /\ (active_only = true -> ChannelResponse.activity_status c = "Active").
Proof.
  unfold listed, given. rewrite !andb_true_iff.
  assert ((if match channel_type with
              | Some s => negb (String.eqb s EmptyString)
              | None => false
              end
           then String.eqb (ChannelResponse.channel_type c)
                  (default EmptyString channel_type)
           else true) = true
          <-> (forall ty, channel_type = Some ty -> ty <> EmptyString ->
                 ChannelResponse.channel_type c = ty)) as ->.
  { destruct channel_type as [ty |]; [| split; [intros _ ? [=] | reflexivity]].
    destruct (String.eqb_spec ty EmptyString) as [-> | Hne]; cbn [negb default].
    - split; [intros _ ? [= <-] []; reflexivity | reflexivity].
    - rewrite String.eqb_eq. split; [intros -> ? [= <-] _; reflexivity |].
      intros H. apply H; [reflexivity | exact Hne]. }
  assert (match min_posts with
          | Some n =>
              if negb (n =? 0)%Z
              then (n <=? ChannelResponse.total_posts c)%Z
              else true
          | None => true
          end = true
          <-> (forall n, min_posts = Some n -> n <> 0%Z ->
                 (n <= ChannelResponse.total_posts c)%Z)) as ->.
  { destruct min_posts as [n |]; [| split; [intros _ ? [=] | reflexivity]].
    destruct (Z.eqb_spec n 0) as [-> | Hne]; cbn [negb].
    - split; [intros _ ? [= <-] []; reflexivity | reflexivity].
    - rewrite Z.leb_le. split; [intros H ? [= <-] _; exact H |].
      intros H. apply H; [reflexivity | exact Hne]. }
  assert ((if active_only
           then String.eqb (ChannelResponse.activity_status c) "Active"
           else true) = true
          <-> (active_only = true ->
               ChannelResponse.activity_status c = "Active")) as ->.
  { destruct active_only; [rewrite String.eqb_eq; tauto |].
    split; [discriminate | reflexivity]. }
  tauto.
Qed.

Lemma filter_sublist {A} (f : A -> bool) (l : list A) :
  List.filter f l `sublist_of` l.
Proof.
  induction l as [| a l IH]; [constructor |]. cbn [List.filter].
  destruct (f a); [apply sublist_skip | apply sublist_cons]; exact IH.
Qed.

End filters.

(** X17.  On a list of channel objects, as the service computes it, the
    channel route returns the channels that pass every filter the request
    sets, in the order of the list; a filter that is not set, an empty
    type and a minimum of 0 exclude nothing. *)
Theorem channel_filters (channel_type : option string) (min_posts : option Z)
    (active_only : bool) (db : Session.t)
    (redis_client : option Redis.client) (cs : list ChannelResponse.t)
    (r r' : Redis.t) :
  DataService.get_all_channels (DataService.new db redis_client) r
  = (Return (VList (map (fun c => VModel (MChannel c)) cs)), r') ->
  exists kept,
    channels.get_all_channels channel_type min_posts active_only db
      redis_client r
    = (Return (VList (map (fun c => VModel (MChannel c)) kept)), r')
    /\ kept `sublist_of` cs
    /\ forall c,
         c ∈ kept <->
         c ∈ cs
         /\ (forall ty, channel_type = Some ty -> ty <> EmptyString ->
               ChannelResponse.channel_type c = ty)
         /\ (forall n, min_posts = Some n -> n <> 0%Z ->
               (n <= ChannelResponse.total_posts c)%Z)
         /\ (active_only = true ->
               ChannelResponse.activity_status c = "Active").
Proof.
  intros Hservice.
  exists (List.filter (listed channel_type min_posts active_only) cs).
  split; [apply listing_of_models, Hservice |].
  split; [apply filter_sublist |].
  intros c. rewrite !list_elem_of_In, filter_In, listed_spec. reflexivity.
Qed.

Lemma channel_filters_sample :
  exists kept,
    channels.get_all_channels (Some "Pharmaceutical") (Some 5%Z) true
      sample.db (Some Redis.Client) sample.empty_redis
    = (Return (VList (map (fun c => VModel (MChannel c)) kept)),
       (DataService.get_all_channels
          (DataService.new sample.db (Some Redis.Client))
          sample.empty_redis).2)
    /\ kept `sublist_of` [sample.response "B" 7; sample.response "A" 0]
    /\ forall c,
         c ∈ kept <->
         c ∈ [sample.response "B" 7; sample.response "A" 0]
         /\ (forall ty, Some "Pharmaceutical" = Some ty -> ty <> EmptyString ->
               ChannelResponse.channel_type c = ty)
         /\ (forall n, Some 5%Z = Some n -> n <> 0%Z ->
               (n <= ChannelResponse.total_posts c)%Z)
         /\ (true = true -> ChannelResponse.activity_status c = "Active").
Proof.
  apply channel_filters. vm_compute. reflexivity.
Defined.

Lemma loads_dumps_channels (cs : list ChannelResponse.t) :
  loads (dumps (VList (map (fun c => VModel (MChannel c)) cs)))
  = VList (map (fun c => VStr (StrOf (MChannel c))) cs).
Proof.
  simpl. f_equal. induction cs as [| c cs IH]; [reflexivity |].
  simpl. rewrite IH. reflexivity.
Qed.

(** X18.  With a reachable Redis server and a non-empty channel table,
    a request for the channel listing that sets a filter is answered the
    first time and fails with 500 once the listing is cached: the first
    filter set reads its attribute from the stored text of a channel, a
    [str], and the detail of the answer is the text of that
    [AttributeError]. *)
Theorem filtered_listing_fails_when_cached (db : Session.t)
    (c : Redis.client) (r : Redis.t) (channel_type : option string)
    (min_posts : option Z) (active_only : bool)
    (ch : ChannelResponse.t) (chs : list ChannelResponse.t) :
  Redis.reachable r = true ->
  miss (DataService.new db (Some c)) "channels:all" r = true ->
  DataService.all_channels (DataService.new db (Some c))
  = Return (VList (map (fun c => VModel (MChannel c)) (ch :: chs))) ->
  filtering channel_type min_posts active_only = true ->
  let first :=
    channels.get_all_channels channel_type min_posts active_only db (Some c)
      r in
  let second :=
    channels.get_all_channels channel_type min_posts active_only db (Some c)
      first.2 in
  status first.1 = 200%Z
  /\ second.1
     = Raise (HTTPException 500
                ("'str' object has no attribute '"
                 +:+ first_filter channel_type min_posts +:+ "'"))
  /\ status second.1 = 500%Z.
Proof.
  intros Hup Hmiss Hall Hfilter first second.
  set (r1 := {| Redis.reachable := true;
                Redis.clock := Redis.clock r;
                Redis.entries :=
                  <["channels:all" :=
                      {| Redis.expires_at := Redis.clock r + 300;
                         Redis.content :=
                           Redis.Text
                             (dumps (VList
                                (map (fun c => VModel (MChannel c))
                                   (ch :: chs)))) |}]>
                    (Redis.entries r) |}).
  assert (DataService.get_all_channels (DataService.new db (Some c)) r
          = (Return (VList (map (fun c => VModel (MChannel c)) (ch :: chs))),
             r1)) as Hservice.
  { unfold DataService.get_all_channels. cbv zeta.
    rewrite miss_falls_through by exact Hmiss.
    unfold await, lift, ret. rewrite Hall.
    unfold DataService.set_cached, Redis.setex. simpl DataService.redis.
    rewrite Hup. reflexivity. }
  assert (first
          = (Return (VList (map (fun c => VModel (MChannel c))
                              (List.filter
                                 (listed channel_type min_posts active_only)
                                 (ch :: chs)))), r1)) as Hfirst
    by (apply listing_of_models, Hservice).
  split; [rewrite Hfirst; reflexivity |].
  assert (DataService.get_all_channels (DataService.new db (Some c)) r1
          = (Return (VList (map (fun c => VStr (StrOf (MChannel c)))
                              (ch :: chs))), r1)) as Hcached.
  { unfold DataService.get_all_channels, await. cbv zeta.
    unfold DataService.get_cached, Redis.get. simpl DataService.redis.
    unfold r1 at 1 2 3. simpl Redis.reachable. simpl Redis.entries.
    rewrite lookup_insert_eq. simpl Redis.clock. simpl Redis.expires_at.
    destruct (Z.leb_spec (Redis.clock r) (Redis.clock r + 300)); [| lia].
    rewrite <- loads_dumps_channels. reflexivity. }
  assert (second.1
          = Raise (HTTPException 500
                     ("'str' object has no attribute '"
                      +:+ first_filter channel_type min_posts +:+ "'")))
    as Hsecond.
  { unfold second. rewrite Hfirst. cbn [snd].
    unfold channels.get_all_channels, guarded. cbv zeta.
    unfold await at 1. rewrite Hcached.
    unfold filtering, given in Hfilter. unfold first_filter, given.
    destruct channel_type as [ty |];
      [destruct (String.eqb ty "") eqn:Hty |];
      (destruct min_posts as [n |]; [destruct (n =? 0)%Z eqn:Hn |]);
      destruct active_only;
      cbn in Hfilter; try discriminate Hfilter; reflexivity. }
  split; [exact Hsecond | rewrite Hsecond; reflexivity].
Qed.

Lemma filtered_listing_fails_when_cached_sample :
  let first :=
    channels.get_all_channels None None true sample.db (Some Redis.Client)
      sample.empty_redis in
  let second :=
    channels.get_all_channels None None true sample.db (Some Redis.Client)
      first.2 in
  status first.1 = 200%Z
  /\ second.1
     = Raise (HTTPException 500
                ("'str' object has no attribute '"
                 +:+ first_filter None None +:+ "'"))
  /\ status second.1 = 500%Z.
Proof.
  apply (filtered_listing_fails_when_cached sample.db Redis.Client
           sample.empty_redis None None true (sample.response "B" 7)
           [sample.response "A" 0]).
  - reflexivity.
  - reflexivity.
  - vm_compute. reflexivity.
  - reflexivity.
Defined.

(** ** Single messages and popular messages *)

(** X19.  [get_message] answers 500 to every request, whatever the
    warehouse holds: its statement is handed to the session as a plain
    [str], which the session refuses, so the route never reaches its 404
    for a missing message nor its 400 for an ambiguous id.  The detail is
    the text of the refusal, of the statement with the channel condition
    when a channel name is given. *)
Theorem message_route_always_fails (message_id : Z)
    (channel_name : option string) (db : Session.t) :
  messages.get_message message_id channel_name db
  = Raise (HTTPException 500
             (Session.refusal db
                (if given channel_name
                 then messages.message_query
                      +:+ " AND dc.channel_name = :channel_name"
                 else messages.message_query)))
  /\ status (messages.get_message message_id channel_name db) = 500%Z.
Proof.
  unfold messages.get_message, Session.execute_str. cbv zeta.
  cbn [bind try_except_http exn_str status]. split; reflexivity.
Qed.

(** X20.  [get_popular_messages] answers 400, with the detail "Invalid
    timeframe", exactly for a timeframe other than day, week and month;
    for these three it answers 500, the session refusing the statement,
    a plain [str].  It never answers 200. *)
Theorem popular_messages_status (timeframe : string) (limit : Z)
    (db : Session.t) :
  let out := messages.get_popular_messages timeframe limit db in
  (timeframe ∉ ["day"; "week"; "month"] ->
   out = Raise (HTTPException 400 "Invalid timeframe"))
  /\ (timeframe ∈ ["day"; "week"; "month"] ->
      out = Raise (HTTPException 500
                     (Session.refusal db messages.popular_query)))
  /\ (status out = 400%Z <-> timeframe ∉ ["day"; "week"; "month"])
  /\ (status out = 400%Z \/ status out = 500%Z).
Proof.
  intros out. unfold out. clear out.
  assert (timeframe ∈ ["day"; "week"; "month"]
          \/ timeframe ∉ ["day"; "week"; "month"]) as [Hin | Hout]
    by (destruct (decide (timeframe ∈ ["day"; "week"; "month"])); auto).
  - assert (messages.get_popular_messages timeframe limit db
            = Raise (HTTPException 500
                       (Session.refusal db messages.popular_query))) as ->.
    { repeat (apply elem_of_cons in Hin as [-> | Hin]);
        [reflexivity .. | inversion Hin]. }
    split; [intros Hout; contradiction |]. split; [reflexivity |].
    split; [| auto]. split; [discriminate | intros Hout; contradiction].
  - assert (messages.get_popular_messages timeframe limit db
            = Raise (HTTPException 400 "Invalid timeframe")) as ->.
    { unfold messages.get_popular_messages.
      assert (String.eqb timeframe "day" = false) as ->.
      { apply String.eqb_neq. intros ->. apply Hout. repeat constructor. }
      assert (String.eqb timeframe "week" = false) as ->.
      { apply String.eqb_neq. intros ->. apply Hout. repeat constructor. }
      assert (String.eqb timeframe "month" = false) as ->.
      { apply String.eqb_neq. intros ->. apply Hout. repeat constructor. }
      reflexivity. }
    split; [reflexivity |]. split; [intros Hin; contradiction |].
    split; [| auto]. split; [intros _; exact Hout | reflexivity].
Qed.

Lemma popular_messages_status_sample :
  let out := messages.get_popular_messages "year" 10 sample.db in
  ("year" ∉ ["day"; "week"; "month"] ->
   out = Raise (HTTPException 400 "Invalid timeframe"))
  /\ ("year" ∈ ["day"; "week"; "month"] ->
      out = Raise (HTTPException 500
                     (Session.refusal sample.db messages.popular_query)))
  /\ (status out = 400%Z <-> "year" ∉ ["day"; "week"; "month"])
  /\ (status out = 400%Z \/ status out = 500%Z).
Proof. exact (popular_messages_status "year" 10 sample.db). Defined.

(** ** The API key *)

Section split_facts.

Lemma split_nonempty (sep : ascii) (s : string) : split sep s <> [].
Proof.
  destruct s as [| c rest]; cbn [split]; [discriminate |].
  destruct (Ascii.eqb c sep); [discriminate |].
  destruct (split sep rest); discriminate.
Qed.

(** No piece of [s.split(sep)] holds the separator. *)
Lemma split_piece (sep : ascii) (s piece : string) :
  piece ∈ split sep s -> contains (String sep EmptyString) piece = false.
Proof.
  revert piece. induction s as [| c rest IH]; intros piece; cbn [split].
  - intros ->%list_elem_of_singleton. reflexivity.
  - destruct (Ascii.eqb_spec c sep) as [-> | Hne].
    + intros [-> | Hin]%elem_of_cons; [reflexivity | apply IH, Hin].
    + destruct (split sep rest) as [| first pieces] eqn:Hsplit.
      { exfalso. exact (split_nonempty sep rest Hsplit). }
      intros [-> | Hin]%elem_of_cons.
      * cbn [contains String.prefix].
        destruct (Ascii.ascii_dec sep c) as [<- | _]; [congruence |].
        cbn [orb]. apply IH. apply elem_of_cons. auto.
      * apply IH. apply elem_of_cons. auto.
Qed.

End split_facts.

(** X21.  In production, [validate_api_key] accepts a request only with a
    non-empty key that is one of the comma-separated pieces of [API_KEYS],
    so never a key holding a comma; every other request is refused with
    401, and with [API_KEYS] unset every request is. *)
Theorem api_key_in_production (env : dependencies.environ)
    (x_api_key : option string) :
  dependencies.ENVIRONMENT env = Some "production" ->
  let out := dependencies.validate_api_key env x_api_key in
  (out = Return true
   \/ out = Raise (HTTPException 401 "Invalid or missing API key"))
  /\ (out = Return true ->
      exists key,
        x_api_key = Some key
        /\ key <> EmptyString
        /\ key ∈ split "," (default EmptyString (dependencies.API_KEYS env))
        /\ contains "," key = false)
  /\ (dependencies.API_KEYS env = None ->
      out = Raise (HTTPException 401 "Invalid or missing API key")).
Proof.
  intros Hproduction out. unfold out, dependencies.validate_api_key.
  rewrite bool_decide_eq_true_2 by exact Hproduction.
  destruct x_api_key as [key |]; cbn [given default from_option id negb orb].
  - destruct (String.eqb_spec key EmptyString) as [-> | Hkey];
      cbn [negb orb].
    + split; [auto |]. split; [discriminate | reflexivity].
    + destruct (bool_decide_reflect
                  (key ∈ split ","
                           (default EmptyString (dependencies.API_KEYS env))))
        as [Hin | Hout]; cbn [negb].
      * split; [auto |]. split.
        -- intros _. exists key. split; [reflexivity |].
           split; [exact Hkey |]. split; [exact Hin |].
           exact (split_piece _ _ _ Hin).
        -- intros Hunset. exfalso. rewrite Hunset in Hin. cbn in Hin.
           apply list_elem_of_singleton in Hin. contradiction.
      * split; [auto |]. split; [discriminate | reflexivity].
  - split; [auto |]. split; [discriminate | reflexivity].
Qed.

Lemma api_key_in_production_sample :
  let out :=
    dependencies.validate_api_key
      {| dependencies.ENVIRONMENT := Some "production";
         dependencies.API_KEYS := Some "alpha,beta" |} (Some "beta") in
  (out = Return true
   \/ out = Raise (HTTPException 401 "Invalid or missing API key"))
  /\ (out = Return true ->
      exists key,
        Some "beta" = Some key
        /\ key <> EmptyString
        /\ key ∈ split "," (default EmptyString (Some "alpha,beta"))
        /\ contains "," key = false)
  /\ (Some "alpha,beta" = None ->
      out = Raise (HTTPException 401 "Invalid or missing API key")).
Proof.
  apply (api_key_in_production
           {| dependencies.ENVIRONMENT := Some "production";
              dependencies.API_KEYS := Some "alpha,beta" |} (Some "beta")).
  reflexivity.
Defined.

(** ** The cache warm-up *)

Section warm_up.

Context (self : DataService.t) (c : Redis.client).

Lemma warm_up_returns (r : Redis.t) :
  (DataService.initialize_cache c r).1 = Return tt.
Proof.
  unfold DataService.initialize_cache.
  destruct (Redis.setex r _ _ _); reflexivity.
Qed.

Lemma warm_up_read (key : string) (r : Redis.t) :
  key <> "init:health_check" ->
  (DataService.get_cached self key (DataService.initialize_cache c r).2).1
  = (DataService.get_cached self key r).1.
Proof.
  intros Hne. unfold DataService.initialize_cache, Redis.setex.
  destruct (Redis.reachable r) eqn:Hup; [| reflexivity].
  simpl. unfold DataService.get_cached, Redis.get.
  destruct (DataService.redis self); [| reflexivity]. simpl.
  rewrite Hup, lookup_insert_ne by (intros Heq; apply Hne; rewrite <- Heq;
                                    reflexivity).
  destruct (Redis.entries r !! key) as [e |]; [| reflexivity].
  destruct (Redis.clock r <=? Redis.expires_at e)%Z; [| reflexivity].
  destruct (Redis.truthy_data (Redis.content e)); [| reflexivity].
  destruct (Redis.json_loads (Redis.content e)); reflexivity.
Qed.

(** What a cache-aside method answers depends on the server only through
    what the lookup of its key returns. *)
Lemma cache_aside_outcome (key : string) (body : cached value)
    (r r' : Redis.t) :
  (DataService.get_cached self key r).1
  = (DataService.get_cached self key r').1 ->
  (body r).1 = (body r').1 ->
  (await (DataService.get_cached self key)
     (fun cached => if truthy cached then ret cached else body) r).1
  = (await (DataService.get_cached self key)
       (fun cached => if truthy cached then ret cached else body) r').1.
Proof.
  unfold await.
  destruct (get_cached_total self key r) as [v ->].
  destruct (get_cached_total self key r') as [v' ->].
  cbn [fst]. intros [= <-] Hbody.
  destruct (truthy v); [reflexivity | exact Hbody].
Qed.

Lemma store_outcome (key : string) (compute : except value) (r r' : Redis.t) :
  (await (lift compute)
     (fun result =>
        await (DataService.set_cached self key result)
          (fun _ => ret result)) r).1
  = (await (lift compute)
       (fun result =>
          await (DataService.set_cached self key result)
            (fun _ => ret result)) r').1.
Proof. rewrite !store_and_return. reflexivity. Qed.

Lemma lookup_outcome (channel_name key : string) (r r' : Redis.t) :
  (DataService.lookup_channel self channel_name key r).1
  = (DataService.lookup_channel self channel_name key r').1.
Proof.
  unfold DataService.lookup_channel, await, lift, ret.
  destruct (DataService.first_channel_named self channel_name)
    as [[channel |] | e]; [| reflexivity ..].
  destruct (DataService.channel_response channel) as [found | e];
    [| reflexivity].
  destruct (set_cached_total self key (VModel (MChannel found)) r)
    as (b & r1 & ->).
  destruct (set_cached_total self key (VModel (MChannel found)) r')
    as (b' & r1' & ->).
  reflexivity.
Qed.

Lemma activity_outcome (channel_name : string) (days : Z) (key : string)
    (r r' : Redis.t) :
  (DataService.get_channel_by_name self channel_name r).1
  = (DataService.get_channel_by_name self channel_name r').1 ->
  (DataService.activity_of_channel self channel_name days key r).1
  = (DataService.activity_of_channel self channel_name days key r').1.
Proof.
  unfold DataService.activity_of_channel, await.
  destruct (DataService.get_channel_by_name self channel_name r)
    as [[channel | e] r1];
    destruct (DataService.get_channel_by_name self channel_name r')
      as [[channel' | e'] r1']; cbn [fst]; intros [= <-]; [| reflexivity].
  destruct (negb (truthy channel)); [reflexivity |].
  unfold lift, ret.
  destruct (Session.execute _ _) as [result | e]; [| reflexivity].
  destruct (mapM DataService.channel_activity result) as [activity | e];
    [| reflexivity].
  destruct (set_cached_total self key
              (VList (map (fun a => VModel (MActivity a)) activity)) r1)
    as (b & r2 & ->).
  destruct (set_cached_total self key
              (VList (map (fun a => VModel (MActivity a)) activity)) r1')
    as (b' & r2' & ->).
  reflexivity.
Qed.

Lemma channel_outcome (channel_name : string) (r : Redis.t) :
  (DataService.get_channel_by_name self channel_name
     (DataService.initialize_cache c r).2).1
  = (DataService.get_channel_by_name self channel_name r).1.
Proof.
  unfold DataService.get_channel_by_name. cbv zeta.
  apply cache_aside_outcome; [| apply lookup_outcome].
  apply warm_up_read. discriminate.
Qed.

End warm_up.

(** X22.  The cache warm-up never raises, and it changes no answer of the
    service: every read method returns or raises after the warm-up what
    it would have returned or raised without it. *)
Theorem warm_up_changes_no_answer (self : DataService.t) (c : Redis.client)
    (r : Redis.t) :
  let warm := (DataService.initialize_cache c r).2 in
  (DataService.initialize_cache c r).1 = Return tt
  /\ (DataService.get_all_channels self warm).1
     = (DataService.get_all_channels self r).1
  /\ (forall channel_name,
        (DataService.get_channel_by_name self channel_name warm).1
        = (DataService.get_channel_by_name self channel_name r).1)
  /\ (forall channel_name days,
        (DataService.get_channel_activity self channel_name days warm).1
        = (DataService.get_channel_activity self channel_name days r).1)
  /\ (forall query channel_name start_date end_date has_images min_views
        limit,
        (DataService.search_messages self query channel_name start_date
           end_date has_images min_views limit warm).1
        = (DataService.search_messages self query channel_name start_date
             end_date has_images min_views limit r).1)
  /\ (forall limit days,
        (DataService.get_top_products self limit days warm).1
        = (DataService.get_top_products self limit days r).1)
  /\ (DataService.get_visual_content_stats self warm).1
     = (DataService.get_visual_content_stats self r).1
  /\ (forall days,
        (DataService.get_engagement_metrics self days warm).1
        = (DataService.get_engagement_metrics self days r).1).
Proof.
  intros warm. unfold warm.
  split; [apply warm_up_returns |].
  split.
  { unfold DataService.get_all_channels. cbv zeta.
    apply cache_aside_outcome; [| apply store_outcome].
    apply warm_up_read. discriminate. }
  split; [intros; apply channel_outcome |].
  split.
  { intros. unfold DataService.get_channel_activity. cbv zeta.
    apply cache_aside_outcome.
    - apply warm_up_read. discriminate.
    - apply activity_outcome, channel_outcome. }
  split.
  { intros. unfold DataService.search_messages. cbv zeta.
    apply cache_aside_outcome; [| apply store_outcome].
    apply warm_up_read. discriminate. }
  split.
  { intros. unfold DataService.get_top_products. cbv zeta.
    apply cache_aside_outcome; [| apply store_outcome].
    apply warm_up_read. discriminate. }
  split.
  { unfold DataService.get_visual_content_stats. cbv zeta.
    apply cache_aside_outcome; [| apply store_outcome].
    apply warm_up_read. discriminate. }
  intros. unfold DataService.get_engagement_metrics. cbv zeta.
  apply cache_aside_outcome; [| apply store_outcome].
  apply warm_up_read. discriminate.
Qed.

(** ** Daily trends *)

(** X23.  [get_daily_trends] answers 500 to every request and never
    touches the cache.  For a metric it knows the session refuses the
    statement, a plain [str], and the detail is the text of that refusal;
    for any other metric the detail is the text of the 400 the route
    raised.  It never answers 200 or 400. *)
Theorem daily_trends_status (metric : string) (days : Z) (db : Session.t)
    (redis_client : option Redis.client) (r : Redis.t) :
  let out := reports.get_daily_trends metric days db redis_client r in
  out.2 = r
  /\ status out.1 = 500%Z
  /\ out.1
     = Raise (HTTPException 500
                (if reports.known_metric metric
                 then Session.refusal db (reports.trend_query metric)
                 else "400: Invalid metric")).
Proof.
  intros out. unfold out, reports.get_daily_trends, guarded, await.
  destruct (reports.known_metric metric);
    unfold ret, raise, lift, Session.execute_str; cbn;
    repeat split; reflexivity.
Qed.
